(** * keto-k8 master bootstrap (package kmm and package kubeadm)

    A shallow embedding of the election-and-asset-sharing coordinator of
    keto-k8: [CreateOrGetSharedAssets], [BootstrapOnce],
    [BootstrapSecondaryMaster], [CleanUp] and [stringToMap] from package
    kmm, and [LoadAndSerializeAssets] / [SaveAssets] from package kubeadm.

    Go strings are byte strings; they are modelled as Rocq [string], a list
    of 8-bit [ascii] characters.  The JSON encoding of the shared assets
    ([encoding/json]), the PEM encoding of keys and certificates
    ([encoding/pem] with [encoding/base64]) are written out as the Go
    standard library computes them, for the values this program uses. *)

From Stdlib Require Import ZArith Lia.
From stdpp Require Import base gmap strings list.
From Stdlib Require Import Ascii String.

Local Open Scope Z_scope.
Local Set Warnings "-register-all".
(* stdpp makes string append [simpl never]; let [simpl] compute it again. *)
#[local] Arguments String.append : simpl nomatch.

(* ------------------------------------------------------------------ *)
(** ** Bytes *)

Definition byte_val (c : ascii) : Z := Z.of_N (N_of_ascii c).
Definition chr (n : Z) : ascii := ascii_of_N (Z.to_N n).

Definition dq : ascii := "034"%char.   (* double quote *)
Definition bsl : ascii := "092"%char.  (* '\\' *)
Definition nl : ascii := "010"%char.   (* '\n' *)

Definition str1 (c : ascii) : string := String c EmptyString.

(** The bytes of [s] are all below [utf8.RuneSelf] (0x80). *)
Fixpoint is_ascii (s : string) : bool :=
  match s with
  | EmptyString => true
  | String c s' => (byte_val c <? 128) && is_ascii s'
  end.

(* ------------------------------------------------------------------ *)
(** ** unicode/utf8 and unicode/utf16 *)

Definition RuneError : Z := 65533.   (* U+FFFD *)

Definition is_cont (c : ascii) : bool :=
  (128 <=? byte_val c) && (byte_val c <=? 191).

(** [utf8.DecodeRuneInString]: the rune at the start of [s] and its width;
    [(RuneError, 1)] for an invalid or truncated encoding. *)
Definition DecodeRuneInString (s : string) : Z * nat :=
  match s with
  | EmptyString => (RuneError, 0%nat)
  | String c0 r0 =>
    let b0 := byte_val c0 in
    if b0 <? 128 then (b0, 1%nat)
    else if (b0 <? 194) || (244 <? b0) then (RuneError, 1%nat)
    else
      match r0 with
      | EmptyString => (RuneError, 1%nat)
      | String c1 r1 =>
        let b1 := byte_val c1 in
        let lo := if b0 =? 224 then 160 else if b0 =? 240 then 144 else 128 in
        let hi := if b0 =? 237 then 159 else if b0 =? 244 then 143 else 191 in
        if negb ((lo <=? b1) && (b1 <=? hi)) then (RuneError, 1%nat)
        else if b0 <? 224 then
          (Z.lor (Z.shiftl (Z.land b0 31) 6) (Z.land b1 63), 2%nat)
        else
          match r1 with
          | EmptyString => (RuneError, 1%nat)
          | String c2 r2 =>
            let b2 := byte_val c2 in
            if negb (is_cont c2) then (RuneError, 1%nat)
            else if b0 <? 240 then
              (Z.lor (Z.lor (Z.shiftl (Z.land b0 15) 12) (Z.shiftl (Z.land b1 63) 6))
                     (Z.land b2 63), 3%nat)
            else
              match r2 with
              | EmptyString => (RuneError, 1%nat)
              | String c3 _ =>
                let b3 := byte_val c3 in
                if negb (is_cont c3) then (RuneError, 1%nat)
                else (Z.lor (Z.lor (Z.lor (Z.shiftl (Z.land b0 7) 18)
                                           (Z.shiftl (Z.land b1 63) 12))
                                   (Z.shiftl (Z.land b2 63) 6)) (Z.land b3 63), 4%nat)
              end
          end
      end
  end.

(** [utf8.EncodeRune] (runes out of range or surrogates become U+FFFD). *)
Definition EncodeRune (r : Z) : string :=
  let r := if (r <? 0) || (1114111 <? r) || ((55296 <=? r) && (r <=? 57343))
           then RuneError else r in
  if r <? 128 then str1 (chr r)
  else if r <? 2048 then
    String (chr (Z.lor 192 (Z.shiftr r 6))) (str1 (chr (Z.lor 128 (Z.land r 63))))
  else if r <? 65536 then
    String (chr (Z.lor 224 (Z.shiftr r 12)))
      (String (chr (Z.lor 128 (Z.land (Z.shiftr r 6) 63)))
        (str1 (chr (Z.lor 128 (Z.land r 63)))))
  else
    String (chr (Z.lor 240 (Z.shiftr r 18)))
      (String (chr (Z.lor 128 (Z.land (Z.shiftr r 12) 63)))
        (String (chr (Z.lor 128 (Z.land (Z.shiftr r 6) 63)))
          (str1 (chr (Z.lor 128 (Z.land r 63)))))).

Definition IsSurrogate (r : Z) : bool := (55296 <=? r) && (r <? 57344).

(** [utf16.DecodeRune] *)
Definition DecodeRune16 (r1 r2 : Z) : Z :=
  if (55296 <=? r1) && (r1 <? 56320) && (56320 <=? r2) && (r2 <? 57344)
  then Z.lor (Z.shiftl (r1 - 55296) 10) (r2 - 56320) + 65536
  else RuneError.

(* ------------------------------------------------------------------ *)
(** ** encoding/json: string encoding ([encodeState.string], escapeHTML) *)

Definition hex_digit (n : Z) : ascii :=
  match String.get (Z.to_nat n) "0123456789abcdef" with
  | Some c => c
  | None => "0"%char
  end.

(** [htmlSafeSet]: printable ASCII except the double quote, the backslash, '<', '>' and '&'. *)
Definition htmlSafe (b : Z) : bool :=
  (32 <=? b) && (b <? 128) && negb (b =? 34) && negb (b =? 92)
  && negb (b =? 60) && negb (b =? 62) && negb (b =? 38).

(** The encoding of one byte below 0x80. *)
Definition escape_ascii (c : ascii) : string :=
  let b := byte_val c in
  if htmlSafe b then str1 c
  else if (b =? 92) || (b =? 34) then String bsl (str1 c)
  else if b =? 10 then String bsl "n"
  else if b =? 13 then String bsl "r"
  else if b =? 9 then String bsl "t"
  else String bsl (String "u"%char (String "0"%char (String "0"%char
         (String (hex_digit (Z.shiftr b 4)) (str1 (hex_digit (Z.land b 15))))))).

(** The loop of [encodeState.string]; [fuel] bounds the number of runes. *)
Fixpoint escape_body (fuel : nat) (s : string) : string :=
  match fuel with
  | O => EmptyString
  | S fuel' =>
    match s with
    | EmptyString => EmptyString
    | String c s' =>
      if byte_val c <? 128 then escape_ascii c ++ escape_body fuel' s'
      else
        let '(r, size) := DecodeRuneInString s in
        if (r =? RuneError) && (size =? 1)%nat then
          String bsl "ufffd" ++ escape_body fuel' s'
        else if (r =? 8232) || (r =? 8233) then
          String bsl "u202" ++ str1 (hex_digit (Z.land r 15))
            ++ escape_body fuel' (substring size (String.length s - size) s)
        else substring 0 size s
            ++ escape_body fuel' (substring size (String.length s - size) s)
    end
  end.

Definition json_string (s : string) : string :=
  String dq (escape_body (String.length s) s ++ str1 dq).

(* ------------------------------------------------------------------ *)
(** ** Errors

    Go [error] values the program produces or tests.  [ErrKeyMissing] is
    the sentinel [etcd.ErrKeyMissing] compared with [==]; [ErrMsg] stands
    for any other error (e.g. one returned by a collaborator). *)

Inductive err :=
| ErrKeyMissing
| ErrMsg (msg : string)
| ErrWrap (msg : string) (cause : err)
| ErrJSONSyntax
| ErrUnmarshalType (value : string).

(* ------------------------------------------------------------------ *)
(** ** encoding/json: decoding *)

Inductive json :=
| JNull
| JBool (b : bool)
| JNumber (raw : string)
| JString (s : string)
| JArray (l : list json)
| JObject (kvs : list (string * json)).

Definition is_ws (c : ascii) : bool :=
  let b := byte_val c in (b =? 32) || (b =? 9) || (b =? 10) || (b =? 13).

Fixpoint skip_ws (s : string) : string :=
  match s with
  | String c s' => if is_ws c then skip_ws s' else s
  | EmptyString => s
  end.

Definition hex_val (c : ascii) : option Z :=
  let b := byte_val c in
  if (48 <=? b) && (b <=? 57) then Some (b - 48)
  else if (97 <=? b) && (b <=? 102) then Some (b - 87)
  else if (65 <=? b) && (b <=? 70) then Some (b - 55)
  else None.

(** [getu4]: the code of a [\uXXXX] escape at the start of [s], and the
    rest of [s] after it. *)
Definition getu4 (s : string) : option (Z * string) :=
  match s with
  | String b (String u (String x1 (String x2 (String x3 (String x4 rest))))) =>
    if Ascii.eqb b bsl && Ascii.eqb u "u"%char then
      match hex_val x1, hex_val x2, hex_val x3, hex_val x4 with
      | Some h1, Some h2, Some h3, Some h4 =>
        Some (((h1 * 16 + h2) * 16 + h3) * 16 + h4, rest)
      | _, _, _, _ => None
      end
    else None
  | _ => None
  end.

(** One element of a string literal (an escape sequence or a raw rune) as
    the scanner ([checkValid]) accepts it and [unquote] decodes it: the
    bytes it stands for and the rest of the input. *)
Definition str_elem (s : string) : option (string * string) :=
  match s with
  | EmptyString => None
  | String c s1 =>
    if Ascii.eqb c bsl then
      match s1 with
      | EmptyString => None
      | String e s2 =>
        let b := byte_val e in
        if (b =? 34) || (b =? 92) || (b =? 47) then Some (str1 e, s2)
        else if b =? 98 then Some (str1 (chr 8), s2)
        else if b =? 102 then Some (str1 (chr 12), s2)
        else if b =? 110 then Some (str1 (chr 10), s2)
        else if b =? 114 then Some (str1 (chr 13), s2)
        else if b =? 116 then Some (str1 (chr 9), s2)
        else if b =? 117 then
          match getu4 s with
          | None => None
          | Some (rr, s3) =>
            if IsSurrogate rr then
              match getu4 s3 with
              | Some (rr1, s4) =>
                let d := DecodeRune16 rr rr1 in
                if d =? RuneError then Some (EncodeRune RuneError, s3)
                else Some (EncodeRune d, s4)
              | None => Some (EncodeRune RuneError, s3)
              end
            else Some (EncodeRune rr, s3)
          end
        else None
      end
    else if byte_val c <? 32 then None
    else if byte_val c <? 128 then Some (str1 c, s1)
    else
      let '(r, size) := DecodeRuneInString s in
      if (r =? RuneError) && (size =? 1)%nat then Some (EncodeRune RuneError, s1)
      else Some (substring 0 size s, substring size (String.length s - size) s)
  end.

(** The body of a string literal up to and including its closing quote. *)
Fixpoint str_body (fuel : nat) (s : string) : option (string * string) :=
  match fuel with
  | O => None
  | S fuel' =>
    match s with
    | EmptyString => None
    | String c s' =>
      if Ascii.eqb c dq then Some (EmptyString, s')
      else
        match str_elem s with
        | None => None
        | Some (o, r) =>
          match str_body fuel' r with
          | None => None
          | Some (o', r') => Some ((o ++ o')%string, r')
          end
        end
    end
  end.

Definition p_string (fuel : nat) (s : string) : option (string * string) :=
  match s with
  | String c s' => if Ascii.eqb c dq then str_body fuel s' else None
  | EmptyString => None
  end.

Definition is_digit (c : ascii) : bool :=
  (48 <=? byte_val c) && (byte_val c <=? 57).

Fixpoint digits (s : string) : string * string :=
  match s with
  | String c s' =>
    if is_digit c then let '(d, r) := digits s' in (String c d, r) else (EmptyString, s)
  | EmptyString => (EmptyString, s)
  end.

Definition nonempty (s : string) : bool :=
  match s with EmptyString => false | _ => true end.

(** A JSON number: [-? (0 | [1-9][0-9]* ) (. [0-9]+)? ([eE] [+-]? [0-9]+)?]. *)
Definition p_number (s : string) : option (string * string) :=
  let '(sign, s1) := match s with
                     | String c r => if Ascii.eqb c "-"%char then (str1 c, r) else (EmptyString, s)
                     | EmptyString => (EmptyString, s)
                     end in
  let int_part :=
    match s1 with
    | String c r =>
      if Ascii.eqb c "0"%char then Some (str1 c, r)
      else if is_digit c then let '(d, r') := digits r in Some (String c d, r')
      else None
    | EmptyString => None
    end in
  match int_part with
  | None => None
  | Some (ip, s2) =>
    let frac :=
      match s2 with
      | String c r =>
        if Ascii.eqb c "."%char then
          let '(d, r') := digits r in if nonempty d then Some (String c d, r') else None
        else Some (EmptyString, s2)
      | EmptyString => Some (EmptyString, s2)
      end in
    match frac with
    | None => None
    | Some (fp, s3) =>
      let expo :=
        match s3 with
        | String c r =>
          if Ascii.eqb c "e"%char || Ascii.eqb c "E"%char then
            let '(sg, r1) := match r with
                             | String c' r' =>
                               if Ascii.eqb c' "+"%char || Ascii.eqb c' "-"%char
                               then (str1 c', r') else (EmptyString, r)
                             | EmptyString => (EmptyString, r)
                             end in
            let '(d, r2) := digits r1 in
            if nonempty d then Some (String c (sg ++ d)%string, r2) else None
          else Some (EmptyString, s3)
        | EmptyString => Some (EmptyString, s3)
        end in
      match expo with
      | None => None
      | Some (ep, s4) => Some ((sign ++ ip ++ fp ++ ep)%string, s4)
      end
    end
  end.

Definition starts_with (p s : string) : bool := String.prefix p s.
Definition drop (n : nat) (s : string) : string := substring n (String.length s - n) s.

(** JSON values, as [checkValid] accepts them and [d.value] reads them.
    [fuel] bounds the nesting; [sfuel] bounds the length of string literals. *)
Fixpoint p_value (sfuel fuel : nat) (s : string) {struct fuel} : option (json * string) :=
  match fuel with
  | O => None
  | S fuel' =>
    let s := skip_ws s in
    match s with
    | EmptyString => None
    | String c s' =>
      if Ascii.eqb c "{"%char then
        let s1 := skip_ws s' in
        match s1 with
        | String c1 s1' =>
          if Ascii.eqb c1 "}"%char then Some (JObject [], s1')
          else match p_members sfuel fuel' s1 with
               | Some (kvs, r) => Some (JObject kvs, r)
               | None => None
               end
        | EmptyString => None
        end
      else if Ascii.eqb c "["%char then
        let s1 := skip_ws s' in
        match s1 with
        | String c1 s1' =>
          if Ascii.eqb c1 "]"%char then Some (JArray [], s1')
          else match p_elems sfuel fuel' s1 with
               | Some (l, r) => Some (JArray l, r)
               | None => None
               end
        | EmptyString => None
        end
      else if Ascii.eqb c dq then
        match p_string sfuel s with
        | Some (str, r) => Some (JString str, r)
        | None => None
        end
      else if starts_with "true" s then Some (JBool true, drop 4 s)
      else if starts_with "false" s then Some (JBool false, drop 5 s)
      else if starts_with "null" s then Some (JNull, drop 4 s)
      else match p_number s with
           | Some (raw, r) => Some (JNumber raw, r)
           | None => None
           end
    end
  end
(** Object members after the opening brace, through the closing brace. *)
with p_members (sfuel fuel : nat) (s : string) {struct fuel} : option (list (string * json) * string) :=
  match fuel with
  | O => None
  | S fuel' =>
    match p_string sfuel (skip_ws s) with
    | None => None
    | Some (k, r) =>
      match skip_ws r with
      | String c r1 =>
        if Ascii.eqb c ":"%char then
          match p_value sfuel fuel' r1 with
          | None => None
          | Some (v, r2) =>
            match skip_ws r2 with
            | String c2 r3 =>
              if Ascii.eqb c2 ","%char then
                match p_members sfuel fuel' r3 with
                | Some (kvs, r4) => Some ((k, v) :: kvs, r4)
                | None => None
                end
              else if Ascii.eqb c2 "}"%char then Some ([(k, v)], r3)
              else None
            | EmptyString => None
            end
          end
        else None
      | EmptyString => None
      end
    end
  end
(** Array elements after the opening bracket, through the closing bracket. *)
with p_elems (sfuel fuel : nat) (s : string) {struct fuel} : option (list json * string) :=
  match fuel with
  | O => None
  | S fuel' =>
    match p_value sfuel fuel' s with
    | None => None
    | Some (v, r) =>
      match skip_ws r with
      | String c r1 =>
        if Ascii.eqb c ","%char then
          match p_elems sfuel fuel' r1 with
          | Some (l, r2) => Some (v :: l, r2)
          | None => None
          end
        else if Ascii.eqb c "]"%char then Some ([v], r1)
        else None
      | EmptyString => None
      end
    end
  end.

(** [checkValid] and the parse of a whole document: one value, then only
    white space. *)
Definition json_parse (data : string) : option json :=
  let n := S (String.length data) in
  match p_value n n data with
  | Some (v, r) => if nonempty (skip_ws r) then None else Some v
  | None => None
  end.

(* ------------------------------------------------------------------ *)
(** ** kubeadm.SharedAssets and its JSON form *)

Record SharedAssets := mkSharedAssets {
  FrontProxyCa : string;
  FrontProxyCaKey : string;
  SaPub : string;
  SaKey : string
}.

Definition SharedAssets_zero : SharedAssets :=
  mkSharedAssets EmptyString EmptyString EmptyString EmptyString.

Inductive sa_field := F_FrontProxyCa | F_FrontProxyCaKey | F_SaPub | F_SaKey.

(** The fields in declaration order, with their JSON names. *)
Definition sa_fields : list (sa_field * string) :=
  [(F_FrontProxyCa, "FrontProxyCa"); (F_FrontProxyCaKey, "FrontProxyCaKey");
   (F_SaPub, "SaPub"); (F_SaKey, "SaKey")].

Definition get_field (sa : SharedAssets) (f : sa_field) : string :=
  match f with
  | F_FrontProxyCa => FrontProxyCa sa
  | F_FrontProxyCaKey => FrontProxyCaKey sa
  | F_SaPub => SaPub sa
  | F_SaKey => SaKey sa
  end.

Definition set_field (sa : SharedAssets) (f : sa_field) (v : string) : SharedAssets :=
  match f with
  | F_FrontProxyCa => mkSharedAssets v (FrontProxyCaKey sa) (SaPub sa) (SaKey sa)
  | F_FrontProxyCaKey => mkSharedAssets (FrontProxyCa sa) v (SaPub sa) (SaKey sa)
  | F_SaPub => mkSharedAssets (FrontProxyCa sa) (FrontProxyCaKey sa) v (SaKey sa)
  | F_SaKey => mkSharedAssets (FrontProxyCa sa) (FrontProxyCaKey sa) (SaPub sa) v
  end.

(** ASCII lower case, for the case-insensitive match of object keys to
    field names (encoding/json also folds the Kelvin sign and the long s,
    which are not modelled). *)
Definition lower (c : ascii) : ascii :=
  let b := byte_val c in if (65 <=? b) && (b <=? 90) then chr (b + 32) else c.

Fixpoint fold_eq (a b : string) : bool :=
  match a, b with
  | EmptyString, EmptyString => true
  | String x a', String y b' => Ascii.eqb (lower x) (lower y) && fold_eq a' b'
  | _, _ => false
  end.

(** The field a key names: an exact match first, then a case-insensitive one. *)
Definition field_for_key (k : string) : option sa_field :=
  match List.find (fun p => String.eqb (snd p) k) sa_fields with
  | Some (f, _) => Some f
  | None =>
    match List.find (fun p => fold_eq (snd p) k) sa_fields with
    | Some (f, _) => Some f
    | None => None
    end
  end.

Definition save_error (e : option err) (e' : err) : option err :=
  match e with Some _ => e | None => Some e' end.

(** [json.Unmarshal(data, &sa)]: a syntax error leaves [sa] untouched; a
    top-level [null] is a no-op; an object sets the string fields it names
    (keys naming no field are skipped, [null] leaves a field alone, any
    other non-string value records an [UnmarshalTypeError] and decoding
    goes on); any other top-level value is an [UnmarshalTypeError]. *)
Definition Unmarshal (data : string) (sa : SharedAssets) : SharedAssets * option err :=
  match json_parse data with
  | None => (sa, Some ErrJSONSyntax)
  | Some JNull => (sa, None)
  | Some (JObject kvs) =>
    List.fold_left
      (fun acc kv =>
         let '(sa', e) := acc in
         match field_for_key (fst kv) with
         | None => (sa', e)
         | Some f =>
           match snd kv with
           | JString v => (set_field sa' f v, e)
           | JNull => (sa', e)
           | _ => (sa', save_error e (ErrUnmarshalType "string"))
           end
         end) kvs (sa, None)
  | Some _ => (sa, Some (ErrUnmarshalType "object"))
  end.

(** [json.Marshal(sharedAssets)]: the fields in declaration order. *)
Definition Marshal (sa : SharedAssets) : string :=
  ("{" ++ json_string "FrontProxyCa" ++ ":" ++ json_string (FrontProxyCa sa) ++ ","
   ++ json_string "FrontProxyCaKey" ++ ":" ++ json_string (FrontProxyCaKey sa) ++ ","
   ++ json_string "SaPub" ++ ":" ++ json_string (SaPub sa) ++ ","
   ++ json_string "SaKey" ++ ":" ++ json_string (SaKey sa) ++ "}")%string.

(* ------------------------------------------------------------------ *)
(** ** encoding/base64 (StdEncoding) and encoding/pem *)

Definition b64alphabet : string :=
  "ABCDEFGHIJKLMNOPQRSTUVWXYZabcdefghijklmnopqrstuvwxyz0123456789+/".

Definition b64 (n : Z) : ascii :=
  match String.get (Z.to_nat n) b64alphabet with Some c => c | None => "="%char end.

Fixpoint b64_encode (s : string) : string :=
  match s with
  | String a (String b (String c rest)) =>
    let v := Z.lor (Z.lor (Z.shiftl (byte_val a) 16) (Z.shiftl (byte_val b) 8)) (byte_val c) in
    String (b64 (Z.shiftr v 18)) (String (b64 (Z.land (Z.shiftr v 12) 63))
      (String (b64 (Z.land (Z.shiftr v 6) 63)) (String (b64 (Z.land v 63)) (b64_encode rest))))
  | String a (String b EmptyString) =>
    let v := Z.lor (Z.shiftl (byte_val a) 16) (Z.shiftl (byte_val b) 8) in
    String (b64 (Z.shiftr v 18)) (String (b64 (Z.land (Z.shiftr v 12) 63))
      (String (b64 (Z.land (Z.shiftr v 6) 63)) (str1 "="%char)))
  | String a EmptyString =>
    let v := Z.shiftl (byte_val a) 16 in
    String (b64 (Z.shiftr v 18)) (String (b64 (Z.land (Z.shiftr v 12) 63)) "==")
  | EmptyString => EmptyString
  end.

(** [pem.lineBreaker]: a newline after every 64 characters, and one after
    a last, shorter line ([Close]).  [col] is the length of the current line. *)
Fixpoint line_breaker (col : nat) (s : string) : string :=
  match s with
  | EmptyString => if (col =? 0)%nat then EmptyString else str1 nl
  | String c s' =>
    if (col =? 63)%nat then String c (String nl (line_breaker 0 s'))
    else String c (line_breaker (S col) s')
  end.

(** [pem.Block] without headers (the program sets none). *)
Record Block := mkBlock { Type_ : string; Bytes : string }.   (* Go field [Type] *)

Definition EncodeToMemory (b : Block) : string :=
  ("-----BEGIN " ++ Type_ b ++ "-----" ++ str1 nl
   ++ line_breaker 0 (b64_encode (Bytes b))
   ++ "-----END " ++ Type_ b ++ "-----" ++ str1 nl)%string.

(** Keys and certificates, by the DER encodings the PEM helpers emit:
    [cert.Raw], [x509.MarshalPKCS1PrivateKey] and
    [x509.MarshalPKIXPublicKey]. *)
Record Certificate := mkCertificate { Raw : string; IsCA : bool }.
Record PrivateKey := mkPrivateKey { pkcs1_der : string }.
Record PublicKey := mkPublicKey { pkix_der : string }.

(** certutil.EncodeCertPEM, EncodePrivateKeyPEM, EncodePublicKeyPEM *)
Definition EncodeCertPEM (c : Certificate) : string :=
  EncodeToMemory (mkBlock "CERTIFICATE" (Raw c)).
Definition EncodePrivateKeyPEM (k : PrivateKey) : string :=
  EncodeToMemory (mkBlock "RSA PRIVATE KEY" (pkcs1_der k)).
Definition EncodePublicKeyPEM (k : PublicKey) : string * option err :=
  (EncodeToMemory (mkBlock "PUBLIC KEY" (pkix_der k)), None).

(** The bundle [LoadAndSerializeAssets] builds from the loaded material. *)
Definition shared_assets_of (saPub : PublicKey) (saKey : PrivateKey)
    (frontProxyCACert : Certificate) (frontProxyCAKey : PrivateKey) : SharedAssets :=
  let '(saPubPemBytes, _) := EncodePublicKeyPEM saPub in
  {| SaPub := saPubPemBytes;
     SaKey := EncodePrivateKeyPEM saKey;
     FrontProxyCa := EncodeCertPEM frontProxyCACert;
     FrontProxyCaKey := EncodePrivateKeyPEM frontProxyCAKey |}.

(* ------------------------------------------------------------------ *)
(** ** kmm.stringToMap *)

(** [strings.Split(s, ",")] *)
Fixpoint split_comma (s : string) : list string :=
  match s with
  | EmptyString => [EmptyString]
  | String c s' =>
    if Ascii.eqb c ","%char then EmptyString :: split_comma s'
    else match split_comma s' with
         | x :: xs => String c x :: xs
         | [] => [str1 c]
         end
  end.

(** The separator function [f] of [stringToMap]. *)
Definition sep_eq_space (c : ascii) : bool :=
  Ascii.eqb c "="%char || Ascii.eqb c " "%char.

(** [strings.FieldsFunc(s, f)]: the maximal non-empty runs of characters
    not satisfying [f].  Go iterates over runes; as the separators are
    ASCII and bytes of multi-byte runes are all at least 0x80, splitting
    the bytes gives the same fields.  [cur] is the field being read. *)
Fixpoint fields_from (f : ascii -> bool) (cur : string) (s : string) : list string :=
  match s with
  | EmptyString => if nonempty cur then [cur] else []
  | String c s' =>
    if f c then (if nonempty cur then cur :: fields_from f EmptyString s'
                 else fields_from f EmptyString s')
    else fields_from f (cur ++ str1 c)%string s'
  end.

Definition FieldsFunc (s : string) (f : ascii -> bool) : list string :=
  fields_from f EmptyString s.

Definition stringToMap (args : string) : gmap string string :=
  List.fold_left
    (fun (argsMap : gmap string string) arg =>
       let argItemAry := FieldsFunc arg sep_eq_space in
       let argsMap :=
         if (List.length argItemAry =? 2)%nat
         then <[ nth 0 argItemAry EmptyString := nth 1 argItemAry EmptyString ]> argsMap
         else argsMap in
       if (List.length argItemAry =? 1)%nat
       then <[ nth 0 argItemAry EmptyString := EmptyString ]> argsMap
       else argsMap)
    (split_comma args) ∅.

(* ------------------------------------------------------------------ *)
(** ** Constants *)

Definition assetKey : string := "kmm-asset-key".
Definition assetLockKey : string := "kmm-asset-lock".

(** [time.Duration] in nanoseconds. *)
Definition Second : Z := 1000000000.
Definition defaultBackOff : Z := 20 * Second.
Definition defaultLockTTL : Z := 120 * Second.

(** kubeadm constants of the kubeadm version the program links. *)
Definition KubernetesDir : string := "/etc/kubernetes".
Definition PkiDir : string := (KubernetesDir ++ "/pki")%string.
Definition ServiceAccountKeyBaseName : string := "sa".
Definition ServiceAccountPublicKeyName : string := "sa.pub".
Definition ServiceAccountPrivateKeyName : string := "sa.key".
Definition FrontProxyCACertAndKeyBaseName : string := "front-proxy-ca".
Definition FrontProxyCACertName : string := "front-proxy-ca.crt".
Definition FrontProxyCAKeyName : string := "front-proxy-ca.key".

(* ------------------------------------------------------------------ *)
(** ** Configuration ([ConfigType]) *)

(** The fields the coordinator reads itself; the rest of [ConfigType]
    (kubeadm configuration, CA paths, node labels, ...) is only read by the
    collaborators and is part of their behaviour below. *)
Record ConfigType := mkConfigType {
  ClusterName : string;
  NetworkProvider : string;
  MasterBackOffTime : Z;
  ExitOnCompletion : bool
}.

(** [New]: the back-off is set to its default, whatever [cfg] held; the
    etcd client, the kubeadm driver and the Kmm driver it wires up are the
    collaborators of the Section below. *)
Definition New (cfg : ConfigType) : ConfigType :=
  {| ClusterName := ClusterName cfg;
     NetworkProvider := NetworkProvider cfg;
     MasterBackOffTime := defaultBackOff;
     ExitOnCompletion := ExitOnCompletion cfg |}.

(* ------------------------------------------------------------------ *)
(** ** Observable behaviour *)

(** Collaborator calls whose only result is an [error]: the methods of
    [kmm.Interface] and [kubeadm.Kubeadmer] the coordinator calls. *)
Inductive step :=
| UpdateCloudCfg | CopyKubeCa | WriteManifests
| CreatePKI | CreateKubeConfig | CreateAndStartKubelet (master : bool)
| Addons | InstallNetwork | TokensDeploy | UpdateMasterRoleLabelsAndTaints.

(** What the process does that others can see, with the results it got. *)
Inductive event :=
| EvLog (msg : string)
| EvGet (key : string) (value : string) (e : option err)
| EvGetOrCreateLock (key : string) (ttl : Z) (mylock : bool) (e : option err)
| EvPutTx (key value : string) (e : option err)
| EvDelete (key : string) (e : option err)
| EvSleep (d : Z)
| EvStep (s : step) (e : option err)
| EvWriteFile (path data : string) (perm : Z) (e : option err).

(** How a run of [CreateOrGetSharedAssets] ended within the fuel given:
    it returned, or it was still running. *)
Inductive outcome := Returned (e : option err) | Running.

(** How the election loop was left. *)
Inductive loop_exit := LoopBreak | LoopReturn (e : option err) | LoopFuelOut.

(* ------------------------------------------------------------------ *)
(** ** The coordinator *)

(** The rest of the world: the etcd cluster (with every other node racing
    on it), the local disk, the cloud provider and the collaborators.  Each
    call the program makes is answered by the world, which may also have
    changed in between in any way.  The fields are the methods of the
    interfaces the coordinator is written against. *)
Record Env (World : Type) := mkEnv {
  (** etcd.Clienter *)
  etcd_Get : string -> World -> World * (string * option err);
  etcd_GetOrCreateLock : string -> Z -> World -> World * (bool * option err);
  etcd_PutTx : string -> string -> World -> World * option err;
  etcd_Delete : string -> World -> World * option err;
  (** time.Sleep *)
  time_Sleep : Z -> World -> World;
  (** kmm.Interface and kubeadm.Kubeadmer methods returning an error *)
  collab : step -> World -> World * option err;
  (** pkiutil loaders: a value, or the error they report *)
  TryLoadKeyFromDisk : string -> string -> World -> World * (PrivateKey + err);
  TryLoadPublicKeyFromDisk : string -> string -> World -> World * (PublicKey + err);
  TryLoadCertAndKeyFromDisk :
    string -> string -> World -> World * (option Certificate * option PrivateKey * option err);
  (** ioutil.WriteFile *)
  WriteFile : string -> string -> Z -> World -> World * option err
}.
Arguments etcd_Get {World} _. Arguments etcd_GetOrCreateLock {World} _.
Arguments etcd_PutTx {World} _. Arguments etcd_Delete {World} _.
Arguments time_Sleep {World} _. Arguments collab {World} _.
Arguments TryLoadKeyFromDisk {World} _. Arguments TryLoadPublicKeyFromDisk {World} _.
Arguments TryLoadCertAndKeyFromDisk {World} _. Arguments WriteFile {World} _.

Section Coordinator.

Context {World : Type} (env : Env World).

(** The receiver [k *Config] (and the [Kmm] wired to the same data by [New]). *)
Variable cfg : ConfigType.

Record St := mkSt { world : World; trace : list event; ticks : nat }.

(** State monad over [St], with stdpp's monad notation. *)
Definition M (A : Type) : Type := St -> St * A.

#[local] Instance M_ret : MRet M := fun A a s => (s, a).
#[local] Instance M_bind : MBind M := fun A B k m s => let '(s', a) := m s in k a s'.

Definition emit (ev : event) (w : World) (s : St) : St :=
  mkSt w (trace s ++ [ev]) (ticks s).

Definition log (msg : string) : M unit := fun s => (emit (EvLog msg) (world s) s, tt).

(** One more iteration of a loop, i.e. CPU work. *)
Definition tick : M unit := fun s => (mkSt (world s) (trace s) (S (ticks s)), tt).

Definition Get (key : string) : M (string * option err) := fun s =>
  let '(w, (v, e)) := etcd_Get env key (world s) in (emit (EvGet key v e) w s, (v, e)).

Definition GetOrCreateLock (key : string) (ttl : Z) : M (bool * option err) := fun s =>
  let '(w, (b, e)) := etcd_GetOrCreateLock env key ttl (world s) in
  (emit (EvGetOrCreateLock key ttl b e) w s, (b, e)).

Definition PutTx (key value : string) : M (option err) := fun s =>
  let '(w, e) := etcd_PutTx env key value (world s) in (emit (EvPutTx key value e) w s, e).

Definition Delete (key : string) : M (option err) := fun s =>
  let '(w, e) := etcd_Delete env key (world s) in (emit (EvDelete key e) w s, e).

Definition Sleep (d : Z) : M unit := fun s =>
  (emit (EvSleep d) (time_Sleep env d (world s)) s, tt).

Definition Step (c : step) : M (option err) := fun s =>
  let '(w, e) := collab env c (world s) in (emit (EvStep c e) w s, e).

Definition LoadKey (dir base : string) : M (PrivateKey + err) := fun s =>
  let '(w, r) := TryLoadKeyFromDisk env dir base (world s) in (mkSt w (trace s) (ticks s), r).

Definition LoadPublicKey (dir base : string) : M (PublicKey + err) := fun s =>
  let '(w, r) := TryLoadPublicKeyFromDisk env dir base (world s) in (mkSt w (trace s) (ticks s), r).

Definition LoadCertAndKey (dir base : string)
    : M (option Certificate * option PrivateKey * option err) := fun s =>
  let '(w, r) := TryLoadCertAndKeyFromDisk env dir base (world s) in (mkSt w (trace s) (ticks s), r).

Definition Write (path data : string) (perm : Z) : M (option err) := fun s =>
  let '(w, e) := WriteFile env path data perm (world s) in (emit (EvWriteFile path data perm e) w s, e).

(** *** kubeadm.(Config).LoadAndSerializeAssets *)
Definition LoadAndSerializeAssets : M (string * option err) :=
  r ← LoadKey PkiDir ServiceAccountKeyBaseName ;
  match r with
  | inr e => mret (EmptyString, Some (ErrWrap "SA private key could not be loaded properly" e))
  | inl saKey =>
    r ← LoadPublicKey PkiDir ServiceAccountKeyBaseName ;
    match r with
    | inr e => mret (EmptyString, Some (ErrWrap "SA public key could not be loaded properly" e))
    | inl saPub =>
      '(c, k, e) ← LoadCertAndKey PkiDir FrontProxyCACertAndKeyBaseName ;
      match e, c, k with
      | None, Some frontProxyCACert, Some frontProxyCAKey =>
        if negb (IsCA frontProxyCACert) then
          mret (EmptyString,
                Some (ErrMsg "certificate and key could be loaded but the certificate is not a CA"))
        else
          let sharedAssets := shared_assets_of saPub saKey frontProxyCACert frontProxyCAKey in
          (* the error of json.Marshal is discarded *)
          mret (Marshal sharedAssets, None)
      | _, _, _ =>
        mret (EmptyString, Some (ErrMsg
          "Front proxy certificate and/or key existed but they could not be loaded properly"))
      end
    end
  end.

(** *** kubeadm.(Config).SaveAssets *)

(** The four writes of [SaveAssets], once the payload is decoded. *)
Definition write_shared_assets (sharedAssets : SharedAssets) : M (option err) :=
  let pkiDir := (PkiDir ++ "/")%string in
  e ← Write (pkiDir ++ ServiceAccountPublicKeyName)%string (SaPub sharedAssets) 420 ;
  match e with
  | Some e => mret (Some (ErrWrap "Service Account public key could not saved" e))
  | None =>
    e ← Write (pkiDir ++ ServiceAccountPrivateKeyName)%string (SaKey sharedAssets) 384 ;
    match e with
    | Some e => mret (Some (ErrWrap "Service Account private key could not saved" e))
    | None =>
      e ← Write (pkiDir ++ FrontProxyCACertName)%string (FrontProxyCa sharedAssets) 420 ;
      match e with
      | Some e => mret (Some (ErrWrap "Front proxy public ca cert could not saved" e))
      | None =>
        e ← Write (pkiDir ++ FrontProxyCAKeyName)%string (FrontProxyCaKey sharedAssets) 384 ;
        match e with
        | Some e => mret (Some (ErrWrap "Front proxy private key could not saved" e))
        | None => mret None
        end
      end
    end
  end.

Definition SaveAssets (assets : string) : M (option err) :=
  (* the error of json.Unmarshal is discarded *)
  let '(sharedAssets, _) := Unmarshal assets SharedAssets_zero in
  write_shared_assets sharedAssets.

(** *** kmm.(Kmm).CleanUp *)
Definition CleanUp (releaseLock deleteAssets : bool) : M (option err) :=
  e ← (if releaseLock then
         log "Releasing lock..." ;;
         e ← Delete assetLockKey ;
         match e with
         | Some _ => mret e
         | None => log "Released lock" ;; mret None
         end
       else mret None) ;
  match e with
  | Some _ => mret e
  | None =>
    if deleteAssets then
      log "Releasing assets..." ;;
      e ← Delete assetKey ;
      match e with Some _ => mret e | None => mret None end
    else mret None
  end.

(** *** kmm.(Config).BootstrapOnce *)
Definition BootstrapOnce : M (string * option err) :=
  log "Bootstrapping master..." ;;
  e ← Step CreatePKI ;
  match e with
  | Some _ => mret (EmptyString, e)
  | None =>
    (* [assets, err = k.Kubeadm.LoadAndSerializeAssets()]: [err] is not
       looked at; the next statement overwrites it *)
    '(assets, _) ← LoadAndSerializeAssets ;
    e ← Step CreateKubeConfig ;
    match e with
    | Some _ => mret (EmptyString, e)
    | None =>
      e ← Step (CreateAndStartKubelet true) ;
      match e with
      | Some _ => mret (EmptyString, e)
      | None =>
        e ← Step Addons ;
        match e with
        | Some _ => mret (EmptyString, e)
        | None =>
          e ← Step InstallNetwork ;
          match e with
          | Some _ => mret (EmptyString, e)
          | None =>
            e ← Step TokensDeploy ;
            match e with
            | Some _ => mret (EmptyString, e)
            | None => log "Master bootstrapped!" ;; mret (assets, None)
            end
          end
        end
      end
    end
  end.

(** *** kmm.(Config).BootstrapSecondaryMaster *)
Definition BootstrapSecondaryMaster (assets : string) : M (option err) :=
  log "Not primary master (in this run)..." ;;
  log "Saving assets to disk..." ;;
  e ← SaveAssets assets ;
  match e with
  | Some _ => mret e
  | None =>
    e ← Step CreatePKI ;
    match e with
    | Some _ => mret e
    | None =>
      e ← Step CreateKubeConfig ;
      match e with
      | Some _ => mret e
      | None =>
        e ← Step (CreateAndStartKubelet true) ;
        match e with
        | Some _ => mret e
        | None =>
          e ← Step UpdateMasterRoleLabelsAndTaints ;
          match e with Some _ => mret e | None => mret None end
        end
      end
    end
  end.

(** *** kmm.(Config).CreateOrGetSharedAssets *)

(** The block run under [if mylock { ... }]. *)
Definition primary_branch : M loop_exit :=
  log "Obtained lock, creating assets..." ;;
  '(assets, e) ← BootstrapOnce ;
  match e with
  | Some _ => _ ← CleanUp true false ; mret (LoopReturn e)
  | None =>
    log "Saving assets to etcd..." ;;
    e ← PutTx assetKey assets ;
    match e with
    | Some _ => _ ← CleanUp true false ; mret (LoopReturn e)
    | None => log "Assets shared to etcd" ;; mret LoopBreak
    end
  end.

(** One iteration of [for true { ... }]: [None] to go round again. *)
Definition loop_body : M (option loop_exit) :=
  '(assets, e) ← Get assetKey ;
  match e with
  | Some ErrKeyMissing =>
    log ("Assets not present in etcd..." ++ str1 nl)%string ;;
    '(mylock, e) ← GetOrCreateLock assetLockKey defaultLockTTL ;
    match e with
    | Some _ => mret (Some (LoopReturn e))
    | None =>
      if (mylock : bool) then (r ← primary_branch ; mret (Some r))
      else (Sleep (MasterBackOffTime cfg) ;; mret None)
    end
  | Some _ => mret (Some (LoopReturn e))
  | None =>
    e ← BootstrapSecondaryMaster assets ;
    match e with
    | Some _ => mret (Some (LoopReturn e))
    | None => mret (Some LoopBreak)
    end
  end.

(** The election loop, for at most [fuel] iterations. *)
Fixpoint election_loop (fuel : nat) : M loop_exit :=
  match fuel with
  | O => mret LoopFuelOut
  | S fuel' =>
    tick ;;
    r ← loop_body ;
    match r with
    | None => election_loop fuel'
    | Some x => mret x
    end
  end.

(** [for true {}], for at most [fuel] iterations. *)
Fixpoint spin (fuel : nat) : M outcome :=
  match fuel with
  | O => mret Running
  | S fuel' => tick ;; spin fuel'
  end.

(** Everything up to the end of the election loop. *)
Definition bootstrap (fuel : nat) : M loop_exit :=
  log "Determin if primary master..." ;;
  e ← Step UpdateCloudCfg ;
  match e with
  | Some _ => mret (LoopReturn e)
  | None =>
    e ← Step CopyKubeCa ;
    match e with
    | Some _ => mret (LoopReturn e)
    | None =>
      e ← Step WriteManifests ;
      match e with
      | Some _ => mret (LoopReturn e)
      | None => election_loop fuel
      end
    end
  end.

(** The whole method, each loop run for at most [fuel] iterations. *)
Definition CreateOrGetSharedAssets (fuel : nat) : M outcome :=
  r ← bootstrap fuel ;
  match r with
  | LoopReturn e => mret (Returned e)
  | LoopFuelOut => mret Running
  | LoopBreak =>
    log "Master bootstrapped" ;;
    if negb (ExitOnCompletion cfg) then spin fuel
    else mret (Returned None)
  end.

End Coordinator.

#[local] Existing Instances M_ret M_bind.

(* ------------------------------------------------------------------ *)
(** ** A simulated world, for concrete runs *)

Scheme Equality for step.

(** A single etcd key space, collaborator steps that fail, the front-proxy
    certificate's CA flag, and what a competing node publishes while this
    one sleeps. *)
Record SimWorld := mkSim {
  kv : list (string * string);
  failing : list step;
  fp_is_ca : bool;
  published_meanwhile : option string
}.

Definition kv_lookup (k : string) (l : list (string * string)) : option string :=
  match List.find (fun p => String.eqb (fst p) k) l with Some (_, v) => Some v | None => None end.

Definition kv_remove (k : string) (l : list (string * string)) : list (string * string) :=
  List.filter (fun p => negb (String.eqb (fst p) k)) l.

Definition sim_set_kv (w : SimWorld) (l : list (string * string)) : SimWorld :=
  mkSim l (failing w) (fp_is_ca w) (published_meanwhile w).

Definition sim_env : Env SimWorld := {|
  etcd_Get := fun k w =>
    match kv_lookup k (kv w) with
    | Some v => (w, (v, None))
    | None => (w, (EmptyString, Some ErrKeyMissing))
    end;
  etcd_GetOrCreateLock := fun k _ w =>
    match kv_lookup k (kv w) with
    | Some _ => (w, (false, None))
    | None => (sim_set_kv w ((k, "locked") :: kv w), (true, None))
    end;
  etcd_PutTx := fun k v w =>
    match kv_lookup k (kv w) with
    | Some _ => (w, Some (ErrMsg "key exists"))
    | None => (sim_set_kv w ((k, v) :: kv w), None)
    end;
  etcd_Delete := fun k w => (sim_set_kv w (kv_remove k (kv w)), None);
  time_Sleep := fun _ w =>
    match published_meanwhile w with
    | Some a => mkSim ((assetKey, a) :: kv_remove assetLockKey (kv w)) (failing w) (fp_is_ca w) None
    | None => w
    end;
  collab := fun c w =>
    if List.existsb (step_beq c) (failing w) then (w, Some (ErrMsg "step failed")) else (w, None);
  TryLoadKeyFromDisk := fun _ base w => (w, inl (mkPrivateKey (base ++ "-key-der")%string));
  TryLoadPublicKeyFromDisk := fun _ base w => (w, inl (mkPublicKey (base ++ "-pub-der")%string));
  TryLoadCertAndKeyFromDisk := fun _ base w =>
    (w, (Some (mkCertificate (base ++ "-cert-der")%string (fp_is_ca w)),
         Some (mkPrivateKey (base ++ "-key-der")%string), None));
  WriteFile := fun _ _ _ w => (w, None)
|}.

Definition sim_start (w : SimWorld) : St := mkSt w [] 0.

Definition test_cfg (exit : bool) : ConfigType :=
  New (mkConfigType "test" "flannel" (5 * Second) exit).

(* ------------------------------------------------------------------ *)
(** ** Vocabulary of the properties *)

(** [escape_body] on an ASCII string, one character at a time. *)
Fixpoint escape_ascii_str (s : string) : string :=
  match s with
  | EmptyString => EmptyString
  | String c s' => (escape_ascii c ++ escape_ascii_str s')%string
  end.

(** The four fields of a bundle are ASCII. *)
Definition ascii_fields (sa : SharedAssets) : bool :=
  is_ascii (FrontProxyCa sa) && is_ascii (FrontProxyCaKey sa)
  && is_ascii (SaPub sa) && is_ascii (SaKey sa).

(** Events that touch the etcd key space. *)
Definition store_event (ev : event) : bool :=
  match ev with
  | EvGet _ _ _ | EvGetOrCreateLock _ _ _ _ | EvPutTx _ _ _ | EvDelete _ _ => true
  | _ => false
  end.

(** A write (attempt) of the asset key. *)
Definition asset_put (ev : event) : bool :=
  match ev with
  | EvPutTx k _ _ => String.eqb k assetKey
  | _ => false
  end.

(** The first thing [BootstrapSecondaryMaster] does. *)
Definition secondary_marker (ev : event) : bool :=
  match ev with
  | EvLog m => String.eqb m "Not primary master (in this run)..."
  | _ => false
  end.

(** What [CleanUp(true, false)] emits when the lock delete answers [r]. *)
Definition release_lock_events (r : option err) : list event :=
  EvLog "Releasing lock..." :: EvDelete assetLockKey r
  :: match r with None => [EvLog "Released lock"] | Some _ => [] end.

Section Traces.
Context {World : Type}.

(** [m] only adds events to the trace. *)
Definition grows {A : Type} (m : @M World A) : Prop :=
  forall s, exists l, trace (fst (m s)) = trace s ++ l.

(** [m] only adds events, none of which [f] flags. *)
Definition only (f : event -> bool) {A : Type} (m : @M World A) : Prop :=
  forall s, exists l, trace (fst (m s)) = trace s ++ l /\ Forall (fun ev => f ev = false) l.

End Traces.

(** A cluster that answers every write and every delete with an error. *)
Definition flaky_env : Env SimWorld := {|
  etcd_Get := etcd_Get sim_env;
  etcd_GetOrCreateLock := etcd_GetOrCreateLock sim_env;
  etcd_PutTx := fun _ _ w => (w, Some (ErrMsg "etcd unavailable"));
  etcd_Delete := fun _ w => (w, Some (ErrMsg "etcd unavailable"));
  time_Sleep := time_Sleep sim_env;
  collab := collab sim_env;
  TryLoadKeyFromDisk := TryLoadKeyFromDisk sim_env;
  TryLoadPublicKeyFromDisk := TryLoadPublicKeyFromDisk sim_env;
  TryLoadCertAndKeyFromDisk := TryLoadCertAndKeyFromDisk sim_env;
  WriteFile := WriteFile sim_env
|}.

(** A cluster whose every get fails with an error other than a missing key. *)
Definition unreachable_env : Env SimWorld := {|
  etcd_Get := fun _ w => (w, (EmptyString, Some (ErrMsg "etcd unavailable")));
  etcd_GetOrCreateLock := etcd_GetOrCreateLock sim_env;
  etcd_PutTx := etcd_PutTx sim_env;
  etcd_Delete := etcd_Delete sim_env;
  time_Sleep := time_Sleep sim_env;
  collab := collab sim_env;
  TryLoadKeyFromDisk := TryLoadKeyFromDisk sim_env;
  TryLoadPublicKeyFromDisk := TryLoadPublicKeyFromDisk sim_env;
  TryLoadCertAndKeyFromDisk := TryLoadCertAndKeyFromDisk sim_env;
  WriteFile := WriteFile sim_env
|}.

(** The lock is held by another node and no assets are published yet. *)
Definition contended : SimWorld := mkSim [(assetLockKey, "locked")] [] true None.

(** The payload a primary publishes in the simulated world. *)
Definition sim_payload : string :=
  Marshal (shared_assets_of (mkPublicKey "sa-pub-der") (mkPrivateKey "sa-key-der")
             (mkCertificate "front-proxy-ca-cert-der" true) (mkPrivateKey "front-proxy-ca-key-der")).

(** The front-proxy certificate on disk is not a CA; nothing is published. *)
Definition not_ca_world : SimWorld := mkSim [] [] false None.

(** Another node published a payload that is not JSON. *)
Definition garbage_world : SimWorld := mkSim [(assetKey, "garbage")] [] true None.

(** The shared assets are already published. *)
Definition published_world : SimWorld := mkSim [(assetKey, sim_payload)] [] true None.

(** A caller's configuration asking for a 5 s back-off. *)
Definition cfg_5s : ConfigType := mkConfigType "test" "flannel" (5 * Second) true.

(** What one comma-separated item of [stringToMap] contributes, as the
    claim describes it: two fields map the first to the second, one field
    maps to the empty string, any other count contributes nothing. *)
Definition item_entry (item : string) : option (string * string) :=
  match FieldsFunc item sep_eq_space with
  | [k; v] => Some (k, v)
  | [k] => Some (k, EmptyString)
  | _ => None
  end.

Definition apply_item (m : gmap string string) (item : string) : gmap string string :=
  match item_entry item with Some (k, v) => <[k:=v]> m | None => m end.

(** The value the last item with key [k] gives it, if any. *)
Fixpoint last_entry (k : string) (items : list string) : option string :=
  match items with
  | [] => None
  | x :: xs =>
    match last_entry k xs with
    | Some v => Some v
    | None =>
      match item_entry x with
      | Some (k', v) => if String.eqb k' k then Some v else None
      | None => None
      end
    end
  end.

Fixpoint has_char (c : ascii) (s : string) : bool :=
  match s with
  | EmptyString => false
  | String c' s' => Ascii.eqb c' c || has_char c s'
  end.

Definition is_sleep (ev : event) : bool :=
  match ev with EvSleep _ => true | _ => false end.

Definition is_lock_request (ev : event) : bool :=
  match ev with EvGetOrCreateLock _ _ _ _ => true | _ => false end.


(* ================================================================== *)
(** * The kubeadm driver, the kubectl client and the node set-up

    The methods the coordinator above calls as collaborator [step]s, written
    out: [kubeadm.Config.CreatePKI], [CreateKubeConfig], [WriteManifests]
    with [GetKubeadmCfg], [createAKubeCfg], [runKubeadm] and [getHost];
    [k8client.Create]; and [kmm.Kmm.CopyKubeCa], [UpdateCloudCfg] with
    [SetupCompute].  The trace records what the commands and the file
    system see; the log lines these functions print are not recorded. *)

(* ------------------------------------------------------------------ *)
(** ** Go standard library: strings, net/url, net, strconv (Go 1.8) *)

(** [strings.IndexByte] *)
Fixpoint IndexByte (s : string) (c : ascii) : option nat :=
  match s with
  | EmptyString => None
  | String x r => if Ascii.eqb x c then Some 0%nat else option_map S (IndexByte r c)
  end.

(** [strings.LastIndexByte] *)
Fixpoint LastIndexByte (s : string) (c : ascii) : option nat :=
  match s with
  | EmptyString => None
  | String x r =>
    match LastIndexByte r c with
    | Some i => Some (S i)
    | None => if Ascii.eqb x c then Some 0%nat else None
    end
  end.

(** [strings.Index] for a non-empty pattern *)
Fixpoint Index (s p : string) : option nat :=
  if String.prefix p s then Some 0%nat
  else match s with
       | EmptyString => None
       | String _ r => option_map S (Index r p)
       end.

(** [s[:i]] and [s[i:]] (in range) *)
Definition take_s (i : nat) (s : string) : string := substring 0 i s.

(** The value of a [*T] that may be nil: [None] is the nil pointer. *)
Inductive res (A : Type) := Ok (a : A) | Panic (msg : string).
Arguments Ok {A} _. Arguments Panic {A} _.

Definition nil_deref : string := "invalid memory address or nil pointer dereference".

Module url.

(** The fields of [url.URL] this program reads. *)
Record URL := mkURL { Scheme : string; Host : string; Path : string }.

(** [portOnly] of net/url, behind [URL.Port] *)
Definition portOnly (hostport : string) : string :=
  match IndexByte hostport ":" with
  | None => EmptyString
  | Some colon =>
    match Index hostport "]:" with
    | Some i => drop (i + 2) hostport
    | None => if has_char "]" hostport then EmptyString else drop (S colon) hostport
    end
  end.

(** [URL.Port]: on a nil [*URL] it dereferences nil. *)
Definition Port (u : option URL) : res string :=
  match u with Some u => Ok (portOnly (Host u)) | None => Panic nil_deref end.

End url.

Module net.

(** [AddrError.Error] *)
Definition addrErr (addr why : string) : string * string * option err :=
  (EmptyString, EmptyString,
   Some (ErrMsg (if String.eqb addr EmptyString then why else "address " ++ addr ++ ": " ++ why)))%string.

Definition missingPort : string := "missing port in address".
Definition tooManyColons : string := "too many colons in address".

(** [net.SplitHostPort] *)
Definition SplitHostPort (hostport : string) : string * string * option err :=
  match LastIndexByte hostport ":" with
  | None => addrErr hostport missingPort
  | Some i =>
    let r :=
      match hostport with
      | String "["%char _ =>
        match IndexByte hostport "]" with
        | None => inr (addrErr hostport "missing ']' in address")
        | Some end_ =>
          if (S end_ =? String.length hostport)%nat then inr (addrErr hostport missingPort)
          else if (S end_ =? i)%nat then inl (substring 1 (end_ - 1) hostport, 1%nat, S end_)
          else match get (S end_) hostport with
               | Some ":"%char => inr (addrErr hostport tooManyColons)
               | _ => inr (addrErr hostport missingPort)
               end
        end
      | _ =>
        let host := take_s i hostport in
        if has_char ":" host then inr (addrErr hostport tooManyColons)
        else if has_char "%" host then inr (addrErr hostport "missing brackets in address")
        else inl (host, 0%nat, 0%nat)
      end in
    match r with
    | inr e => e
    | inl (host, j, k) =>
      if has_char "[" (drop j hostport) then addrErr hostport "unexpected '[' in address"
      else if has_char "]" (drop k hostport) then addrErr hostport "unexpected ']' in address"
      else (host, drop (S i) hostport, None)
    end
  end.

End net.

Module strconv.

(** A [*NumError]: [Func], [Num] and the cause; its text also quotes [Num],
    which is not modelled. *)
Definition numError (fn num reason : string) : err :=
  ErrWrap ("strconv." ++ fn ++ ": parsing " ++ num) (ErrMsg reason).

Definition ErrSyntax : string := "invalid syntax".
Definition ErrRange : string := "value out of range".

Definition maxUint64 : Z := 2 ^ 64 - 1.

Definition digit_val (d : ascii) : option Z :=
  let b := byte_val d in
  if (48 <=? b) && (b <=? 57) then Some (b - 48)
  else if (97 <=? b) && (b <=? 122) then Some (b - 97 + 10)
  else if (65 <=? b) && (b <=? 90) then Some (b - 65 + 10)
  else None.

(** The loop of [ParseUint]: [inl n] when it ran to the end, [inr (n, why)]
    at its [goto Error]. *)
Fixpoint parse_uint_loop (base cutoff maxVal n : Z) (s : string) : Z + (Z * string) :=
  match s with
  | EmptyString => inl n
  | String d r =>
    match digit_val d with
    | None => inr (0, ErrSyntax)
    | Some v =>
      if base <=? v then inr (0, ErrSyntax)
      else if cutoff <=? n then inr (maxVal, ErrRange)
      else
        let n := (n * base) mod 2 ^ 64 in
        let n1 := (n + v) mod 2 ^ 64 in
        if (n1 <? n) || (maxVal <? n1) then inr (maxVal, ErrRange)
        else parse_uint_loop base cutoff maxVal n1 r
    end
  end.

(** [strconv.ParseUint(s, base, bitSize)] for [2 <= base <= 36] *)
Definition ParseUint (s : string) (base bitSize : Z) : Z * option (string * string) :=
  if (String.length s =? 0)%nat then (0, Some ("ParseUint", ErrSyntax))
  else match parse_uint_loop base (maxUint64 / base + 1) (2 ^ bitSize - 1) 0 s with
       | inl n => (n, None)
       | inr (n, why) => (n, Some ("ParseUint", why))
       end.

(** The range check of [ParseInt] on the unsigned value [un] of [s]. *)
Definition int_range (s : string) (bitSize : Z) (neg : bool) (un : Z) : Z * option err :=
  let cutoff := 2 ^ (bitSize - 1) in
  if negb neg && (cutoff <=? un) then (cutoff - 1, Some (numError "ParseInt" s ErrRange))
  else if neg && (cutoff <? un) then (- cutoff, Some (numError "ParseInt" s ErrRange))
  else ((if neg then - un else un), None).

(** [strconv.ParseInt(s, base, bitSize)] *)
Definition ParseInt (s : string) (base bitSize : Z) : Z * option err :=
  match s with
  | EmptyString => (0, Some (numError "ParseInt" s ErrSyntax))
  | String c r =>
    let '(neg, u) :=
      if Ascii.eqb c "+" then (false, r) else if Ascii.eqb c "-" then (true, r) else (false, s) in
    let '(un, e) := ParseUint u base bitSize in
    match e with
    | Some (_, why) =>
      if String.eqb why ErrRange then int_range s bitSize neg un
      else (0, Some (numError "ParseInt" s why))
    | None => int_range s bitSize neg un
    end
  end.

End strconv.

(* ------------------------------------------------------------------ *)
(** ** The data the driver works on *)

Module etcd.
(** The fields of [etcd.Client] this program reads. *)
Record Client := mkClient {
  Endpoints : string; CaFileName : string; ClientCertFileName : string; ClientKeyFileName : string
}.
Definition Client_zero : Client := mkClient EmptyString EmptyString EmptyString EmptyString.
End etcd.

Module kubeadmapi.
(** The fields of [kubeadmapi.MasterConfiguration] that [GetKubeadmCfg]
    sets ([API.BindPort], [API.AdvertiseAddress], [Etcd.*], [Networking.*]
    flattened); a slice or map left unset is nil, i.e. empty. *)
Record MasterConfiguration := mkMasterConfiguration {
  BindPort : Z; AdvertiseAddress : string;
  Endpoints : list string; CAFile : string; CertFile : string; KeyFile : string;
  KubernetesVersion : string; CertificatesDir : string; CloudProvider : string;
  DNSDomain : string; ServiceSubnet : string; PodSubnet : string;
  APIServerExtraArgs : gmap string string;
  ControllerManagerExtraArgs : gmap string string;
  SchedulerExtraArgs : gmap string string
}.
Definition MasterConfiguration_zero : MasterConfiguration :=
  mkMasterConfiguration 0 EmptyString [] EmptyString EmptyString EmptyString EmptyString
    EmptyString EmptyString EmptyString EmptyString EmptyString ∅ ∅ ∅.
End kubeadmapi.

Module cloudprovider.
Record KubeArgs := mkKubeArgs {
  APIServerExtraArgs : string; ControllerManagerExtraArgs : string;
  SchedulerExtraArgs : string; KubeletExtraArgs : string
}.
(** [cloudprovider.NodeData] *)
Record NodeData := mkNodeData {
  ClusterName : string; KubeAPIURL : string; KubeVersion : string;
  Labels : gmap string string; Taints : gmap string string; KubeArgs_ : KubeArgs   (* Go [KubeArgs] *)
}.
End cloudprovider.

(** [os.Stat]: a result, or an error for which [os.IsNotExist] holds or not. *)
Inductive stat_result := StatOk | StatErr (notExist : bool) (e : err).

Definition IsNotExist (r : stat_result) : bool :=
  match r with StatErr b _ => b | StatOk => false end.

(** What the driver does that others can see, with the results it got. *)
Inductive devent :=
| DExec (cmd : string) (args : list string) (stdin out : string) (e : option err)
| DHostname (name : string) (e : option err)
| DWriteFile (path data : string) (perm : Z) (e : option err)
| DStaticPods (cfg : kubeadmapi.MasterConfiguration) (masterCount : nat) (e : option err)
| DStat (path : string) (r : stat_result)
| DMkdir (path : string) (perm : Z) (e : option err)
| DCopyFile (src dst : string) (e : option err)
| DSymlinkFile (src dst : string) (e : option err)
| DNodeInterface (provider : string) (e : option err)
| DGetNodeData (e : option err)
| DTokenEnv (cloud apiServer : string) (e : option err)
| DKubelet (master : bool) (e : option err).

(** The rest of the world, for the driver: the commands it runs, the file
    system, the cloud provider and the libraries of keto-k8 that are not
    part of the sources ([fileutil], [tokens], [master], the kubelet
    set-up), plus the two [net/url] functions used on API server URLs. *)
Record DEnv (World Node : Type) := mkDEnv {
  (** [exec.Command(name, args...)] with [Stdin], then [CombinedOutput] *)
  d_exec : string -> list string -> string -> World -> World * (string * option err);
  d_Hostname : World -> World * (string * option err);
  d_WriteFile : string -> string -> Z -> World -> World * option err;
  (** [master.WriteStaticPodManifests] *)
  d_WriteStaticPodManifests : kubeadmapi.MasterConfiguration -> nat -> World -> World * option err;
  d_Stat : string -> World -> World * stat_result;
  d_Mkdir : string -> Z -> World -> World * option err;
  d_CopyFile : string -> string -> World -> World * option err;
  d_SymlinkFile : string -> string -> World -> World * option err;
  d_getNodeInterface : string -> World -> World * (Node + err);
  d_GetNodeData : Node -> World -> World * (cloudprovider.NodeData + err);
  (** [tokens.WriteKetoTokenEnv] *)
  d_WriteKetoTokenEnv : string -> string -> World -> World * option err;
  (** [Kmm.CreateAndStartKubelet] *)
  d_CreateAndStartKubelet : bool -> World -> World * option err;
  d_url_Parse : string -> url.URL + err;
  d_url_String : url.URL -> string
}.
Arguments d_exec {World Node} _. Arguments d_Hostname {World Node} _.
Arguments d_WriteFile {World Node} _. Arguments d_WriteStaticPodManifests {World Node} _.
Arguments d_Stat {World Node} _. Arguments d_Mkdir {World Node} _.
Arguments d_CopyFile {World Node} _. Arguments d_SymlinkFile {World Node} _.
Arguments d_getNodeInterface {World Node} _. Arguments d_GetNodeData {World Node} _.
Arguments d_WriteKetoTokenEnv {World Node} _. Arguments d_CreateAndStartKubelet {World Node} _.
Arguments d_url_Parse {World Node} _. Arguments d_url_String {World Node} _.

Record DSt (World : Type) := mkDSt { dworld : World; dtrace : list devent }.
Arguments mkDSt {World} _ _. Arguments dworld {World} _. Arguments dtrace {World} _.

(** State monad over [DSt] whose computations may panic. *)
Definition DM (World A : Type) : Type := DSt World -> DSt World * res A.

#[local] Instance DM_ret {World} : MRet (DM World) := fun A a s => (s, Ok a).
#[local] Instance DM_bind {World} : MBind (DM World) := fun A B k m s =>
  let '(s', r) := m s in match r with Ok a => k a s' | Panic msg => (s', Panic msg) end.

Section DriverPrims.

Context {World Node : Type} (denv : DEnv World Node).

Definition demit (ev : devent) (w : World) (s : DSt World) : DSt World :=
  mkDSt w (dtrace s ++ [ev]).

Definition panic {A} (msg : string) : DM World A := fun s => (s, Panic msg).

Definition Exec (cmd : string) (args : list string) (stdin : string)
    : DM World (string * option err) := fun s =>
  let '(w, (out, e)) := d_exec denv cmd args stdin (dworld s) in
  (demit (DExec cmd args stdin out e) w s, Ok (out, e)).

Definition Hostname : DM World (string * option err) := fun s =>
  let '(w, (h, e)) := d_Hostname denv (dworld s) in (demit (DHostname h e) w s, Ok (h, e)).

Definition WriteFileD (path data : string) (perm : Z) : DM World (option err) := fun s =>
  let '(w, e) := d_WriteFile denv path data perm (dworld s) in
  (demit (DWriteFile path data perm e) w s, Ok e).

Definition StaticPods (cfg : kubeadmapi.MasterConfiguration) (n : nat) : DM World (option err) :=
  fun s => let '(w, e) := d_WriteStaticPodManifests denv cfg n (dworld s) in
           (demit (DStaticPods cfg n e) w s, Ok e).

Definition Stat (path : string) : DM World stat_result := fun s =>
  let '(w, r) := d_Stat denv path (dworld s) in (demit (DStat path r) w s, Ok r).

Definition Mkdir (path : string) (perm : Z) : DM World (option err) := fun s =>
  let '(w, e) := d_Mkdir denv path perm (dworld s) in (demit (DMkdir path perm e) w s, Ok e).

Definition CopyFile (src dst : string) : DM World (option err) := fun s =>
  let '(w, e) := d_CopyFile denv src dst (dworld s) in (demit (DCopyFile src dst e) w s, Ok e).

Definition SymlinkFile (src dst : string) : DM World (option err) := fun s =>
  let '(w, e) := d_SymlinkFile denv src dst (dworld s) in (demit (DSymlinkFile src dst e) w s, Ok e).

Definition getNodeInterface (provider : string) : DM World (Node + err) := fun s =>
  let '(w, r) := d_getNodeInterface denv provider (dworld s) in
  (demit (DNodeInterface provider (match r with inr e => Some e | inl _ => None end)) w s, Ok r).

Definition GetNodeData (node : Node) : DM World (cloudprovider.NodeData + err) := fun s =>
  let '(w, r) := d_GetNodeData denv node (dworld s) in
  (demit (DGetNodeData (match r with inr e => Some e | inl _ => None end)) w s, Ok r).

Definition WriteKetoTokenEnv (cloud apiServer : string) : DM World (option err) := fun s =>
  let '(w, e) := d_WriteKetoTokenEnv denv cloud apiServer (dworld s) in
  (demit (DTokenEnv cloud apiServer e) w s, Ok e).

Definition CreateAndStartKubeletD (master : bool) : DM World (option err) := fun s =>
  let '(w, e) := d_CreateAndStartKubelet denv master (dworld s) in
  (demit (DKubelet master e) w s, Ok e).

End DriverPrims.

(* ------------------------------------------------------------------ *)
(** ** package kubeadm: the driver *)

Module kubeadm.

(** [kubeadm.Config] *)
Record Config := mkConfig {
  EtcdClientConfig : etcd.Client; CaCert : string; CaKey : string;
  APIServer : option url.URL; KubeletID : string; CloudProvider : string; KubeVersion : string;
  MasterCount : nat; PodNetworkCidr : string;
  APIServerExtraArgs : gmap string string;
  ControllerManagerExtraArgs : gmap string string;
  SchedulerExtraArgs : gmap string string
}.

Definition Config_zero : Config :=
  mkConfig etcd.Client_zero EmptyString EmptyString None EmptyString EmptyString EmptyString
    0%nat EmptyString ∅ ∅ ∅.

(** The assignments to fields of a [*Config] the code makes. *)
Definition with_KubeletID (id : string) (k : Config) : Config :=
  mkConfig (EtcdClientConfig k) (CaCert k) (CaKey k) (APIServer k) id (CloudProvider k)
    (KubeVersion k) (MasterCount k) (PodNetworkCidr k) (APIServerExtraArgs k)
    (ControllerManagerExtraArgs k) (SchedulerExtraArgs k).
Definition with_CloudProvider (p : string) (k : Config) : Config :=
  mkConfig (EtcdClientConfig k) (CaCert k) (CaKey k) (APIServer k) (KubeletID k) p
    (KubeVersion k) (MasterCount k) (PodNetworkCidr k) (APIServerExtraArgs k)
    (ControllerManagerExtraArgs k) (SchedulerExtraArgs k).
Definition with_APIServer (u : option url.URL) (k : Config) : Config :=
  mkConfig (EtcdClientConfig k) (CaCert k) (CaKey k) u (KubeletID k) (CloudProvider k)
    (KubeVersion k) (MasterCount k) (PodNetworkCidr k) (APIServerExtraArgs k)
    (ControllerManagerExtraArgs k) (SchedulerExtraArgs k).
Definition with_KubeVersion (v : string) (k : Config) : Config :=
  mkConfig (EtcdClientConfig k) (CaCert k) (CaKey k) (APIServer k) (KubeletID k) (CloudProvider k)
    v (MasterCount k) (PodNetworkCidr k) (APIServerExtraArgs k)
    (ControllerManagerExtraArgs k) (SchedulerExtraArgs k).
Definition with_ExtraArgs (a c s : gmap string string) (k : Config) : Config :=
  mkConfig (EtcdClientConfig k) (CaCert k) (CaKey k) (APIServer k) (KubeletID k) (CloudProvider k)
    (KubeVersion k) (MasterCount k) (PodNetworkCidr k) a c s.

Definition cmdKubeadm : string := "kubeadm".
Definition cmdOptsCerts : list string :=
  ["alpha"; "phase"; "certs"; "selfsign"; "--apiserver-advertise-address"; "0.0.0.0";
   "--cert-altnames"].
Definition cmdOptsKubeconfig : list string := ["alpha"; "phase"; "kubeconfig"; "client-certs"].

(** kubeadmconstants *)
Definition CACertAndKeyBaseName : string := "ca".
Definition AdminKubeConfigFileName : string := "admin.conf".
Definition KubeletKubeConfigFileName : string := "kubelet.conf".
Definition ControllerManagerKubeConfigFileName : string := "controller-manager.conf".
Definition SchedulerKubeConfigFileName : string := "scheduler.conf".
Definition MastersGroup : string := "system:masters".
Definition NodesGroup : string := "system:nodes".
Definition ControllerManagerUser : string := "system:kube-controller-manager".
Definition SchedulerUser : string := "system:kube-scheduler".

Definition CaCertFile : string := (KubernetesDir ++ "/pki" ++ "/" ++ CACertAndKeyBaseName ++ ".crt")%string.
Definition CaKeyFile : string := (KubernetesDir ++ "/pki" ++ "/" ++ CACertAndKeyBaseName ++ ".key")%string.

(** [getHost]; [url.Port()] dereferences [url]. *)
Definition getHost (u : option url.URL) : res (string * option err) :=
  match u with
  | None => Panic nil_deref
  | Some u =>
    if (0 <? String.length (url.portOnly (url.Host u)))%nat then
      let '(host, _, e) := net.SplitHostPort (url.Host u) in
      match e with Some _ => Ok (host, e) | None => Ok (host, None) end
    else Ok (url.Host u, None)
  end.

(** The conversion [int32(i64)]. *)
Definition int32_of (z : Z) : Z := (z + 2 ^ 31) mod 2 ^ 32 - 2 ^ 31.

Section Driver.

Context {World Node : Type} (denv : DEnv World Node).

(** [constants.DefaultServiceDNSDomain] and [constants.DefaultServicesSubnet]
    of keto-k8's [constants] package, whose values are not in the sources. *)
Variables DefaultServiceDNSDomain DefaultServicesSubnet : string.

(** [runKubeadm]: [cmd.Stdin] is left nil, i.e. empty input. *)
Definition runKubeadm (cfg : Config) (cmdArgs : list string) : DM World (string * option err) :=
  '(out, e) ← Exec denv cmdKubeadm cmdArgs EmptyString ;
  match e with Some _ => mret (out, e) | None => mret (out, None) end.

(** [Config.CreatePKI] *)
Definition CreatePKI (k : Config) : DM World (option err) :=
  match getHost (APIServer k) with
  | Panic m => panic m
  | Ok (_, Some e) => mret (Some e)
  | Ok (apiHost, None) =>
    '(_, e) ← runKubeadm k (cmdOptsCerts ++ [apiHost]) ;
    mret e
  end.

(** [createAKubeCfg]; [cfg.APIServer.String()] dereferences the pointer. *)
Definition createAKubeCfg (cfg : Config) (file cn org : string) : DM World (option err) :=
  match APIServer cfg with
  | None => panic nil_deref
  | Some u =>
    let args := cmdOptsKubeconfig ++ ["--client-name"; cn; "--server"; d_url_String denv u] in
    let args := if (0 <? String.length org)%nat then args ++ ["--organization"; org] else args in
    '(kubecfgContents, e) ← runKubeadm cfg args ;
    match e with
    | Some _ => mret (Some (ErrMsg ("Error running kubeadm:" ++ kubecfgContents)))
    | None =>
      let filePath := (KubernetesDir ++ "/" ++ file)%string in
      WriteFileD denv filePath kubecfgContents 384
    end
  end.

(** [Config.CreateKubeConfig]: the receiver is a pointer, so the
    [KubeletID] it sets is kept; the updated [Config] is returned. *)
Definition CreateKubeConfig (k : Config) : DM World (Config * option err) :=
  '(k, e) ← (if String.eqb (KubeletID k) EmptyString then
               '(h, e) ← Hostname denv ; mret (with_KubeletID h k, e)
             else mret (k, None)) ;
  match e with
  | Some _ => mret (k, e)
  | None =>
    e ← createAKubeCfg k AdminKubeConfigFileName "kubernetes-admin" MastersGroup ;
    match e with
    | Some _ => mret (k, e)
    | None =>
      e ← createAKubeCfg k KubeletKubeConfigFileName ("system:node:" ++ KubeletID k)%string
            NodesGroup ;
      match e with
      | Some _ => mret (k, e)
      | None =>
        e ← createAKubeCfg k ControllerManagerKubeConfigFileName ControllerManagerUser EmptyString ;
        match e with
        | Some _ => mret (k, e)
        | None =>
          e ← createAKubeCfg k SchedulerKubeConfigFileName SchedulerUser EmptyString ;
          match e with Some _ => mret (k, e) | None => mret (k, None) end
        end
      end
    end
  end.

(** [GetKubeadmCfg]: the configuration built so far and the error. *)
Definition GetKubeadmCfg (kmmCfg : Config) : res (kubeadmapi.MasterConfiguration * option err) :=
  match APIServer kmmCfg with
  | None => Panic nil_deref
  | Some u =>
    let cfg := kubeadmapi.MasterConfiguration_zero in
    let port := url.portOnly (url.Host u) in
    let bindPort : Z + err :=
      if String.eqb port EmptyString then inl 443
      else let '(i64, e) := strconv.ParseInt port 10 32 in
           match e with Some e => inr e | None => inl (int32_of i64) end in
    match bindPort with
    | inr e => Ok (cfg, Some e)
    | inl bp =>
      match getHost (Some u) with
      | Panic m => Panic m
      | Ok (adv, Some e) =>
        Ok (kubeadmapi.mkMasterConfiguration bp adv [] EmptyString EmptyString EmptyString
              EmptyString EmptyString EmptyString EmptyString EmptyString EmptyString ∅ ∅ ∅,
            Some e)
      | Ok (adv, None) =>
        let ec := EtcdClientConfig kmmCfg in
        let hasEtcd := (0 <? String.length (etcd.Endpoints ec))%nat in
        Ok ({| kubeadmapi.BindPort := bp;
               kubeadmapi.AdvertiseAddress := adv;
               kubeadmapi.Endpoints := if hasEtcd then split_comma (etcd.Endpoints ec) else [];
               kubeadmapi.CAFile := if hasEtcd then etcd.CaFileName ec else EmptyString;
               kubeadmapi.CertFile := if hasEtcd then etcd.ClientCertFileName ec else EmptyString;
               kubeadmapi.KeyFile := if hasEtcd then etcd.ClientKeyFileName ec else EmptyString;
               kubeadmapi.KubernetesVersion :=
                 if negb (String.eqb (KubeVersion kmmCfg) EmptyString) then KubeVersion kmmCfg
                 else EmptyString;
               kubeadmapi.CertificatesDir := (KubernetesDir ++ "/pki")%string;
               kubeadmapi.CloudProvider := CloudProvider kmmCfg;
               kubeadmapi.DNSDomain := DefaultServiceDNSDomain;
               kubeadmapi.ServiceSubnet := DefaultServicesSubnet;
               kubeadmapi.PodSubnet := PodNetworkCidr kmmCfg;
               kubeadmapi.APIServerExtraArgs := APIServerExtraArgs kmmCfg;
               kubeadmapi.ControllerManagerExtraArgs := ControllerManagerExtraArgs kmmCfg;
               kubeadmapi.SchedulerExtraArgs := SchedulerExtraArgs kmmCfg |}, None)
      end
    end
  end.

(** [WriteManifests] *)
Definition WriteManifests (kubeadmCfg : Config) : DM World (option err) :=
  match GetKubeadmCfg kubeadmCfg with
  | Panic m => panic m
  | Ok (_, Some e) => mret (Some e)
  | Ok (cfg, None) => StaticPods denv cfg (MasterCount kubeadmCfg)
  end.

End Driver.
End kubeadm.

(* ------------------------------------------------------------------ *)
(** ** package k8client *)

Module k8client.

Definition CmdKubectl : string := "kubectl".

Section Client.
Context {World Node : Type} (denv : DEnv World Node).

Definition runKubectl (cmdArgs : list string) (stdIn : string) : DM World (string * option err) :=
  '(out, e) ← Exec denv CmdKubectl cmdArgs stdIn ;
  match e with Some _ => mret (out, e) | None => mret (out, None) end.

(** [k8client.Create] *)
Definition Create (resource : string) : DM World (option err) :=
  '(output, e) ← runKubectl ["create"; "-f"; "-"] resource ;
  match e with
  | Some _ => mret (Some (ErrMsg ("Error running kubectl:" ++ output)))
  | None => mret None
  end.

End Client.
End k8client.

(* ------------------------------------------------------------------ *)
(** ** package kmm: the node set-up *)

Module kmm.

(** The fields of a [Kmm] (its [ConfigType]) these methods use;
    [KubeadmCfg] is the [kubeadm.Config] the pointer points to, shared
    with the [Config] the [Kmm] was wired to by [New]. *)
Record Kmm := mkKmm {
  KubeadmCfg : kubeadm.Config; KubePersistentCaCert : string; KubePersistentCaKey : string;
  ClusterName : string; NodeLabels : gmap string string; NodeTaints : gmap string string;
  KubeletExtraArgs : string
}.

Definition with_KubeadmCfg (kc : kubeadm.Config) (k : Kmm) : Kmm :=
  mkKmm kc (KubePersistentCaCert k) (KubePersistentCaKey k) (ClusterName k) (NodeLabels k)
    (NodeTaints k) (KubeletExtraArgs k).
Definition with_ClusterName (n : string) (k : Kmm) : Kmm :=
  mkKmm (KubeadmCfg k) (KubePersistentCaCert k) (KubePersistentCaKey k) n (NodeLabels k)
    (NodeTaints k) (KubeletExtraArgs k).

(** [os.ModePerm] *)
Definition ModePerm : Z := 511.

Section Node.
Context {World Node : Type} (denv : DEnv World Node).

(** [Kmm.CopyKubeCa] *)
Definition CopyKubeCa (k : Kmm) : DM World (option err) :=
  r ← Stat denv (KubePersistentCaCert k) ;
  if IsNotExist r then mret (Some (ErrMsg ("kube CA cert not found at: " ++ KubePersistentCaCert k)))
  else
  r ← Stat denv (KubePersistentCaKey k) ;
  if IsNotExist r then mret (Some (ErrMsg ("kube CA key not found at: " ++ KubePersistentCaKey k)))
  else
  r ← Stat denv PkiDir ;
  (if IsNotExist r then (_ ← Mkdir denv PkiDir ModePerm ; mret tt) else mret tt) ;;
  e ← CopyFile denv (KubePersistentCaCert k) kubeadm.CaCertFile ;
  match e with
  | Some _ => mret e
  | None =>
    e ← SymlinkFile denv (KubePersistentCaKey k) kubeadm.CaKeyFile ;
    match e with Some _ => mret e | None => mret None end
  end.

(** [Kmm.UpdateCloudCfg]: the updated [Kmm] (and through it the shared
    [kubeadm.Config]) and the error. *)
Definition UpdateCloudCfg (k : Kmm) : DM World (Kmm * option err) :=
  let provider := kubeadm.CloudProvider (KubeadmCfg k) in
  if negb (String.eqb provider EmptyString) then
    r ← getNodeInterface denv provider ;
    match r with
    | inr e => mret (k, Some e)
    | inl node =>
      r ← GetNodeData denv node ;
      match r with
      | inr e => mret (k, Some (ErrWrap "error getting node data from cloud provider" e))
      | inl nd =>
        let k := with_ClusterName (cloudprovider.ClusterName nd) k in
        let apiURL := cloudprovider.KubeAPIURL nd in
        match d_url_Parse denv apiURL with
        | inr e => mret (k, Some (ErrWrap ("error parsing Api server " ++ apiURL) e))
        | inl u =>
          if (0 <? String.length apiURL)%nat then
            let kc := kubeadm.with_APIServer (Some u) (KubeadmCfg k) in
            let kc := kubeadm.with_KubeVersion (cloudprovider.KubeVersion nd) kc in
            let k := with_KubeadmCfg kc k in
            if (String.length (kubeadm.KubeVersion kc) =? 0)%nat then
              mret (k, Some (ErrMsg ("error parsing kubeversion " ++ kubeadm.KubeVersion kc)))
            else
              let args := cloudprovider.KubeArgs_ nd in
              let kc := kubeadm.with_ExtraArgs
                          (stringToMap (cloudprovider.APIServerExtraArgs args))
                          (stringToMap (cloudprovider.ControllerManagerExtraArgs args))
                          (stringToMap (cloudprovider.SchedulerExtraArgs args)) kc in
              mret (mkKmm kc (KubePersistentCaCert k) (KubePersistentCaKey k) (ClusterName k)
                      (cloudprovider.Labels nd) (cloudprovider.Taints nd)
                      (cloudprovider.KubeletExtraArgs args), None)
          else
            mret (k, Some (ErrMsg ("empty API server [" ++ apiURL ++ "] obtained from cloud provider")))
        end
      end
    end
  else mret (k, None).

(** The [Kmm] of [SetupCompute]: a fresh [kubeadm.Config] whose
    [CloudProvider] is [cloud], all else zero. *)
Definition compute_Kmm (cloud : string) : Kmm :=
  mkKmm (kubeadm.with_CloudProvider cloud kubeadm.Config_zero)
    EmptyString EmptyString EmptyString ∅ ∅ EmptyString.

(** [SetupCompute]: [cfg := Config{}] with a fresh [kubeadm.Config] whose
    [CloudProvider] is [cloud]; [New] wires a [Kmm] to the same pointer.
    [for true {}] never returns: its outcome is [Running]. *)
Definition SetupCompute (cloud : string) (exitOnCompletion : bool) : DM World outcome :=
  '(k, e) ← UpdateCloudCfg (compute_Kmm cloud) ;
  match e with
  | Some e => mret (Returned (Some e))
  | None =>
    (* [cfg.KubeadmCfg.APIServer.String()] *)
    match kubeadm.APIServer (KubeadmCfg k) with
    | None => panic nil_deref
    | Some u =>
      e ← WriteKetoTokenEnv denv cloud (d_url_String denv u) ;
      match e with
      | Some e => mret (Returned (Some (ErrWrap "error saving KetoTokenEnv" e)))
      | None =>
        (* the error of [CreateAndStartKubelet(false)] is discarded *)
        _ ← CreateAndStartKubeletD denv false ;
        if negb exitOnCompletion then mret Running else mret (Returned None)
      end
    end
  end.

End Node.
End kmm.

(* ------------------------------------------------------------------ *)
(** ** Vocabulary of the further properties *)

(** The files [SaveAssets] writes for a decoded bundle, in order, with their
    contents and permissions (0644 for the public ones, 0600 for the keys). *)
Definition shared_asset_files (sa : SharedAssets) : list (string * string * Z) :=
  [(((PkiDir ++ "/") ++ ServiceAccountPublicKeyName)%string, SaPub sa, 420);
   (((PkiDir ++ "/") ++ ServiceAccountPrivateKeyName)%string, SaKey sa, 384);
   (((PkiDir ++ "/") ++ FrontProxyCACertName)%string, FrontProxyCa sa, 420);
   (((PkiDir ++ "/") ++ FrontProxyCAKeyName)%string, FrontProxyCaKey sa, 384)].

(** A write that succeeded. *)
Definition write_ok (f : string * string * Z) : event :=
  let '(p, d, n) := f in EvWriteFile p d n None.

(** A collaborator call that succeeded. *)
Definition step_ok (c : step) : event := EvStep c None.

(** The calls of [BootstrapOnce] and of [BootstrapSecondaryMaster], in order. *)
Definition bootstrap_steps : list step :=
  [CreatePKI; CreateKubeConfig; CreateAndStartKubelet true; Addons; InstallNetwork; TokensDeploy].
Definition secondary_steps : list step :=
  [CreatePKI; CreateKubeConfig; CreateAndStartKubelet true; UpdateMasterRoleLabelsAndTaints].

(** The events of one successful [createAKubeCfg]: the kubeadm command,
    with [--organization] only for a non-empty organisation, and the write
    of its output to [/etc/kubernetes/<file>] with mode 0600. *)
Definition kubecfg_args {World Node : Type} (denv : DEnv World Node) (u : url.URL)
    (cn org : string) : list string :=
  kubeadm.cmdOptsKubeconfig ++ ["--client-name"; cn; "--server"; d_url_String denv u]
  ++ (if (0 <? String.length org)%nat then ["--organization"; org] else []).

Definition kubecfg_events {World Node : Type} (denv : DEnv World Node) (u : url.URL)
    (file cn org out : string) : list devent :=
  [DExec kubeadm.cmdKubeadm (kubecfg_args denv u cn org) EmptyString out None;
   DWriteFile (KubernetesDir ++ "/" ++ file)%string out 384 None].

(** A test node: commands succeed unless [exec_fails], the host name is
    [node-1] unless [hostname_fails], the paths in [missing] do not exist,
    the cloud provider answers with [test_node_data], and the
    kubelet fails to start. *)
Definition test_node_data : cloudprovider.NodeData :=
  cloudprovider.mkNodeData "prod" "api.example.com:6443" "v1.7.4" ∅ ∅
    (cloudprovider.mkKubeArgs "--v=2" EmptyString EmptyString EmptyString).

Definition drv_env (exec_fails hostname_fails : bool) (missing : list string) : DEnv unit unit := {|
  d_exec := fun _ _ _ w =>
    if exec_fails then (w, ("permission denied", Some (ErrMsg "exit status 1")))
    else (w, ("kubeconfig-contents", None));
  d_Hostname := fun w =>
    if hostname_fails then (w, (EmptyString, Some (ErrMsg "no host name"))) else (w, ("node-1", None));
  d_WriteFile := fun _ _ _ w => (w, None);
  d_WriteStaticPodManifests := fun _ _ w => (w, None);
  d_Stat := fun p w =>
    (w, if List.existsb (String.eqb p) missing
        then StatErr true (ErrMsg "no such file or directory") else StatOk);
  d_Mkdir := fun _ _ w => (w, None);
  d_CopyFile := fun _ _ w => (w, None);
  d_SymlinkFile := fun _ _ w => (w, None);
  d_getNodeInterface := fun _ w => (w, inl tt);
  d_GetNodeData := fun _ w => (w, inl test_node_data);
  d_WriteKetoTokenEnv := fun _ _ w => (w, None);
  d_CreateAndStartKubelet := fun _ w => (w, Some (ErrMsg "kubelet failed"));
  d_url_Parse := fun s => inl (url.mkURL "https" s EmptyString);
  d_url_String := fun u => ("https://" ++ url.Host u)%string
|}.

Definition drv_start : DSt unit := mkDSt tt [].

(** A driver configuration whose API server is [host]. *)
Definition cfg_with_api (host : string) : kubeadm.Config :=
  kubeadm.with_APIServer (Some (url.mkURL "https" host EmptyString)) kubeadm.Config_zero.

(** The configuration [GetKubeadmCfg] builds for an API server on port 6443. *)
Definition api_6443_cfg : kubeadmapi.MasterConfiguration :=
  match kubeadm.GetKubeadmCfg "cluster.local" "10.96.0.0/12" (cfg_with_api "api.example.com:6443") with
  | Ok (c, _) => c
  | Panic _ => kubeadmapi.MasterConfiguration_zero
  end.

(** A node whose persistent CA is kept under /srv/kube. *)
Definition ca_kmm : kmm.Kmm :=
  kmm.mkKmm (cfg_with_api "10.0.0.1:6443") "/srv/kube/ca.crt" "/srv/kube/ca.key" EmptyString ∅ ∅
    EmptyString.

(** The driver trace grew from [s] to [s'] without a host name lookup. *)
Definition no_hostname_ext {World : Type} (s s' : DSt World) : Prop :=
  exists l, dtrace s' = dtrace s ++ l /\ forall h e, ~ In (DHostname h e) l.

(* ================================================================== *)
(** * Properties *)

(* ------------------------------------------------------------------ *)
(** ** Strings *)

(** The equations of [String.append]. *)
Lemma sapp_nil_l (b : string) : (EmptyString ++ b)%string = b.
Proof. reflexivity. Qed.

Lemma sapp_cons (x : ascii) (a b : string) : (String x a ++ b)%string = String x (a ++ b).
Proof. reflexivity. Qed.

Lemma sapp_assoc (a b c : string) : ((a ++ b) ++ c = a ++ (b ++ c))%string.
Proof.
  induction a as [|x a IH]; [reflexivity|]. rewrite !sapp_cons. now rewrite IH.
Qed.

Lemma sapp_nil_r (a : string) : (a ++ EmptyString)%string = a.
Proof. induction a as [|x a IH]; [reflexivity|]. rewrite sapp_cons. now rewrite IH. Qed.

Lemma slength_app (a b : string) :
  String.length (a ++ b) = (String.length a + String.length b)%nat.
Proof.
  induction a as [|x a IH]; [reflexivity|]. rewrite sapp_cons. simpl. now rewrite IH.
Qed.

Lemma is_ascii_app (a b : string) :
  is_ascii (a ++ b) = is_ascii a && is_ascii b.
Proof.
  induction a as [|x a IH]; [reflexivity|]. rewrite sapp_cons. simpl.
  now rewrite IH, andb_assoc.
Qed.

(** Every byte [c], by cases on its eight bits. *)
Ltac all_bytes c :=
  destruct c as [[|] [|] [|] [|] [|] [|] [|] [|]].

(* ------------------------------------------------------------------ *)
(** ** JSON string round trip for ASCII strings *)

(** For ASCII input the encoder is a per-byte map. *)
Lemma escape_body_ascii (s : string) (fuel : nat) :
  is_ascii s = true -> (String.length s <= fuel)%nat ->
  escape_body fuel s = escape_ascii_str s.
Proof.
  revert fuel; induction s as [|c s IH]; intros fuel Ha Hl.
  - destruct fuel; reflexivity.
  - destruct fuel as [|fuel]; simpl in Hl; [lia|].
    simpl in Ha |- *. apply andb_prop in Ha as [Hc Ha].
    rewrite Hc, IH by (auto; lia). reflexivity.
Qed.

Lemma escape_ascii_head (c : ascii) :
  exists c0 t, escape_ascii c = String c0 t /\ Ascii.eqb c0 dq = false.
Proof. all_bytes c; eexists _, _; split; reflexivity. Qed.

Lemma str_elem_escape_ascii (c : ascii) (r : string) :
  (byte_val c <? 128) = true ->
  str_elem (escape_ascii c ++ r) = Some (str1 c, r).
Proof. all_bytes c; intros H; (discriminate H || reflexivity). Qed.

Lemma str_body_escape (s r : string) (fuel : nat) :
  is_ascii s = true -> (String.length s < fuel)%nat ->
  str_body fuel (escape_ascii_str s ++ str1 dq ++ r) = Some (s, r).
Proof.
  revert fuel; induction s as [|c s IH]; intros fuel Ha Hl.
  - destruct fuel as [|fuel]; [simpl in Hl; lia | reflexivity].
  - destruct fuel as [|fuel]; simpl in Hl; [lia|].
    simpl in Ha. apply andb_prop in Ha as [Hc Ha].
    simpl escape_ascii_str. rewrite sapp_assoc.
    pose proof (str_elem_escape_ascii c (escape_ascii_str s ++ str1 dq ++ r) Hc) as He.
    destruct (escape_ascii_head c) as (c0 & t & Hh & Hq).
    rewrite Hh in He |- *. simpl. rewrite Hq. simpl in He. rewrite He.
    rewrite IH by (auto; lia). reflexivity.
Qed.

Lemma json_string_ascii (v : string) :
  is_ascii v = true -> json_string v = String dq (escape_ascii_str v ++ str1 dq).
Proof. intros Ha. unfold json_string. now rewrite escape_body_ascii. Qed.

Lemma p_value_json_string (sf f : nat) (v r : string) :
  is_ascii v = true -> (String.length v < sf)%nat ->
  p_value sf (S f) (json_string v ++ r) = Some (JString v, r).
Proof.
  intros Ha Hl. rewrite json_string_ascii by exact Ha. simpl.
  rewrite sapp_assoc. simpl. unfold p_string. simpl.
  change (String dq r) with (str1 dq ++ r)%string.
  now rewrite str_body_escape.
Qed.

(** One unfolding of [p_members]; the parser is then kept folded. *)
Lemma p_members_S (sf f : nat) (s : string) :
  p_members sf (S f) s =
  match p_string sf (skip_ws s) with
  | None => None
  | Some (k, r) =>
    match skip_ws r with
    | String c r1 =>
      if Ascii.eqb c ":"%char then
        match p_value sf f r1 with
        | None => None
        | Some (v, r2) =>
          match skip_ws r2 with
          | String c2 r3 =>
            if Ascii.eqb c2 ","%char then
              match p_members sf f r3 with
              | Some (kvs, r4) => Some ((k, v) :: kvs, r4)
              | None => None
              end
            else if Ascii.eqb c2 "}"%char then Some ([(k, v)], r3)
            else None
          | EmptyString => None
          end
        end
      else None
    | EmptyString => None
    end
  end.
Proof. reflexivity. Qed.

Lemma p_string_json_string (sf : nat) (k r : string) :
  is_ascii k = true -> (String.length k < sf)%nat ->
  p_string sf (json_string k ++ r) = Some (k, r).
Proof.
  intros Ha Hl. rewrite json_string_ascii by exact Ha. simpl.
  rewrite sapp_assoc. change (String dq r) with (str1 dq ++ r)%string.
  now rewrite str_body_escape.
Qed.

Lemma skip_ws_json_string (k r : string) :
  skip_ws (json_string k ++ r) = (json_string k ++ r)%string.
Proof. reflexivity. Qed.

#[local] Opaque p_value p_members json_string.

Lemma p_members_next (sf f : nat) (k v rest : string) :
  is_ascii k = true -> is_ascii v = true ->
  (String.length k < sf)%nat -> (String.length v < sf)%nat ->
  p_members sf (S (S f)) (json_string k ++ ":" ++ json_string v ++ "," ++ rest)
  = match p_members sf (S f) rest with
    | Some (kvs, r4) => Some ((k, JString v) :: kvs, r4)
    | None => None
    end.
Proof.
  intros Hk Hv Hlk Hlv.
  rewrite p_members_S, skip_ws_json_string, p_string_json_string by auto.
  simpl. rewrite p_value_json_string by auto. reflexivity.
Qed.

Lemma p_members_last (sf f : nat) (k v rest : string) :
  is_ascii k = true -> is_ascii v = true ->
  (String.length k < sf)%nat -> (String.length v < sf)%nat ->
  p_members sf (S (S f)) (json_string k ++ ":" ++ json_string v ++ "}" ++ rest)
  = Some ([(k, JString v)], rest).
Proof.
  intros Hk Hv Hlk Hlv.
  rewrite p_members_S, skip_ws_json_string, p_string_json_string by auto.
  simpl. rewrite p_value_json_string by auto. reflexivity.
Qed.

Lemma p_value_object_open (sf f : nat) (k r : string) :
  p_value sf (S f) (String "{" (json_string k ++ r)) =
  match p_members sf f (json_string k ++ r) with
  | Some (kvs, r') => Some (JObject kvs, r')
  | None => None
  end.
Proof. reflexivity. Qed.

Lemma escape_ascii_str_length (s : string) :
  (String.length s <= String.length (escape_ascii_str s))%nat.
Proof.
  induction s as [|c s IH]; simpl; [lia|].
  rewrite slength_app.
  destruct (escape_ascii_head c) as (c0 & t & Hh & _). rewrite Hh. simpl. lia.
Qed.

Lemma json_string_length (v : string) :
  is_ascii v = true -> (String.length v < String.length (json_string v))%nat.
Proof.
  intros Ha. rewrite json_string_ascii by exact Ha. simpl.
  rewrite slength_app. pose proof (escape_ascii_str_length v). simpl. lia.
Qed.

(** The shape of the marshalled bundle. *)
Lemma Marshal_unfold (sa : SharedAssets) :
  Marshal sa =
  String "{" (json_string "FrontProxyCa" ++ ":" ++ json_string (FrontProxyCa sa) ++ ","
   ++ json_string "FrontProxyCaKey" ++ ":" ++ json_string (FrontProxyCaKey sa) ++ ","
   ++ json_string "SaPub" ++ ":" ++ json_string (SaPub sa) ++ ","
   ++ json_string "SaKey" ++ ":" ++ json_string (SaKey sa) ++ "}")%string.
Proof. reflexivity. Qed.

Lemma json_parse_Marshal (sa : SharedAssets) :
  ascii_fields sa = true ->
  json_parse (Marshal sa) =
  Some (JObject [("FrontProxyCa", JString (FrontProxyCa sa));
                 ("FrontProxyCaKey", JString (FrontProxyCaKey sa));
                 ("SaPub", JString (SaPub sa)); ("SaKey", JString (SaKey sa))]).
Proof.
  intros Ha. unfold ascii_fields in Ha.
  apply andb_prop in Ha as [Ha H4]; apply andb_prop in Ha as [Ha H3];
  apply andb_prop in Ha as [H1 H2].
  assert (Hlen : (String.length (json_string (FrontProxyCa sa))
                  + String.length (json_string (FrontProxyCaKey sa))
                  + String.length (json_string (SaPub sa))
                  + String.length (json_string (SaKey sa)) + 54 <= String.length (Marshal sa))%nat).
  { assert (K1 : String.length (json_string "FrontProxyCa") = 14%nat)
      by (rewrite json_string_ascii by reflexivity; reflexivity).
    assert (K2 : String.length (json_string "FrontProxyCaKey") = 17%nat)
      by (rewrite json_string_ascii by reflexivity; reflexivity).
    assert (K3 : String.length (json_string "SaPub") = 7%nat)
      by (rewrite json_string_ascii by reflexivity; reflexivity).
    assert (K4 : String.length (json_string "SaKey") = 7%nat)
      by (rewrite json_string_ascii by reflexivity; reflexivity).
    rewrite Marshal_unfold. repeat (simpl; rewrite ?slength_app). lia. }
  pose proof (json_string_length _ H1). pose proof (json_string_length _ H2).
  pose proof (json_string_length _ H3). pose proof (json_string_length _ H4).
  unfold json_parse. cbv zeta.
  remember (S (String.length (Marshal sa))) as n eqn:En.
  assert (Hn : exists d, n = S (S (S (S (S (S d)))))).
  { exists (n - 6)%nat. lia. }
  destruct Hn as [d Hd].
  assert (Hf : forall v, (String.length v < String.length (json_string v))%nat ->
                (String.length (json_string v) < String.length (Marshal sa))%nat ->
                (String.length v < n)%nat) by (intros; lia).
  rewrite Hd at 2. rewrite Marshal_unfold.
  rewrite p_value_object_open.
  rewrite <- (sapp_nil_r "}").
  rewrite !p_members_next, p_members_last;
    first [ reflexivity | assumption | (simpl String.length; lia)
          | (apply Hf; [assumption | lia]) ].
Qed.

Lemma Unmarshal_Marshal (sa : SharedAssets) :
  ascii_fields sa = true -> Unmarshal (Marshal sa) SharedAssets_zero = (sa, None).
Proof.
  intros Ha. unfold Unmarshal. rewrite json_parse_Marshal by exact Ha.
  destruct sa; reflexivity.
Qed.

Lemma get_ascii (s : string) (i : nat) (c : ascii) :
  is_ascii s = true -> String.get i s = Some c -> (byte_val c <? 128) = true.
Proof.
  revert i. induction s as [|x s IH]; intros i Ha Hg; [discriminate|].
  simpl in Ha. apply andb_prop in Ha as [Hx Hs].
  destruct i as [|i]; simpl in Hg.
  - injection Hg as <-. exact Hx.
  - exact (IH i Hs Hg).
Qed.

Lemma b64_ascii (n : Z) : (byte_val (b64 n) <? 128) = true.
Proof.
  unfold b64. destruct (String.get (Z.to_nat n) b64alphabet) as [c|] eqn:E.
  - apply (get_ascii b64alphabet (Z.to_nat n)); [reflexivity | exact E].
  - reflexivity.
Qed.

Lemma b64_encode_ascii (s : string) : is_ascii (b64_encode s) = true.
Proof.
  assert (H : forall n s, (String.length s <= n)%nat -> is_ascii (b64_encode s) = true).
  { induction n as [|n IH]; intros s' Hl;
      destruct s' as [|a [|b [|c rest]]]; cbn [b64_encode is_ascii];
      rewrite ?b64_ascii; try reflexivity; simpl in Hl; try lia.
    cbn [andb]. apply IH. lia. }
  exact (H _ s (le_n _)).
Qed.

Lemma line_breaker_ascii (col : nat) (s : string) :
  is_ascii s = true -> is_ascii (line_breaker col s) = true.
Proof.
  revert col. induction s as [|c s IH]; intros col Ha; simpl.
  - destruct (col =? 0)%nat; reflexivity.
  - simpl in Ha. apply andb_prop in Ha as [Hc Hs].
    destruct (col =? 63)%nat; simpl; rewrite Hc, IH by exact Hs; reflexivity.
Qed.

Lemma EncodeToMemory_ascii (b : Block) :
  is_ascii (Type_ b) = true -> is_ascii (EncodeToMemory b) = true.
Proof.
  intros Ht. unfold EncodeToMemory.
  rewrite !is_ascii_app, Ht, line_breaker_ascii by apply b64_encode_ascii.
  reflexivity.
Qed.

Lemma shared_assets_of_ascii saPub saKey cert fpKey :
  ascii_fields (shared_assets_of saPub saKey cert fpKey) = true.
Proof.
  unfold ascii_fields, shared_assets_of, EncodePublicKeyPEM, EncodePrivateKeyPEM,
    EncodeCertPEM. cbn [SaPub SaKey FrontProxyCa FrontProxyCaKey].
  rewrite !EncodeToMemory_ascii by reflexivity. reflexivity.
Qed.

Ltac unfold_M := cbv [mbind M_bind mret M_ret] in *.

(** C7: serializing the bundle as [LoadAndSerializeAssets] does, then
    decoding it as [SaveAssets] does, gives back the four PEM fields
    byte for byte, and [SaveAssets] writes exactly those four fields. *)
Theorem C7_serialize_save_roundtrip {World : Type} (env : Env World)
    (s s' : @St World) (assets : string) :
  LoadAndSerializeAssets env s = (s', (assets, None)) ->
  exists saPub saKey frontProxyCACert frontProxyCAKey,
    let b := shared_assets_of saPub saKey frontProxyCACert frontProxyCAKey in
    assets = Marshal b /\
    Unmarshal assets SharedAssets_zero = (b, None) /\
    forall t : @St World, SaveAssets env assets t = write_shared_assets env b t.
Proof.
  unfold LoadAndSerializeAssets, LoadKey, LoadPublicKey, LoadCertAndKey. unfold_M.
  destruct (TryLoadKeyFromDisk env PkiDir ServiceAccountKeyBaseName (world s)) as [w1 [saKey|e1]];
    cbn [world trace ticks]; [|intros H; injection H as _ _ H; discriminate].
  destruct (TryLoadPublicKeyFromDisk env PkiDir ServiceAccountKeyBaseName w1) as [w2 [saPub|e2]];
    cbn [world trace ticks]; [|intros H; injection H as _ _ H; discriminate].
  destruct (TryLoadCertAndKeyFromDisk env PkiDir FrontProxyCACertAndKeyBaseName w2) as [w3 [[[c|] [k|]] [e3|]]];
    cbn [world trace ticks]; try (intros H; injection H as _ _ H; discriminate).
  destruct (negb (IsCA c)); [intros H; injection H as _ _ H; discriminate|].
  intros H; injection H as _ Ha. subst assets.
  exists saPub, saKey, c, k. cbv zeta.
  pose proof (Unmarshal_Marshal _ (shared_assets_of_ascii saPub saKey c k)) as HU.
  split; [reflexivity|]. split; [exact HU|].
  intros t. unfold SaveAssets. rewrite HU. reflexivity.
Qed.

Lemma C7_serialize_save_roundtrip_witness :
  exists saPub saKey frontProxyCACert frontProxyCAKey,
    let b := shared_assets_of saPub saKey frontProxyCACert frontProxyCAKey in
    Marshal (shared_assets_of (mkPublicKey "sa-pub-der") (mkPrivateKey "sa-key-der")
               (mkCertificate "front-proxy-ca-cert-der" true)
               (mkPrivateKey "front-proxy-ca-key-der")) = Marshal b /\
    Unmarshal (Marshal (shared_assets_of (mkPublicKey "sa-pub-der") (mkPrivateKey "sa-key-der")
               (mkCertificate "front-proxy-ca-cert-der" true)
               (mkPrivateKey "front-proxy-ca-key-der"))) SharedAssets_zero = (b, None) /\
    forall t : @St SimWorld,
      SaveAssets sim_env (Marshal (shared_assets_of (mkPublicKey "sa-pub-der")
               (mkPrivateKey "sa-key-der") (mkCertificate "front-proxy-ca-cert-der" true)
               (mkPrivateKey "front-proxy-ca-key-der"))) t = write_shared_assets sim_env b t.
Proof.
  apply (C7_serialize_save_roundtrip sim_env
           (sim_start (mkSim [] [] true None)) (sim_start (mkSim [] [] true None))).
  vm_compute. reflexivity.
Defined.

(* ------------------------------------------------------------------ *)
(** ** Traces only grow *)

Section TraceFacts.
Context {World : Type} (env : Env World) (cfg : ConfigType).

Lemma app_single_assoc (l1 l2 : list event) (e : event) :
  (l1 ++ l2) ++ [e] = l1 ++ (l2 ++ [e]).
Proof. rewrite app_assoc. reflexivity. Qed.

Lemma grows_ret {A} (a : A) : grows (World:=World) (mret a).
Proof. intros s. exists []. rewrite app_nil_r. reflexivity. Qed.

Lemma only_ret f {A} (a : A) : only (World:=World) f (mret a).
Proof. intros s. exists []. rewrite app_nil_r. split; [reflexivity | constructor]. Qed.

Lemma grows_bind {A B} (m : @M World A) (k : A -> @M World B) :
  grows m -> (forall a, grows (k a)) -> grows (mbind k m).
Proof.
  intros Hm Hk s. unfold_M. destruct (Hm s) as [l1 H1].
  destruct (m s) as [s1 a] eqn:E. destruct (Hk a s1) as [l2 H2].
  exists (l1 ++ l2). rewrite H2. simpl in H1. rewrite H1, app_assoc. reflexivity.
Qed.

Lemma only_bind f {A B} (m : @M World A) (k : A -> @M World B) :
  only f m -> (forall a, only f (k a)) -> only f (mbind k m).
Proof.
  intros Hm Hk s. unfold_M. destruct (Hm s) as [l1 [H1 F1]].
  destruct (m s) as [s1 a] eqn:E. destruct (Hk a s1) as [l2 [H2 F2]].
  exists (l1 ++ l2). rewrite H2. simpl in H1. rewrite H1, app_assoc.
  split; [reflexivity | apply Forall_app; split; assumption].
Qed.

Lemma only_grows f {A} (m : @M World A) : only f m -> grows m.
Proof. intros H s. destruct (H s) as [l [Hl _]]. exists l. exact Hl. Qed.

Ltac prim_tac :=
  intros s; cbv [log Get GetOrCreateLock PutTx Delete Sleep Step LoadKey LoadPublicKey
                 LoadCertAndKey Write emit];
  repeat match goal with
         | |- context [let '(_, _) := ?x in _] => destruct x
         end;
  simpl;
  first [ exists []; rewrite app_nil_r; split; [reflexivity | constructor]
        | eexists; split; [reflexivity | constructor; [match goal with H : _ |- _ => apply H end | constructor]]
        | exists []; rewrite app_nil_r; reflexivity
        | eexists; reflexivity ].

Lemma only_log f (m : string) : f (EvLog m) = false -> only (World:=World) f (log m).
Proof. intros Hf. prim_tac. Qed.
Lemma only_Step f (c : step) : (forall e, f (EvStep c e) = false) -> only f (Step env c).
Proof. intros Hf. prim_tac. Qed.
Lemma only_Write f p d n : (forall e, f (EvWriteFile p d n e) = false) -> only f (Write env p d n).
Proof. intros Hf. prim_tac. Qed.
Lemma only_LoadKey f d b : only f (LoadKey env d b).
Proof. prim_tac. Qed.
Lemma only_LoadPublicKey f d b : only f (LoadPublicKey env d b).
Proof. prim_tac. Qed.
Lemma only_LoadCertAndKey f d b : only f (LoadCertAndKey env d b).
Proof. prim_tac. Qed.
Lemma only_Sleep f d : f (EvSleep d) = false -> only f (Sleep env d).
Proof. intros Hf. prim_tac. Qed.
Lemma only_Get f k : (forall v e, f (EvGet k v e) = false) -> only f (Get env k).
Proof. intros Hf. prim_tac. Qed.
Lemma only_GetOrCreateLock f k t :
  (forall b e, f (EvGetOrCreateLock k t b e) = false) -> only f (GetOrCreateLock env k t).
Proof. intros Hf. prim_tac. Qed.
Lemma only_PutTx f k v : (forall e, f (EvPutTx k v e) = false) -> only f (PutTx env k v).
Proof. intros Hf. prim_tac. Qed.
Lemma only_Delete f k : (forall e, f (EvDelete k e) = false) -> only f (Delete env k).
Proof. intros Hf. prim_tac. Qed.
Lemma grows_Get k : grows (Get env k).
Proof. prim_tac. Qed.
Lemma grows_GetOrCreateLock k t : grows (GetOrCreateLock env k t).
Proof. prim_tac. Qed.
Lemma grows_PutTx k v : grows (PutTx env k v).
Proof. prim_tac. Qed.
Lemma grows_Delete k : grows (Delete env k).
Proof. prim_tac. Qed.

End TraceFacts.

Create HintDb trace_db.
#[local] Hint Resolve only_ret only_log only_Step only_Write only_LoadKey
  only_LoadPublicKey only_LoadCertAndKey only_Sleep only_Get only_GetOrCreateLock
  only_PutTx only_Delete : trace_db.
#[local] Hint Resolve grows_ret grows_Get grows_GetOrCreateLock grows_PutTx
  grows_Delete : trace_db.
#[local] Hint Extern 1 (_ = false) => reflexivity : trace_db.
#[local] Hint Extern 2 (_ (EvLog _) = false) =>
  match goal with H : forall m, m <> _ -> _ (EvLog m) = false |- _ =>
    apply H; discriminate end : trace_db.

Ltac trace_tac :=
  repeat first
    [ progress intros
    | solve [ eauto with trace_db ]
    | eapply only_grows; solve [ eauto with trace_db ]
    | apply (only_grows (fun _ => false)); solve [ eauto with trace_db ]
    | apply only_bind
    | apply grows_bind
    | match goal with
      | |- context [match ?x with _ => _ end] => destruct x
      end ].

Section CompositeTraces.
Context {World : Type} (env : Env World) (cfg : ConfigType).

Definition marker_msg : string := "Not primary master (in this run)...".

Lemma only_LoadAndSerializeAssets f : only f (LoadAndSerializeAssets env).
Proof. unfold LoadAndSerializeAssets. trace_tac. Qed.

Lemma only_write_shared_assets f sa :
  (forall p d n e, f (EvWriteFile p d n e) = false) -> only f (write_shared_assets env sa).
Proof. intros Hw. unfold write_shared_assets. trace_tac. Qed.

Lemma only_SaveAssets f a :
  (forall p d n e, f (EvWriteFile p d n e) = false) -> only f (SaveAssets env a).
Proof.
  intros Hw. unfold SaveAssets. destruct (Unmarshal a SharedAssets_zero).
  apply only_write_shared_assets, Hw.
Qed.

Lemma only_BootstrapOnce f :
  (forall c e, f (EvStep c e) = false) ->
  (forall m, m <> marker_msg -> f (EvLog m) = false) ->
  only f (BootstrapOnce env).
Proof.
  intros Hs Hl. unfold BootstrapOnce. pose proof (only_LoadAndSerializeAssets f). trace_tac.
Qed.

Lemma only_BootstrapSecondaryMaster f a :
  (forall c e, f (EvStep c e) = false) -> (forall m, f (EvLog m) = false) ->
  (forall p d n e, f (EvWriteFile p d n e) = false) ->
  only f (BootstrapSecondaryMaster env a).
Proof.
  intros Hs Hl Hw. unfold BootstrapSecondaryMaster.
  pose proof (only_SaveAssets f a Hw). trace_tac.
Qed.

Lemma only_CleanUp f r d :
  (forall m, m <> marker_msg -> f (EvLog m) = false) ->
  (forall k e, f (EvDelete k e) = false) ->
  only f (CleanUp env r d).
Proof. intros Hl Hd. unfold CleanUp. trace_tac. Qed.

Lemma only_primary_branch f :
  (forall c e, f (EvStep c e) = false) ->
  (forall m, m <> marker_msg -> f (EvLog m) = false) ->
  (forall k e, f (EvDelete k e) = false) ->
  (forall k v e, f (EvPutTx k v e) = false) ->
  only f (primary_branch env).
Proof.
  intros Hs Hl Hd Hp. unfold primary_branch.
  pose proof (only_BootstrapOnce f Hs Hl). pose proof (fun r d => only_CleanUp f r d Hl Hd).
  trace_tac.
Qed.

Lemma grows_CleanUp r d : grows (CleanUp env r d).
Proof. apply (only_grows (fun _ => false)), only_CleanUp; reflexivity. Qed.

Lemma grows_primary_branch : grows (primary_branch env).
Proof. apply (only_grows (fun _ => false)), only_primary_branch; reflexivity. Qed.

Lemma grows_loop_body : grows (loop_body env cfg).
Proof.
  unfold loop_body. pose proof grows_primary_branch.
  pose proof (fun a => only_grows _ _ (only_BootstrapSecondaryMaster (fun _ => false) a
                 (fun _ _ => eq_refl) (fun _ => eq_refl) (fun _ _ _ _ => eq_refl))).
  trace_tac.
Qed.

End CompositeTraces.

(* ------------------------------------------------------------------ *)
(** ** CleanUp *)

(** C9: [CleanUp(true, deleteAssets)] whose lock delete fails returns that
    error right after the delete, with no delete of the asset key whatever
    [deleteAssets] is; [CleanUp(false, false)] does nothing and returns nil. *)
Theorem C9_CleanUp_lock_error_and_noop {World : Type} (env : Env World) (s : @St World) :
  (forall (deleteAssets : bool) (w : World) (e : err),
     etcd_Delete env assetLockKey (world s) = (w, Some e) ->
     CleanUp env true deleteAssets s =
     (mkSt w (trace s ++ [EvLog "Releasing lock..."; EvDelete assetLockKey (Some e)]) (ticks s),
      Some e))
  /\ CleanUp env false false s = (s, None).
Proof.
  split.
  - intros d w e H. unfold CleanUp. unfold_M. cbv [log Delete emit]. cbn [world trace ticks].
    rewrite H. rewrite <- app_assoc. reflexivity.
  - destruct s. reflexivity.
Qed.

Lemma C9_CleanUp_lock_error_and_noop_witness :
  CleanUp flaky_env true true (sim_start (mkSim [(assetLockKey, "locked")] [] true None)) =
  (mkSt (mkSim [(assetLockKey, "locked")] [] true None)
     [EvLog "Releasing lock..."; EvDelete assetLockKey (Some (ErrMsg "etcd unavailable"))] 0,
   Some (ErrMsg "etcd unavailable"))
  /\ CleanUp flaky_env false false (sim_start (mkSim [(assetLockKey, "locked")] [] true None)) =
     (sim_start (mkSim [(assetLockKey, "locked")] [] true None), None).
Proof.
  destruct (C9_CleanUp_lock_error_and_noop flaky_env
              (sim_start (mkSim [(assetLockKey, "locked")] [] true None))) as [H1 H2].
  split; [apply H1; reflexivity | exact H2].
Defined.

(* ------------------------------------------------------------------ *)
(** ** The election loop *)

Ltac flatten_trace := repeat rewrite <- app_assoc; cbn [app].

(** C5: a missing asset key never ends the loop: it leads to the lock
    request, and when the lock is held elsewhere the loop goes round again
    after the back-off; any other error of the get ends the loop at once
    with that error, with nothing after the get: no lock, no sleep, no
    further iteration. *)
Theorem C5_get_missing_continues_other_error_returns {World : Type} (env : Env World)
    (cfg : ConfigType) (s : @St World) (w : World) (v : string) :
  (etcd_Get env assetKey (world s) = (w, (v, Some ErrKeyMissing)) ->
   (forall w' b e,
      etcd_GetOrCreateLock env assetLockKey defaultLockTTL w = (w', (b, e)) ->
      exists l, trace (fst (loop_body env cfg s)) =
        trace s ++ [EvGet assetKey v (Some ErrKeyMissing);
                    EvLog ("Assets not present in etcd..." ++ str1 nl)%string;
                    EvGetOrCreateLock assetLockKey defaultLockTTL b e] ++ l)
   /\ (forall w' fuel,
      etcd_GetOrCreateLock env assetLockKey defaultLockTTL w = (w', (false, None)) ->
      election_loop env cfg (S fuel) s =
      election_loop env cfg fuel
        (mkSt (time_Sleep env (MasterBackOffTime cfg) w')
           (trace s ++ [EvGet assetKey v (Some ErrKeyMissing);
                        EvLog ("Assets not present in etcd..." ++ str1 nl)%string;
                        EvGetOrCreateLock assetLockKey defaultLockTTL false None;
                        EvSleep (MasterBackOffTime cfg)])
           (S (ticks s)))))
  /\ (forall (e : err) (fuel : nat),
      e <> ErrKeyMissing ->
      etcd_Get env assetKey (world s) = (w, (v, Some e)) ->
      election_loop env cfg (S fuel) s =
      (mkSt w (trace s ++ [EvGet assetKey v (Some e)]) (S (ticks s)), LoopReturn (Some e))).
Proof.
  split; [intros HG; split|].
  - intros w' b e HL. unfold loop_body. unfold_M.
    cbv [Get log GetOrCreateLock Sleep emit]. cbn [world trace ticks].
    rewrite HG. cbn [world trace ticks]. rewrite HL. cbn [world trace ticks].
    destruct e as [e|].
    + exists []. cbn [fst trace]. flatten_trace. reflexivity.
    + destruct b.
      * match goal with
        | |- context [primary_branch env ?s2] =>
          destruct (grows_primary_branch env s2) as [l Hl];
          destruct (primary_branch env s2) as [s3 r]
        end.
        exists l. cbn [fst] in *. rewrite Hl. cbn [trace]. flatten_trace. reflexivity.
      * exists [EvSleep (MasterBackOffTime cfg)]. cbn [fst trace]. flatten_trace. reflexivity.
  - intros w' fuel HL. cbn [election_loop]. unfold loop_body, tick. unfold_M.
    cbv [Get log GetOrCreateLock Sleep emit]. cbn [world trace ticks].
    rewrite HG. cbn [world trace ticks]. rewrite HL. cbn [world trace ticks].
    flatten_trace. reflexivity.
  - intros e fuel Hne HG. cbn [election_loop]. unfold loop_body, tick. unfold_M.
    cbv [Get emit]. cbn [world trace ticks]. rewrite HG.
    destruct e; [contradiction | reflexivity ..].
Qed.

Lemma C5_get_missing_continues_other_error_returns_witness :
  (exists l, trace (fst (loop_body sim_env (test_cfg true) (sim_start contended))) =
     [] ++ [EvGet assetKey EmptyString (Some ErrKeyMissing);
            EvLog ("Assets not present in etcd..." ++ str1 nl)%string;
            EvGetOrCreateLock assetLockKey defaultLockTTL false None] ++ l)
  /\ election_loop sim_env (test_cfg true) 1 (sim_start contended) =
     election_loop sim_env (test_cfg true) 0
       (mkSt contended
          ([] ++ [EvGet assetKey EmptyString (Some ErrKeyMissing);
                  EvLog ("Assets not present in etcd..." ++ str1 nl)%string;
                  EvGetOrCreateLock assetLockKey defaultLockTTL false None;
                  EvSleep (MasterBackOffTime (test_cfg true))]) 1)
  /\ election_loop unreachable_env (test_cfg true) 1 (sim_start contended) =
     (mkSt contended ([] ++ [EvGet assetKey EmptyString (Some (ErrMsg "etcd unavailable"))]) 1,
      LoopReturn (Some (ErrMsg "etcd unavailable"))).
Proof.
  destruct (C5_get_missing_continues_other_error_returns sim_env (test_cfg true)
              (sim_start contended) contended EmptyString) as [HA _].
  destruct (C5_get_missing_continues_other_error_returns unreachable_env (test_cfg true)
              (sim_start contended) contended EmptyString) as [_ HC].
  destruct (HA eq_refl) as [H1 H2]. split; [|split].
  - apply (H1 contended false None). reflexivity.
  - apply (H2 contended 0%nat). reflexivity.
  - apply (HC (ErrMsg "etcd unavailable") 0%nat); [discriminate | reflexivity].
Defined.

(** C1: once this node holds the lock, a failing [BootstrapOnce], or a
    failing publication of the assets, makes the iteration release the lock
    ([CleanUp(true, false)]: a delete of the lock key, never of the asset
    key) and then end the loop with the original error, whatever the delete
    answered; the events of [BootstrapOnce] do not touch etcd, so the only
    write of the asset key in the iteration is the failed one. *)
Theorem C1_primary_failure_releases_lock {World : Type} (env : Env World)
    (cfg : ConfigType) (s : @St World) (w w' : World) (v : string) :
  etcd_Get env assetKey (world s) = (w, (v, Some ErrKeyMissing)) ->
  etcd_GetOrCreateLock env assetLockKey defaultLockTTL w = (w', (true, None)) ->
  let s2 := mkSt w' (trace s ++ [EvGet assetKey v (Some ErrKeyMissing);
                                 EvLog ("Assets not present in etcd..." ++ str1 nl)%string;
                                 EvGetOrCreateLock assetLockKey defaultLockTTL true None;
                                 EvLog "Obtained lock, creating assets..."]) (ticks s) in
  (forall s3 a e w4 r,
     BootstrapOnce env s2 = (s3, (a, Some e)) ->
     etcd_Delete env assetLockKey (world s3) = (w4, r) ->
     loop_body env cfg s =
     (mkSt w4 (trace s3 ++ release_lock_events r) (ticks s3), Some (LoopReturn (Some e))))
  /\ (forall s3 a e w4 w5 r,
     BootstrapOnce env s2 = (s3, (a, None)) ->
     etcd_PutTx env assetKey a (world s3) = (w4, Some e) ->
     etcd_Delete env assetLockKey w4 = (w5, r) ->
     loop_body env cfg s =
     (mkSt w5 (trace s3 ++ [EvLog "Saving assets to etcd..."; EvPutTx assetKey a (Some e)]
                        ++ release_lock_events r) (ticks s3),
      Some (LoopReturn (Some e))))
  /\ (exists l, trace (fst (BootstrapOnce env s2)) = trace s2 ++ l
                /\ Forall (fun ev => store_event ev = false) l).
Proof.
  intros HG HL. cbv zeta. split; [|split].
  - intros s3 a e w4 r HB HD. unfold loop_body, primary_branch, CleanUp. unfold_M.
    cbv [Get log GetOrCreateLock Delete emit]. cbn [world trace ticks].
    rewrite HG. cbn [world trace ticks]. rewrite HL. cbn [world trace ticks].
    flatten_trace. rewrite HB. destruct s3 as [w3 t3 k3]. cbn [world trace ticks] in *.
    rewrite HD. destruct r; cbn [world trace ticks]; flatten_trace; reflexivity.
  - intros s3 a e w4 w5 r HB HP HD. unfold loop_body, primary_branch, CleanUp. unfold_M.
    cbv [Get log GetOrCreateLock PutTx Delete emit]. cbn [world trace ticks].
    rewrite HG. cbn [world trace ticks]. rewrite HL. cbn [world trace ticks].
    flatten_trace. rewrite HB. destruct s3 as [w3 t3 k3]. cbn [world trace ticks] in *.
    rewrite HP. cbn [world trace ticks].
    rewrite HD. destruct r; cbn [world trace ticks]; flatten_trace; reflexivity.
  - apply only_BootstrapOnce; reflexivity.
Qed.

Lemma C1_primary_failure_releases_lock_witness :
  (exists (s3 : @St SimWorld) (w4 : SimWorld) (r : option err),
     loop_body sim_env (test_cfg true) (sim_start (mkSim [] [Addons] true None)) =
     (mkSt w4 (trace s3 ++ release_lock_events r) (ticks s3),
      Some (LoopReturn (Some (ErrMsg "step failed")))))
  /\ (exists (s3 : @St SimWorld) (a : string) (w5 : SimWorld) (r : option err),
     loop_body flaky_env (test_cfg true) (sim_start (mkSim [] [] true None)) =
     (mkSt w5 (trace s3 ++ [EvLog "Saving assets to etcd...";
                            EvPutTx assetKey a (Some (ErrMsg "etcd unavailable"))]
                        ++ release_lock_events r) (ticks s3),
      Some (LoopReturn (Some (ErrMsg "etcd unavailable"))))).
Proof.
  pose proof (C1_primary_failure_releases_lock sim_env (test_cfg true)
                (sim_start (mkSim [] [Addons] true None)) (mkSim [] [Addons] true None)
                (mkSim [(assetLockKey, "locked")] [Addons] true None) EmptyString
                eq_refl eq_refl) as [H1 _].
  pose proof (C1_primary_failure_releases_lock flaky_env (test_cfg true)
                (sim_start (mkSim [] [] true None)) (mkSim [] [] true None)
                (mkSim [(assetLockKey, "locked")] [] true None) EmptyString
                eq_refl eq_refl) as [_ [H2 _]].
  split.
  - refine (ex_intro _ _ (ex_intro _ _ (ex_intro _ _ _))).
    all: try (eapply H1; reflexivity).
  - refine (ex_intro _ _ (ex_intro _ _ (ex_intro _ _ (ex_intro _ _ _)))).
    all: try (eapply H2; reflexivity).
Defined.

Lemma flagged_not_in (f : event -> bool) (l : list event) (x : event) :
  Forall (fun ev => f ev = false) l -> In x l -> f x = true -> False.
Proof.
  intros HF Hin Hx. rewrite List.Forall_forall in HF. rewrite (HF x Hin) in Hx. discriminate.
Qed.

Lemma flagged_not_exists (f : event -> bool) (l : list event) :
  Forall (fun ev => f ev = false) l -> Exists (fun ev => f ev = true) l -> False.
Proof.
  intros HF HE. apply List.Exists_exists in HE as [x [Hin Hx]]. exact (flagged_not_in f l x HF Hin Hx).
Qed.

Lemma app_inv_trace (t l L : list event) : t ++ L = t ++ l -> l = L.
Proof. intros H. symmetry. exact (List.app_inv_head t _ _ H). Qed.

(** C4: within an iteration of the election loop, [BootstrapSecondaryMaster]
    starts (its first event shows) only when the get of the asset key
    returned a present record, and then it runs on that record; any write
    of the asset key happens only after the lock was obtained and
    [BootstrapOnce] returned without error, and it writes the payload
    [BootstrapOnce] returned. *)
Theorem C4_secondary_after_present_put_after_bootstrap {World : Type} (env : Env World)
    (cfg : ConfigType) (s : @St World) :
  (forall l, trace (fst (loop_body env cfg s)) = trace s ++ l ->
     Exists (fun ev => secondary_marker ev = true) l ->
     exists w v, etcd_Get env assetKey (world s) = (w, (v, None)))
  /\ (forall w v, etcd_Get env assetKey (world s) = (w, (v, None)) ->
     loop_body env cfg s =
     (let '(s', e) := BootstrapSecondaryMaster env v (emit (EvGet assetKey v None) w s) in
      (s', Some (match e with Some _ => LoopReturn e | None => LoopBreak end))))
  /\ (forall l a e, trace (fst (loop_body env cfg s)) = trace s ++ l ->
     In (EvPutTx assetKey a e) l ->
     exists w v w' s3,
       etcd_Get env assetKey (world s) = (w, (v, Some ErrKeyMissing)) /\
       etcd_GetOrCreateLock env assetLockKey defaultLockTTL w = (w', (true, None)) /\
       BootstrapOnce env
         (mkSt w' (trace s ++ [EvGet assetKey v (Some ErrKeyMissing);
                               EvLog ("Assets not present in etcd..." ++ str1 nl)%string;
                               EvGetOrCreateLock assetLockKey defaultLockTTL true None;
                               EvLog "Obtained lock, creating assets..."]) (ticks s))
       = (s3, (a, None)) /\
       exists l', trace (fst (loop_body env cfg s)) =
                  trace s3 ++ [EvLog "Saving assets to etcd..."; EvPutTx assetKey a e] ++ l').
Proof.
  split; [|split].
  - intros l Ht HE. unfold loop_body in Ht. unfold_M.
    cbv [Get log GetOrCreateLock Sleep emit] in Ht. cbn [world trace ticks] in Ht.
    destruct (etcd_Get env assetKey (world s)) as [w [v [e|]]] eqn:HG;
      [|exists w, v; reflexivity].
    exfalso. destruct e; cbn [fst trace] in Ht.
    2-5: flatten_trace; apply app_inv_trace in Ht; subst l; inversion HE as [? ? Hx|? ? Hx];
         [discriminate | inversion Hx].
    match type of Ht with context [etcd_GetOrCreateLock ?x1 ?x2 ?x3 ?x4] =>
      destruct (etcd_GetOrCreateLock x1 x2 x3 x4) as [w' [b [e|]]] eqn:HL end;
      cbn [fst trace world ticks] in Ht.
    + rewrite <- !app_assoc in Ht. apply app_inv_trace in Ht. subst l.
      apply List.Exists_exists in HE as [x [Hin Hx]]. cbn [app In] in Hin.
      repeat destruct Hin as [<-|Hin]; try (vm_compute in Hx; discriminate); contradiction.
    + destruct b.
      * match type of Ht with context [primary_branch env ?S2] =>
          destruct (only_primary_branch env secondary_marker) with (s := S2) as [l2 [Hl2 F2]];
          [ reflexivity
          | intros m Hm; apply String.eqb_neq; exact Hm
          | reflexivity | reflexivity |];
          destruct (primary_branch env S2) as [s3 r]
        end.
        cbn [fst trace] in Ht, Hl2. rewrite Hl2 in Ht. rewrite <- !app_assoc in Ht.
        apply app_inv_trace in Ht. subst l. cbn [app] in HE.
        inversion HE as [? ? Hx|? ? HE1]; [vm_compute in Hx; discriminate|].
        inversion HE1 as [? ? Hx|? ? HE2]; [vm_compute in Hx; discriminate|].
        inversion HE2 as [? ? Hx|? ? HE3]; [vm_compute in Hx; discriminate|].
        exact (flagged_not_exists _ _ F2 HE3).
      * cbn [trace] in Ht. rewrite <- !app_assoc in Ht. apply app_inv_trace in Ht. subst l.
        apply List.Exists_exists in HE as [x [Hin Hx]]. cbn [app In] in Hin.
        repeat destruct Hin as [<-|Hin]; try (vm_compute in Hx; discriminate); contradiction.
  - intros w v HG. unfold loop_body. unfold_M. cbv [Get]. rewrite HG.
    destruct (BootstrapSecondaryMaster env v (emit (EvGet assetKey v None) w s)) as [s' [e|]];
      reflexivity.
  - intros l a e Ht Hin. pose proof Ht as Ht0. unfold loop_body, primary_branch in Ht. unfold_M.
    cbv [Get log GetOrCreateLock PutTx Sleep emit] in Ht. cbn [world trace ticks] in Ht.
    destruct (etcd_Get env assetKey (world s)) as [w [v [e0|]]] eqn:HG.
    2: { exfalso.
         match type of Ht with context [BootstrapSecondaryMaster env ?x1 ?S1] =>
           destruct (only_BootstrapSecondaryMaster env asset_put x1) with (s := S1)
             as [l2 [Hl2 F2]]; [reflexivity | reflexivity | reflexivity |];
           destruct (BootstrapSecondaryMaster env x1 S1) as [s3 r]
         end.
         destruct r; cbn [fst trace] in Ht, Hl2; rewrite Hl2, <- app_assoc in Ht;
           apply app_inv_trace in Ht; subst l; cbn [app] in Hin;
           (destruct Hin as [Hin|Hin]; [discriminate|]);
           refine (flagged_not_in asset_put _ _ F2 Hin _); apply String.eqb_refl. }
    destruct e0; cbn [fst trace] in Ht.
    2-5: exfalso; apply app_inv_trace in Ht; subst l;
         destruct Hin as [Hin|[]]; discriminate.
    match type of Ht with context [etcd_GetOrCreateLock ?x1 ?x2 ?x3 ?x4] =>
      destruct (etcd_GetOrCreateLock x1 x2 x3 x4) as [w' [b [el|]]] eqn:HL end;
      cbn [fst trace world ticks] in Ht, HL.
    1: { exfalso. rewrite <- !app_assoc in Ht. apply app_inv_trace in Ht. subst l.
         cbn [app] in Hin. repeat destruct Hin as [Hin|Hin]; try discriminate; contradiction. }
    destruct b.
    2: { exfalso. cbn [fst trace] in Ht. rewrite <- !app_assoc in Ht.
         apply app_inv_trace in Ht. subst l.
         cbn [app] in Hin. repeat destruct Hin as [Hin|Hin]; try discriminate; contradiction. }
    match type of Ht with context [BootstrapOnce env ?S2] =>
      destruct (only_BootstrapOnce env asset_put) with (s := S2) as [lb [Hlb Fb]];
      [reflexivity | reflexivity |];
      destruct (BootstrapOnce env S2) as [s3 [a' [eb|]]] eqn:HB
    end;
    cbn [fst trace world ticks] in Hlb, HB, Ht; rewrite <- !app_assoc in Hlb, HB; cbn [app] in Hlb, HB.
    + exfalso.
      destruct (only_CleanUp env asset_put true false) with (s := s3) as [lc [Hlc Fc]];
        [intros; reflexivity | reflexivity |].
      destruct (CleanUp env true false s3) as [s4 u]. cbn [fst] in Ht, Hlc.
      rewrite Hlc, Hlb, <- !app_assoc in Ht. apply app_inv_trace in Ht. subst l.
      cbn [app] in Hin. repeat (destruct Hin as [Hin|Hin]; [discriminate|]).
      apply List.in_app_iff in Hin as [Hin|Hin].
      * refine (flagged_not_in asset_put _ _ Fb Hin _); apply String.eqb_refl.
      * refine (flagged_not_in asset_put _ _ Fc Hin _); apply String.eqb_refl.
    + destruct (etcd_PutTx env assetKey a' (world s3)) as [w4 [ep|]] eqn:HP;
        cbn [fst trace world ticks] in Ht.
      * match type of Ht with context [CleanUp env true false ?S4] =>
          destruct (only_CleanUp env asset_put true false) with (s := S4) as [lc [Hlc Fc]];
            [intros; reflexivity | reflexivity |];
          destruct (CleanUp env true false S4) as [s4 u]
        end.
        cbn [fst trace] in Ht, Hlc. rewrite Hlc, Hlb, <- !app_assoc in Ht.
        apply app_inv_trace in Ht. subst l.
        cbn [app] in Hin. repeat (destruct Hin as [Hin|Hin]; [discriminate|]).
        apply List.in_app_iff in Hin as [Hin|Hin].
        { exfalso. refine (flagged_not_in asset_put _ _ Fb Hin _); apply String.eqb_refl. }
        cbn [app] in Hin. destruct Hin as [Hin|Hin]; [discriminate|].
        destruct Hin as [Hin|Hin].
        2: { exfalso. refine (flagged_not_in asset_put _ _ Fc Hin _); apply String.eqb_refl. }
        injection Hin as <- <-.
        exists w, v, w', s3. split; [first [exact HG | reflexivity]|]. split; [first [exact HL | reflexivity]|].
        split; [first [exact HB | reflexivity]|].
        exists lc. rewrite Ht0, Hlb. flatten_trace. reflexivity.
      * cbn [fst trace] in Ht. rewrite Hlb, <- !app_assoc in Ht.
        apply app_inv_trace in Ht. subst l.
        cbn [app] in Hin. repeat (destruct Hin as [Hin|Hin]; [discriminate|]).
        apply List.in_app_iff in Hin as [Hin|Hin].
        { exfalso. refine (flagged_not_in asset_put _ _ Fb Hin _); apply String.eqb_refl. }
        cbn [app] in Hin. destruct Hin as [Hin|Hin]; [discriminate|].
        destruct Hin as [Hin|Hin].
        2: { exfalso. destruct Hin as [Hin|[]]. discriminate. }
        injection Hin as <- <-.
        exists w, v, w', s3. split; [first [exact HG | reflexivity]|]. split; [first [exact HL | reflexivity]|].
        split; [first [exact HB | reflexivity]|].
        exists [EvLog "Assets shared to etcd"]. rewrite Ht0, Hlb. flatten_trace. reflexivity.
Qed.

Lemma C4_secondary_after_present_put_after_bootstrap_witness :
  (exists w v, etcd_Get sim_env assetKey
                 (world (sim_start (mkSim [(assetKey, "garbage")] [] true None))) = (w, (v, None)))
  /\ loop_body sim_env (test_cfg true) (sim_start (mkSim [(assetKey, "garbage")] [] true None)) =
     (let '(s', e) := BootstrapSecondaryMaster sim_env "garbage"
                        (emit (EvGet assetKey "garbage" None) (mkSim [(assetKey, "garbage")] [] true None)
                           (sim_start (mkSim [(assetKey, "garbage")] [] true None))) in
      (s', Some (match e with Some _ => LoopReturn e | None => LoopBreak end)))
  /\ (exists w v w' s3,
       etcd_Get sim_env assetKey (world (sim_start (mkSim [] [] true None))) =
         (w, (v, Some ErrKeyMissing)) /\
       etcd_GetOrCreateLock sim_env assetLockKey defaultLockTTL w = (w', (true, None)) /\
       BootstrapOnce sim_env
         (mkSt w' ([] ++ [EvGet assetKey v (Some ErrKeyMissing);
                          EvLog ("Assets not present in etcd..." ++ str1 nl)%string;
                          EvGetOrCreateLock assetLockKey defaultLockTTL true None;
                          EvLog "Obtained lock, creating assets..."]) 0)
       = (s3, (sim_payload, None)) /\
       exists l', trace (fst (loop_body sim_env (test_cfg true) (sim_start (mkSim [] [] true None)))) =
                  trace s3 ++ [EvLog "Saving assets to etcd..."; EvPutTx assetKey sim_payload None] ++ l').
Proof.
  destruct (C4_secondary_after_present_put_after_bootstrap sim_env (test_cfg true)
              (sim_start (mkSim [(assetKey, "garbage")] [] true None))) as [H1 [H2 _]].
  destruct (C4_secondary_after_present_put_after_bootstrap sim_env (test_cfg true)
              (sim_start (mkSim [] [] true None))) as [_ [_ H3]].
  split; [|split].
  - eapply H1; [reflexivity|]. vm_compute. apply Exists_cons_tl, Exists_cons_hd. reflexivity.
  - apply H2. reflexivity.
  - eapply H3; [reflexivity|]. vm_compute.
    repeat (first [left; reflexivity | right]).
Defined.

(* ------------------------------------------------------------------ *)
(** ** stringToMap *)

Lemma split_comma_cons (s : string) : exists x xs, split_comma s = x :: xs.
Proof.
  destruct s as [|c s']; simpl; [eauto|].
  destruct (Ascii.eqb c ","%char); [eauto|].
  destruct (split_comma s'); eauto.
Qed.

Lemma split_comma_concat (s : string) : String.concat "," (split_comma s) = s.
Proof.
  induction s as [|c s IH]; [reflexivity|]. cbn [split_comma].
  destruct (split_comma_cons s) as [x [xs Hs]]. rewrite Hs in *.
  destruct (Ascii.eqb c ","%char) eqn:E.
  - apply Ascii.eqb_eq in E. subst c.
    change (String.concat "," (EmptyString :: x :: xs))
      with (EmptyString ++ "," ++ String.concat "," (x :: xs))%string.
    rewrite IH. reflexivity.
  - rewrite <- IH. destruct xs; reflexivity.
Qed.

Lemma split_comma_no_comma (s : string) :
  Forall (fun piece => has_char ","%char piece = false) (split_comma s).
Proof.
  induction s as [|c s IH]; [repeat constructor|]. simpl.
  destruct (Ascii.eqb c ","%char) eqn:E.
  - constructor; [reflexivity | exact IH].
  - destruct (split_comma s) as [|x xs]; [repeat constructor; simpl; rewrite E; reflexivity|].
    inversion IH as [|? ? Hx Hxs]; subst. constructor; [simpl; rewrite E, Hx; reflexivity | exact Hxs].
Qed.

Lemma stringToMap_fold (args : string) :
  stringToMap args = List.fold_left apply_item (split_comma args) ∅.
Proof.
  unfold stringToMap. generalize (∅ : gmap string string).
  induction (split_comma args) as [|x xs IH]; intros m; [reflexivity|].
  simpl. rewrite <- IH. f_equal.
  unfold apply_item, item_entry.
  destruct (FieldsFunc x sep_eq_space) as [|k [|v [|z r]]]; reflexivity.
Qed.

Lemma fold_apply_item_lookup (items : list string) (m : gmap string string) (k : string) :
  List.fold_left apply_item items m !! k =
  match last_entry k items with Some v => Some v | None => m !! k end.
Proof.
  revert m. induction items as [|x xs IH]; intros m; [reflexivity|].
  simpl. rewrite IH. destruct (last_entry k xs); [reflexivity|].
  unfold apply_item. destruct (item_entry x) as [[k' v]|]; [|reflexivity].
  destruct (String.eqb k' k) eqn:E.
  - apply String.eqb_eq in E. subst k'. simplify_map_eq. reflexivity.
  - apply String.eqb_neq in E. simplify_map_eq. reflexivity.
Qed.

(** C10: [stringToMap] cuts its argument at every comma (the pieces hold
    no comma and, joined with commas, give the argument back), and each
    piece, split into fields at '=' and ' ', contributes as [item_entry]
    says: two fields map the first to the second, one field maps to the
    empty string, zero or three or more fields are dropped; a key is
    bound to what the last piece naming it contributes. *)
Theorem C10_stringToMap_items (args : string) :
  String.concat "," (split_comma args) = args
  /\ Forall (fun piece => has_char ","%char piece = false) (split_comma args)
  /\ stringToMap args = List.fold_left apply_item (split_comma args) ∅
  /\ (forall k, stringToMap args !! k = last_entry k (split_comma args)).
Proof.
  split; [apply split_comma_concat|]. split; [apply split_comma_no_comma|].
  split; [apply stringToMap_fold|].
  intros k. rewrite stringToMap_fold, fold_apply_item_lookup.
  destruct (last_entry k (split_comma args)); reflexivity.
Qed.

(* ------------------------------------------------------------------ *)
(** ** The shape of one iteration *)

(** One iteration of the loop: the get; on a missing key the lock request,
    then either the back-off (lock refused) or events of [primary_branch]
    or nothing (lock error); on any other answer of the get, events of
    [BootstrapSecondaryMaster] or nothing.  [f] is any event flag that
    holds for none of the events those two may emit besides etcd gets,
    lock requests and sleeps. *)
Lemma loop_body_shape {World : Type} (env : Env World) (cfg : ConfigType)
    (f : event -> bool) (s : @St World) :
  (forall c e, f (EvStep c e) = false) -> (forall m, f (EvLog m) = false) ->
  (forall p d n e, f (EvWriteFile p d n e) = false) -> (forall k e, f (EvDelete k e) = false) ->
  (forall k v e, f (EvPutTx k v e) = false) ->
  exists w v e, etcd_Get env assetKey (world s) = (w, (v, e)) /\
  ((e = Some ErrKeyMissing /\ exists w' b el,
      etcd_GetOrCreateLock env assetLockKey defaultLockTTL w = (w', (b, el)) /\
      ((b = false /\ el = None /\
        loop_body env cfg s =
        (mkSt (time_Sleep env (MasterBackOffTime cfg) w')
           (trace s ++ [EvGet assetKey v (Some ErrKeyMissing);
                        EvLog ("Assets not present in etcd..." ++ str1 nl)%string;
                        EvGetOrCreateLock assetLockKey defaultLockTTL false None;
                        EvSleep (MasterBackOffTime cfg)]) (ticks s), None))
       \/ (~ (b = false /\ el = None) /\ exists l2,
           trace (fst (loop_body env cfg s)) =
           trace s ++ [EvGet assetKey v (Some ErrKeyMissing);
                       EvLog ("Assets not present in etcd..." ++ str1 nl)%string;
                       EvGetOrCreateLock assetLockKey defaultLockTTL b el] ++ l2
           /\ Forall (fun ev => f ev = false) l2)))
   \/ (e <> Some ErrKeyMissing /\ exists l2,
        trace (fst (loop_body env cfg s)) = trace s ++ EvGet assetKey v e :: l2
        /\ Forall (fun ev => f ev = false) l2)).
Proof.
  intros Hs Hl Hw Hd Hp.
  unfold loop_body. unfold_M. cbv [Get log GetOrCreateLock Sleep emit]. cbn [world trace ticks].
  destruct (etcd_Get env assetKey (world s)) as [w [v e]] eqn:HG.
  exists w, v, e. split; [reflexivity|].
  destruct e as [e|].
  2: { right. split; [discriminate|].
       match goal with |- context [BootstrapSecondaryMaster env ?x1 ?S1] =>
         destruct (only_BootstrapSecondaryMaster env f x1 Hs Hl Hw) with (s := S1)
           as [l2 [Hl2 F2]];
         destruct (BootstrapSecondaryMaster env x1 S1) as [s3 r]
       end.
       exists l2. split; [|exact F2].
       destruct r; cbn [fst] in *; rewrite Hl2; cbn [trace]; rewrite <- app_assoc; reflexivity. }
  destruct e.
  2-5: right; split; [discriminate|]; exists []; split; [reflexivity | constructor].
  left. split; [reflexivity|]. cbn [world trace ticks].
  destruct (etcd_GetOrCreateLock env assetLockKey defaultLockTTL w) as [w' [b el]] eqn:HL.
  exists w', b, el. split; [reflexivity|].
  destruct el as [el|].
  - right. split; [intros [_ H]; discriminate|]. exists []. cbn [fst trace].
    split; [rewrite app_nil_r; flatten_trace; reflexivity | constructor].
  - destruct b.
    + right. split; [intros [H _]; discriminate|].
      match goal with |- context [primary_branch env ?S2] =>
        destruct (only_primary_branch env f Hs (fun m _ => Hl m) Hd Hp) with (s := S2)
          as [l2 [Hl2 F2]];
        destruct (primary_branch env S2) as [s3 r]
      end.
      exists l2. split; [|exact F2]. cbn [fst] in *. rewrite Hl2. cbn [trace].
      flatten_trace. reflexivity.
    + left. split; [reflexivity|]. split; [reflexivity|]. cbn [world trace ticks].
      flatten_trace. reflexivity.
Qed.

(** C6 (as the code has it): [New] always sets the back-off to
    [defaultBackOff], whatever the caller gave; every lock request of an
    iteration is for [assetLockKey] with the constant [defaultLockTTL];
    a sleep happens only after the lock was refused, lasts the
    [MasterBackOffTime] of the configuration the loop runs with, is the
    last event of its iteration, and the loop then goes round again (so the
    store is queried again only after it); conversely, a missing asset
    key and a refused lock always lead to exactly that sleep, after which
    the loop starts its next iteration. *)
Theorem C6_lock_ttl_fixed_backoff_from_config {World : Type} (env : Env World)
    (cfg : ConfigType) (s : @St World) :
  (forall c : ConfigType, MasterBackOffTime (New c) = defaultBackOff)
  /\ (forall l, trace (fst (loop_body env cfg s)) = trace s ++ l ->
      forall k t b e, In (EvGetOrCreateLock k t b e) l -> k = assetLockKey /\ t = defaultLockTTL)
  /\ (forall l, trace (fst (loop_body env cfg s)) = trace s ++ l ->
      forall d, In (EvSleep d) l ->
      d = MasterBackOffTime cfg /\ snd (loop_body env cfg s) = None /\
      exists w v w',
        etcd_Get env assetKey (world s) = (w, (v, Some ErrKeyMissing)) /\
        etcd_GetOrCreateLock env assetLockKey defaultLockTTL w = (w', (false, None)) /\
        l = [EvGet assetKey v (Some ErrKeyMissing);
             EvLog ("Assets not present in etcd..." ++ str1 nl)%string;
             EvGetOrCreateLock assetLockKey defaultLockTTL false None; EvSleep d])
  /\ (forall w v w' fuel,
      etcd_Get env assetKey (world s) = (w, (v, Some ErrKeyMissing)) ->
      etcd_GetOrCreateLock env assetLockKey defaultLockTTL w = (w', (false, None)) ->
      let s' := mkSt (time_Sleep env (MasterBackOffTime cfg) w')
           (trace s ++ [EvGet assetKey v (Some ErrKeyMissing);
                        EvLog ("Assets not present in etcd..." ++ str1 nl)%string;
                        EvGetOrCreateLock assetLockKey defaultLockTTL false None;
                        EvSleep (MasterBackOffTime cfg)]) (ticks s) in
      loop_body env cfg s = (s', None) /\
      election_loop env cfg (S fuel) s =
      election_loop env cfg fuel (mkSt (world s') (trace s') (S (ticks s)))).
Proof.
  split; [reflexivity|]. split; [|split].
  - intros l Ht k t b e Hin.
    destruct (loop_body_shape env cfg is_lock_request s) as
      [w [v [e0 [HG [ [He [w' [b' [el [HL [ [Hb [Hel Hbody]] | [Hn [l2 [Ht2 F2]]] ]]]]]]
                    | [Hne [l2 [Ht2 F2]]] ]]]]]; try reflexivity.
    + rewrite Hbody in Ht. cbn [fst trace] in Ht. apply app_inv_trace in Ht. subst l.
      cbn [In] in Hin. repeat destruct Hin as [Hin|Hin]; try discriminate; try contradiction.
      injection Hin as <- <- _ _. split; reflexivity.
    + rewrite Ht2 in Ht. apply app_inv_trace in Ht. subst l. cbn [app] in Hin.
      destruct Hin as [Hin|[Hin|[Hin|Hin]]]; try discriminate.
      * injection Hin as <- <- _ _. split; reflexivity.
      * exfalso. exact (flagged_not_in _ _ _ F2 Hin eq_refl).
    + rewrite Ht2 in Ht. apply app_inv_trace in Ht. subst l.
      destruct Hin as [Hin|Hin]; [discriminate|].
      exfalso. exact (flagged_not_in _ _ _ F2 Hin eq_refl).
  - intros l Ht d Hin.
    destruct (loop_body_shape env cfg is_sleep s) as
      [w [v [e0 [HG [ [He [w' [b' [el [HL [ [Hb [Hel Hbody]] | [Hn [l2 [Ht2 F2]]] ]]]]]]
                    | [Hne [l2 [Ht2 F2]]] ]]]]]; try reflexivity.
    + rewrite Hbody in Ht |- *. cbn [fst snd trace] in Ht |- *. apply app_inv_trace in Ht. subst l.
      cbn [In] in Hin. repeat destruct Hin as [Hin|Hin]; try discriminate; try contradiction.
      injection Hin as <-. subst e0 b' el. split; [reflexivity|]. split; [reflexivity|].
      exists w, v, w'. split; [exact HG|]. split; [exact HL | reflexivity].
    + exfalso. rewrite Ht2 in Ht. apply app_inv_trace in Ht. subst l. cbn [app] in Hin.
      destruct Hin as [Hin|[Hin|[Hin|Hin]]]; try discriminate.
      exact (flagged_not_in _ _ _ F2 Hin eq_refl).
    + exfalso. rewrite Ht2 in Ht. apply app_inv_trace in Ht. subst l.
      destruct Hin as [Hin|Hin]; [discriminate|].
      exact (flagged_not_in _ _ _ F2 Hin eq_refl).
  - intros w v w' fuel HG HL. cbv zeta. split.
    + unfold loop_body. unfold_M.
      cbv [Get log GetOrCreateLock Sleep emit]. cbn [world trace ticks].
      rewrite HG. cbn [world trace ticks]. rewrite HL. cbn [world trace ticks].
      flatten_trace. reflexivity.
    + cbn [election_loop]. unfold loop_body, tick. unfold_M.
      cbv [Get log GetOrCreateLock Sleep emit]. cbn [world trace ticks].
      rewrite HG. cbn [world trace ticks]. rewrite HL. cbn [world trace ticks].
      flatten_trace. reflexivity.
Qed.

Lemma C6_lock_ttl_fixed_backoff_from_config_witness :
  let l := trace (fst (loop_body sim_env (test_cfg true) (sim_start contended))) in
  In (EvSleep (MasterBackOffTime (test_cfg true))) l /\
  (forall k t b e, In (EvGetOrCreateLock k t b e) l -> k = assetLockKey /\ t = defaultLockTTL) /\
  (forall d, In (EvSleep d) l -> d = MasterBackOffTime (test_cfg true)) /\
  snd (loop_body sim_env (test_cfg true) (sim_start contended)) = None.
Proof.
  cbv zeta.
  destruct (C6_lock_ttl_fixed_backoff_from_config sim_env (test_cfg true) (sim_start contended))
    as [_ [H2 [H3 H4]]].
  split; [vm_compute; tauto|]. split; [|split].
  - apply H2. reflexivity.
  - intros d Hd. exact (proj1 (H3 _ eq_refl d Hd)).
  - rewrite (proj1 (H4 contended EmptyString contended 0%nat eq_refl eq_refl)). reflexivity.
Defined.

(** C6 (the claim's reading fails): a caller who builds its configuration
    with a back-off of 5 s and passes it through [New], as the program does,
    runs an election loop that, on contention, sleeps the hidden default
    20 s and never 5 s, and requests the lock with the constant 120 s TTL. *)
Lemma C6_caller_backoff_ignored :
  MasterBackOffTime cfg_5s = 5 * Second /\
  let r := CreateOrGetSharedAssets sim_env (New cfg_5s) 1 (sim_start contended) in
  snd r = Running /\
  In (EvSleep defaultBackOff) (trace (fst r)) /\
  ~ In (EvSleep (5 * Second)) (trace (fst r)) /\
  In (EvGetOrCreateLock assetLockKey defaultLockTTL false None) (trace (fst r)).
Proof.
  split; [reflexivity|]. cbv zeta. vm_compute.
  split; [reflexivity|]. split; [tauto|]. split; [|tauto].
  intros H. repeat destruct H as [H|H]; try discriminate; contradiction.
Qed.

(** [for true {}]: each round is one more tick of CPU work, and nothing else. *)
Lemma spin_ticks {World : Type} (fuel : nat) (s : @St World) :
  spin fuel s = (mkSt (world s) (trace s) (fuel + ticks s), Running).
Proof.
  revert s. induction fuel as [|n IH]; intros s.
  - destruct s; reflexivity.
  - cbn [spin]. unfold_M. cbv [tick]. rewrite IH. cbn [world trace ticks].
    rewrite Nat.add_succ_r. reflexivity.
Qed.

(** C8 (as the code has it): once the bootstrap has left the election loop
    by [break], [CreateOrGetSharedAssets] logs "Master bootstrapped" and
    returns nil when [ExitOnCompletion] is set; when it is unset it never
    returns, whatever the fuel, and every round of its wait is CPU work (a
    busy spin adding ticks) with no event, not a parked wait. *)
Theorem C8_completion_return_or_spin {World : Type} (env : Env World) (cfg : ConfigType)
    (fuel : nat) (s s1 : @St World) :
  bootstrap env cfg fuel s = (s1, LoopBreak) ->
  (ExitOnCompletion cfg = true ->
     CreateOrGetSharedAssets env cfg fuel s =
       (emit (EvLog "Master bootstrapped") (world s1) s1, Returned None))
  /\ (ExitOnCompletion cfg = false ->
     CreateOrGetSharedAssets env cfg fuel s =
       (mkSt (world s1) (trace s1 ++ [EvLog "Master bootstrapped"]) (fuel + ticks s1), Running)).
Proof.
  intros Hb. unfold CreateOrGetSharedAssets. unfold_M. rewrite Hb. cbv [log emit].
  cbn [world trace ticks].
  split; intros He; rewrite He; cbn [negb].
  - reflexivity.
  - rewrite spin_ticks. reflexivity.
Qed.

Lemma C8_completion_return_or_spin_witness :
  bootstrap sim_env (test_cfg false) 3 (sim_start published_world)
    = (fst (bootstrap sim_env (test_cfg false) 3 (sim_start published_world)), LoopBreak) /\
  CreateOrGetSharedAssets sim_env (test_cfg false) 3 (sim_start published_world) =
    (let s1 := fst (bootstrap sim_env (test_cfg false) 3 (sim_start published_world)) in
     mkSt (world s1) (trace s1 ++ [EvLog "Master bootstrapped"]) (3 + ticks s1), Running).
Proof.
  assert (Hb : bootstrap sim_env (test_cfg false) 3 (sim_start published_world)
    = (fst (bootstrap sim_env (test_cfg false) 3 (sim_start published_world)), LoopBreak))
    by (vm_compute; reflexivity).
  split; [exact Hb|].
  exact (proj2 (C8_completion_return_or_spin sim_env (test_cfg false) 3 _ _ Hb) eq_refl).
Defined.

(** C8 (the claim's reading fails): with the flag unset, a secondary that
    bootstrapped runs on without returning; given 3 or 6 rounds it has the
    same events but 3 more ticks of CPU work: a spinning loop. *)
Lemma C8_unset_flag_spins :
  let run fuel := CreateOrGetSharedAssets sim_env (test_cfg false) fuel (sim_start published_world) in
  snd (run 3%nat) = Running /\ snd (run 6%nat) = Running /\
  trace (fst (run 3%nat)) = trace (fst (run 6%nat)) /\
  ticks (fst (run 3%nat)) = 4%nat /\ ticks (fst (run 6%nat)) = 7%nat.
Proof. vm_compute. repeat split; reflexivity. Qed.

(** C2 (code bug): when the front-proxy certificate is not a CA,
    [LoadAndSerializeAssets] reports it, but [BootstrapOnce] drops the error:
    it goes on with CreateKubeConfig, the kubelet, the addons and the rest,
    returns an empty payload with no error, and the election loop then
    publishes that empty payload under [assetKey]. *)
Theorem C2_not_ca_error_discarded :
  LoadAndSerializeAssets sim_env (sim_start not_ca_world) =
    (sim_start not_ca_world, (EmptyString,
      Some (ErrMsg "certificate and key could be loaded but the certificate is not a CA")))
  /\ snd (BootstrapOnce sim_env (sim_start not_ca_world)) = (EmptyString, None)
  /\ In (EvStep Addons None) (trace (fst (BootstrapOnce sim_env (sim_start not_ca_world))))
  /\ In (EvPutTx assetKey EmptyString None)
       (trace (fst (CreateOrGetSharedAssets sim_env (test_cfg true) 2 (sim_start not_ca_world))))
  /\ snd (CreateOrGetSharedAssets sim_env (test_cfg true) 2 (sim_start not_ca_world))
       = Returned None.
Proof. vm_compute. repeat split; tauto. Qed.

(** C3 (code bug): [SaveAssets] drops the error of [Unmarshal]; on the
    payload "garbage" the decoder reports a syntax error, yet
    [BootstrapSecondaryMaster] writes four empty key and certificate files,
    runs CreatePKI, CreateKubeConfig, the kubelet and the labelling, and
    returns nil. *)
Theorem C3_garbage_payload_not_rejected :
  (forall (World : Type) (env : Env World) (a : string) (s : @St World),
     SaveAssets env a s = write_shared_assets env (fst (Unmarshal a SharedAssets_zero)) s)
  /\ Unmarshal "garbage" SharedAssets_zero = (SharedAssets_zero, Some ErrJSONSyntax)
  /\ BootstrapSecondaryMaster sim_env "garbage" (sim_start garbage_world) =
     (mkSt garbage_world
        [EvLog "Not primary master (in this run)..."; EvLog "Saving assets to disk...";
         EvWriteFile "/etc/kubernetes/pki/sa.pub" EmptyString 420 None;
         EvWriteFile "/etc/kubernetes/pki/sa.key" EmptyString 384 None;
         EvWriteFile "/etc/kubernetes/pki/front-proxy-ca.crt" EmptyString 420 None;
         EvWriteFile "/etc/kubernetes/pki/front-proxy-ca.key" EmptyString 384 None;
         EvStep CreatePKI None; EvStep CreateKubeConfig None;
         EvStep (CreateAndStartKubelet true) None;
         EvStep UpdateMasterRoleLabelsAndTaints None] 0, None).
Proof.
  split.
  - intros World env a s. unfold SaveAssets. destruct (Unmarshal a SharedAssets_zero). reflexivity.
  - split; vm_compute; reflexivity.
Qed.


(* ------------------------------------------------------------------ *)
(** ** stringToMap: composition and the shape of its entries *)

Lemma split_comma_app (a b : string) :
  split_comma (a ++ "," ++ b) = split_comma a ++ split_comma b.
Proof.
  induction a as [|c a IH]; [reflexivity|].
  cbn [split_comma]. rewrite sapp_cons. cbn [split_comma].
  destruct (Ascii.eqb c ","%char); [rewrite IH; reflexivity|].
  rewrite IH. destruct (split_comma_cons a) as [x [xs Hs]]. rewrite Hs. reflexivity.
Qed.

Lemma fold_apply_item_union (items : list string) (m : gmap string string) :
  List.fold_left apply_item items m = List.fold_left apply_item items ∅ ∪ m.
Proof.
  revert m. induction items as [|x xs IH]; intros m; simpl.
  - rewrite map_empty_union. reflexivity.
  - rewrite (IH (apply_item m x)), (IH (apply_item ∅ x)), <- map_union_assoc. f_equal.
    unfold apply_item. destruct (item_entry x) as [[k v]|].
    + rewrite insert_union_singleton_l, insert_empty. reflexivity.
    + rewrite map_empty_union. reflexivity.
Qed.

Lemma has_char_app (c : ascii) (a b : string) :
  has_char c (a ++ b) = has_char c a || has_char c b.
Proof. induction a as [|x a IH]; [reflexivity|]. simpl. rewrite IH. apply orb_assoc. Qed.

Lemma fields_from_fields (f : ascii -> bool) (s cur field : string) :
  (forall ch, has_char ch cur = true -> f ch = false) ->
  In field (fields_from f cur s) ->
  nonempty field = true /\
  forall ch, has_char ch field = true -> f ch = false /\ (has_char ch cur = true \/ has_char ch s = true).
Proof.
  revert cur. induction s as [|c s IH]; intros cur Hcur Hin; cbn [fields_from] in Hin.
  - destruct (nonempty cur) eqn:Ne; [|contradiction].
    destruct Hin as [<-|[]]. split; [exact Ne|]. intros ch H. split; [exact (Hcur ch H) | left; exact H].
  - assert (Hrest : forall cur', (forall ch, has_char ch cur' = true -> f ch = false) ->
              (forall ch, has_char ch cur' = true -> has_char ch cur = true \/ ch = c) ->
              In field (fields_from f cur' s) ->
              nonempty field = true /\ forall ch, has_char ch field = true ->
                f ch = false /\ (has_char ch cur = true \/ has_char ch (String c s) = true)).
    { intros cur' H1 H2 H3. destruct (IH cur' H1 H3) as [Hn Hf]. split; [exact Hn|].
      intros ch Hch. destruct (Hf ch Hch) as [Hfc [Hc|Hs]]; split; [exact Hfc| |exact Hfc|].
      - destruct (H2 ch Hc) as [Hc' | ->]; [left; exact Hc'|right; simpl; rewrite Ascii.eqb_refl; reflexivity].
      - right. simpl. rewrite Hs. apply orb_true_r. }
    destruct (f c) eqn:Fc.
    + assert (Hempty : forall ch, has_char ch EmptyString = true -> False) by discriminate.
      destruct (nonempty cur) eqn:Ne.
      * destruct Hin as [<-|Hin].
        -- split; [exact Ne|]. intros ch H. split; [exact (Hcur ch H) | left; exact H].
        -- apply (Hrest EmptyString); [intros ch H; destruct (Hempty ch H) ..|exact Hin].
      * apply (Hrest EmptyString); [intros ch H; destruct (Hempty ch H) ..|exact Hin].
    + apply (Hrest (cur ++ str1 c)%string); [| |exact Hin].
      * intros ch H. rewrite has_char_app in H. apply orb_true_iff in H as [H|H]; [exact (Hcur ch H)|].
        simpl in H. rewrite orb_false_r in H. apply Ascii.eqb_eq in H. subst ch. exact Fc.
      * intros ch H. rewrite has_char_app in H. apply orb_true_iff in H as [H|H]; [left; exact H|].
        simpl in H. rewrite orb_false_r in H. apply Ascii.eqb_eq in H. right; symmetry; exact H.
Qed.

Lemma last_entry_in (k v : string) (items : list string) :
  last_entry k items = Some v -> exists x, In x items /\ item_entry x = Some (k, v).
Proof.
  induction items as [|x xs IH]; [discriminate|]. simpl.
  destruct (last_entry k xs) as [v'|] eqn:E.
  - intros [= <-]. destruct (IH eq_refl) as [y [Hy Hi]]. exists y. split; [right; exact Hy|exact Hi].
  - destruct (item_entry x) as [[k' v']|] eqn:Hx; [|discriminate].
    destruct (String.eqb k' k) eqn:Ek; [|discriminate]. apply String.eqb_eq in Ek. subst k'.
    intros [= <-]. exists x. split; [left; reflexivity|exact Hx].
Qed.

Lemma fields_from_plain (f : ascii -> bool) (cur s : string) :
  (forall ch, has_char ch s = true -> f ch = false) ->
  fields_from f cur s = if nonempty (cur ++ s) then [(cur ++ s)%string] else [].
Proof.
  revert cur. induction s as [|c s IH]; intros cur Hs; cbn [fields_from].
  - rewrite sapp_nil_r. reflexivity.
  - assert (Fc : f c = false) by (apply Hs; simpl; rewrite Ascii.eqb_refl; reflexivity).
    rewrite Fc, IH.
    + rewrite sapp_assoc. reflexivity.
    + intros ch H. apply Hs. simpl. rewrite H. apply orb_true_r.
Qed.

Lemma fields_from_sep (f : ascii -> bool) (cur a b : string) (sep : ascii) :
  f sep = true -> (forall ch, has_char ch a = true -> f ch = false) ->
  fields_from f cur (a ++ String sep b) =
  (if nonempty (cur ++ a) then [(cur ++ a)%string] else []) ++ fields_from f EmptyString b.
Proof.
  intros Hsep. revert cur. induction a as [|c a IH]; intros cur Ha.
  - cbn [fields_from String.append]. rewrite Hsep, sapp_nil_r. destruct (nonempty cur); reflexivity.
  - assert (Fc : f c = false) by (apply Ha; simpl; rewrite Ascii.eqb_refl; reflexivity).
    rewrite sapp_cons. cbn [fields_from]. rewrite Fc, IH.
    + rewrite sapp_assoc. reflexivity.
    + intros ch H. apply Ha. simpl. rewrite H. apply orb_true_r.
Qed.

Lemma split_comma_plain (s : string) : has_char ","%char s = false -> split_comma s = [s].
Proof.
  induction s as [|c s IH]; [reflexivity|]. simpl. intros H.
  apply orb_false_iff in H as [Hc Hs]. rewrite Hc, (IH Hs). reflexivity.
Qed.

Lemma plain_sep (s : string) :
  has_char "="%char s = false -> has_char " "%char s = false ->
  forall ch, has_char ch s = true -> sep_eq_space ch = false.
Proof.
  intros H1 H2 ch H. unfold sep_eq_space.
  destruct (Ascii.eqb ch "="%char) eqn:E1; [apply Ascii.eqb_eq in E1; subst; congruence|].
  destruct (Ascii.eqb ch " "%char) eqn:E2; [apply Ascii.eqb_eq in E2; subst; congruence|].
  reflexivity.
Qed.

(** X1: [stringToMap] of two comma-joined argument lists is the union of
    the two maps, the entries of the second list winning; in particular
    appending [",k=v"] (with [k] and [v] non-empty and free of ',', '='
    and ' ') inserts [k := v]. *)
Theorem X1_stringToMap_append_insert (a b : string) :
  stringToMap (a ++ "," ++ b) = stringToMap b ∪ stringToMap a /\
  forall k v : string, nonempty k = true -> nonempty v = true ->
    has_char ","%char k = false -> has_char "="%char k = false -> has_char " "%char k = false ->
    has_char ","%char v = false -> has_char "="%char v = false -> has_char " "%char v = false ->
    stringToMap (a ++ "," ++ k ++ "=" ++ v) = <[k := v]> (stringToMap a).
Proof.
  assert (Happ : forall a b, stringToMap (a ++ "," ++ b) = stringToMap b ∪ stringToMap a).
  { intros a' b'. rewrite !stringToMap_fold, split_comma_app, List.fold_left_app.
    apply fold_apply_item_union. }
  split; [apply Happ|].
  intros k v Hk Hv Kc Ke Ks Vc Ve Vs. rewrite Happ.
  rewrite stringToMap_fold, split_comma_plain.
  2: { rewrite has_char_app, Kc. simpl. exact Vc. }
  cbn [List.fold_left]. unfold apply_item, item_entry, FieldsFunc.
  change ("=" ++ v)%string with (String "="%char v).
  rewrite (fields_from_sep sep_eq_space EmptyString k v "="%char eq_refl (plain_sep k Ke Ks)), sapp_nil_l,
          (fields_from_plain _ _ _ (plain_sep v Ve Vs)), sapp_nil_l, Hk, Hv.
  cbn [app]. rewrite insert_empty, insert_union_singleton_l. reflexivity.
Qed.

(** X2: every entry of [stringToMap args] has a non-empty key, and
    neither its key nor its value contains ',', '=' or ' '. *)
Theorem X2_stringToMap_entries_plain (args k v : string) :
  stringToMap args !! k = Some v ->
  nonempty k = true /\
  forall c, c = ","%char \/ c = "="%char \/ c = " "%char ->
    has_char c k = false /\ has_char c v = false.
Proof.
  rewrite stringToMap_fold, fold_apply_item_lookup.
  destruct (last_entry k (split_comma args)) as [v'|] eqn:E; [|rewrite lookup_empty; discriminate].
  intros [= ->]. destruct (last_entry_in _ _ _ E) as [x [Hx Hi]].
  assert (Hxc : has_char ","%char x = false)
    by exact (proj1 (List.Forall_forall _ _) (split_comma_no_comma args) x Hx).
  assert (Hnone : forall ch, has_char ch EmptyString = true -> sep_eq_space ch = false) by discriminate.
  assert (Hfield : forall fld, In fld (FieldsFunc x sep_eq_space) ->
            nonempty fld = true /\ forall c, c = ","%char \/ c = "="%char \/ c = " "%char ->
            has_char c fld = false).
  { intros fld Hin. destruct (fields_from_fields _ _ _ _ Hnone Hin) as [Hn Hf]. split; [exact Hn|].
    intros c Hc. destruct (has_char c fld) eqn:Hcf; [|reflexivity].
    destruct (Hf c Hcf) as [Hs [Hcur|Hcx]]; [discriminate|].
    destruct Hc as [->|[->| ->]]; [congruence|discriminate|discriminate]. }
  unfold item_entry in Hi.
  destruct (FieldsFunc x sep_eq_space) as [|k' [|v'' [|z r]]] eqn:HF; try discriminate.
  - injection Hi as -> <-. destruct (Hfield k (or_introl eq_refl)) as [Hn Hk].
    split; [exact Hn|]. intros c Hc. split; [exact (Hk c Hc) | reflexivity].
  - injection Hi as -> ->. destruct (Hfield k (or_introl eq_refl)) as [Hn Hk].
    destruct (Hfield v (or_intror (or_introl eq_refl))) as [_ Hv].
    split; [exact Hn|]. intros c Hc. split; [exact (Hk c Hc) | exact (Hv c Hc)].
Qed.

Lemma X1_stringToMap_append_insert_witness :
  stringToMap ("--v=2" ++ "," ++ "cloud-provider" ++ "=" ++ "aws")
  = <[ "cloud-provider" := "aws" ]> (stringToMap "--v=2").
Proof.
  apply (proj2 (X1_stringToMap_append_insert "--v=2" EmptyString)); reflexivity.
Defined.

Lemma X2_stringToMap_entries_plain_witness :
  stringToMap "--v=2,cloud-provider=aws" !! "cloud-provider" = Some "aws" /\
  nonempty "cloud-provider" = true.
Proof.
  assert (H : stringToMap "--v=2,cloud-provider=aws" !! "cloud-provider" = Some "aws")
    by (vm_compute; reflexivity).
  split; [exact H | exact (proj1 (X2_stringToMap_entries_plain _ _ _ H))].
Defined.

(* ------------------------------------------------------------------ *)
(** ** The coordinator: further properties *)

(** X3: if one of the three preparatory steps of [CreateOrGetSharedAssets]
    (UpdateCloudCfg, CopyKubeCa, WriteManifests) fails, the method returns
    that error at once: the trace ends with the failed step, no etcd call
    is made and no loop iteration is spent. *)
Theorem X3_preparation_failure_returns {World : Type} (env : Env World) (cfg : ConfigType)
    (fuel : nat) (s : @St World) :
  (forall w e, collab env UpdateCloudCfg (world s) = (w, Some e) ->
     CreateOrGetSharedAssets env cfg fuel s =
     (mkSt w (trace s ++ [EvLog "Determin if primary master..."; EvStep UpdateCloudCfg (Some e)])
        (ticks s), Returned (Some e)))
  /\ (forall w1 w e, collab env UpdateCloudCfg (world s) = (w1, None) ->
     collab env CopyKubeCa w1 = (w, Some e) ->
     CreateOrGetSharedAssets env cfg fuel s =
     (mkSt w (trace s ++ [EvLog "Determin if primary master..."; EvStep UpdateCloudCfg None;
                          EvStep CopyKubeCa (Some e)]) (ticks s), Returned (Some e)))
  /\ (forall w1 w2 w e, collab env UpdateCloudCfg (world s) = (w1, None) ->
     collab env CopyKubeCa w1 = (w2, None) -> collab env WriteManifests w2 = (w, Some e) ->
     CreateOrGetSharedAssets env cfg fuel s =
     (mkSt w (trace s ++ [EvLog "Determin if primary master..."; EvStep UpdateCloudCfg None;
                          EvStep CopyKubeCa None; EvStep WriteManifests (Some e)]) (ticks s),
      Returned (Some e))).
Proof.
  unfold CreateOrGetSharedAssets, bootstrap. unfold_M. cbv [log Step emit]. cbn [world trace ticks].
  split; [|split].
  - intros w e H1. rewrite H1. cbn [world trace ticks]. flatten_trace. reflexivity.
  - intros w1 w e H1 H2. rewrite H1. cbn [world trace ticks]. rewrite H2.
    cbn [world trace ticks]. flatten_trace. reflexivity.
  - intros w1 w2 w e H1 H2 H3. rewrite H1. cbn [world trace ticks]. rewrite H2.
    cbn [world trace ticks]. rewrite H3. cbn [world trace ticks]. flatten_trace. reflexivity.
Qed.

(** X5: [CleanUp] deletes only what it is asked to: besides log lines, its
    events are deletes of the lock key (only when [releaseLock]) and of the
    asset key (only when [deleteAssets]). *)
Theorem X5_CleanUp_deletes_only_requested {World : Type} (env : Env World)
    (releaseLock deleteAssets : bool) (s : @St World) (l : list event) :
  trace (fst (CleanUp env releaseLock deleteAssets s)) = trace s ++ l ->
  forall ev, In ev l ->
    (exists m, ev = EvLog m) \/
    (exists e, ev = EvDelete assetLockKey e /\ releaseLock = true) \/
    (exists e, ev = EvDelete assetKey e /\ deleteAssets = true).
Proof.
  intros Ht ev Hin. unfold CleanUp in Ht. unfold_M. cbv [log Delete emit] in Ht.
  cbn [world trace ticks] in Ht.
  destruct releaseLock, deleteAssets; cbn [world trace ticks fst] in Ht;
    repeat match type of Ht with
    | context [etcd_Delete env ?x1 ?x2] =>
      let H := fresh "HD" in destruct (etcd_Delete env x1 x2) as [? [?|]] eqn:H;
      cbn [world trace ticks fst] in Ht
    end;
    rewrite <- ?app_assoc in Ht; cbn [app] in Ht;
    first [apply app_inv_trace in Ht
          | rewrite <- (app_nil_r (trace s)) in Ht at 1; apply app_inv_trace in Ht];
    subst l;
    repeat (destruct Hin as [Hin|Hin]; [subst ev|]);
    try contradiction; eauto 6.
Qed.

Lemma X5_CleanUp_deletes_only_requested_witness :
  In (EvDelete assetLockKey None)
     (trace (fst (CleanUp sim_env true false (sim_start published_world)))) /\
  ((exists m, EvDelete assetLockKey None = EvLog m) \/
   (exists e, EvDelete assetLockKey None = EvDelete assetLockKey e /\ true = true) \/
   (exists e, EvDelete assetLockKey None = EvDelete assetKey e /\ false = true)).
Proof.
  split; [vm_compute; auto|].
  exact (X5_CleanUp_deletes_only_requested sim_env true false (sim_start published_world)
           (trace (fst (CleanUp sim_env true false (sim_start published_world)))) eq_refl
           (EvDelete assetLockKey None) ltac:(vm_compute; auto)).
Defined.

(** X6: a full [CleanUp true true] first releases the lock and, only if
    that delete succeeded, deletes the assets, returning the second
    delete's result; when the lock delete fails it returns that error and
    the assets are not deleted; [CleanUp false true] only deletes the
    assets. *)
Theorem X6_CleanUp_full_order {World : Type} (env : Env World) (s : @St World) :
  (forall w1 e1, etcd_Delete env assetLockKey (world s) = (w1, Some e1) ->
     CleanUp env true true s =
     (mkSt w1 (trace s ++ [EvLog "Releasing lock..."; EvDelete assetLockKey (Some e1)]) (ticks s),
      Some e1))
  /\ (forall w1 w2 e2, etcd_Delete env assetLockKey (world s) = (w1, None) ->
     etcd_Delete env assetKey w1 = (w2, e2) ->
     CleanUp env true true s =
     (mkSt w2 (trace s ++ [EvLog "Releasing lock..."; EvDelete assetLockKey None;
                           EvLog "Released lock"; EvLog "Releasing assets...";
                           EvDelete assetKey e2]) (ticks s), e2))
  /\ (forall w e2, etcd_Delete env assetKey (world s) = (w, e2) ->
     CleanUp env false true s =
     (mkSt w (trace s ++ [EvLog "Releasing assets..."; EvDelete assetKey e2]) (ticks s), e2)).
Proof.
  unfold CleanUp. unfold_M. cbv [log Delete emit]. cbn [world trace ticks]. split; [|split].
  - intros w1 e1 H1. rewrite H1. cbn [world trace ticks]. flatten_trace. reflexivity.
  - intros w1 w2 e2 H1 H2. rewrite H1. cbn [world trace ticks]. rewrite H2.
    cbn [world trace ticks]. flatten_trace. destruct e2; reflexivity.
  - intros w e2 H. rewrite H. cbn [world trace ticks]. flatten_trace. destruct e2; reflexivity.
Qed.

Lemma X6_CleanUp_full_order_witness :
  CleanUp sim_env true true (sim_start published_world) =
  (mkSt (sim_set_kv (sim_set_kv published_world []) [])
     [EvLog "Releasing lock..."; EvDelete assetLockKey None; EvLog "Released lock";
      EvLog "Releasing assets..."; EvDelete assetKey None] 0, None).
Proof.
  exact (proj1 (proj2 (X6_CleanUp_full_order sim_env (sim_start published_world))) _ _ None
           ltac:(vm_compute; reflexivity) ltac:(vm_compute; reflexivity)).
Defined.

Lemma SaveAssets_ok_trace {World : Type} (env : Env World) (a : string) (s : @St World) :
  snd (SaveAssets env a s) = None ->
  trace (fst (SaveAssets env a s))
  = trace s ++ map write_ok (shared_asset_files (fst (Unmarshal a SharedAssets_zero))).
Proof.
  unfold SaveAssets. destruct (Unmarshal a SharedAssets_zero) as [sa ?]. cbn [fst].
  unfold write_shared_assets. unfold_M. cbv [Write emit]. cbn [world trace ticks].
  destruct (WriteFile env _ _ _ (world s)) as [w1 [e1|]]; cbn [world trace ticks fst snd];
    [discriminate|].
  destruct (WriteFile env _ _ _ w1) as [w2 [e2|]]; cbn [world trace ticks fst snd];
    [discriminate|].
  destruct (WriteFile env _ _ _ w2) as [w3 [e3|]]; cbn [world trace ticks fst snd];
    [discriminate|].
  destruct (WriteFile env _ _ _ w3) as [w4 [e4|]]; cbn [world trace ticks fst snd];
    [discriminate|].
  intros _. flatten_trace. reflexivity.
Qed.

Lemma SaveAssets_err_trace {World : Type} (env : Env World) (a : string) (s : @St World)
    (e : err) :
  snd (SaveAssets env a s) = Some e ->
  exists k p d n e0 msg, (k < 4)%nat /\
    nth_error (shared_asset_files (fst (Unmarshal a SharedAssets_zero))) k = Some (p, d, n) /\
    trace (fst (SaveAssets env a s))
    = trace s ++ map write_ok (firstn k (shared_asset_files (fst (Unmarshal a SharedAssets_zero))))
      ++ [EvWriteFile p d n (Some e0)] /\
    e = ErrWrap msg e0.
Proof.
  unfold SaveAssets. destruct (Unmarshal a SharedAssets_zero) as [sa ?]. cbn [fst].
  unfold write_shared_assets. unfold_M. cbv [Write emit]. cbn [world trace ticks].
  destruct (WriteFile env _ _ _ (world s)) as [w1 [e1|]]; cbn [world trace ticks fst snd].
  { intros [= <-]. exists 0%nat; do 5 eexists. split; [lia|]. split; [reflexivity|].
    split; [reflexivity|reflexivity]. }
  destruct (WriteFile env _ _ _ w1) as [w2 [e2|]]; cbn [world trace ticks fst snd].
  { intros [= <-]. exists 1%nat; do 5 eexists. split; [lia|]. split; [reflexivity|].
    split; [flatten_trace; reflexivity|reflexivity]. }
  destruct (WriteFile env _ _ _ w2) as [w3 [e3|]]; cbn [world trace ticks fst snd].
  { intros [= <-]. exists 2%nat; do 5 eexists. split; [lia|]. split; [reflexivity|].
    split; [flatten_trace; reflexivity|reflexivity]. }
  destruct (WriteFile env _ _ _ w3) as [w4 [e4|]]; cbn [world trace ticks fst snd].
  { intros [= <-]. exists 3%nat; do 5 eexists. split; [lia|]. split; [reflexivity|].
    split; [flatten_trace; reflexivity|reflexivity]. }
  discriminate.
Qed.

(** X7: [SaveAssets] writes the decoded bundle as four files under the PKI
    directory, in order: sa.pub (0644), sa.key (0600), front-proxy-ca.crt
    (0644) and front-proxy-ca.key (0600).  It stops at the first failed
    write and returns that write's error, wrapped; the files before it
    were written successfully. *)
Theorem X7_SaveAssets_writes {World : Type} (env : Env World) (a : string) (s : @St World) :
  let files := shared_asset_files (fst (Unmarshal a SharedAssets_zero)) in
  (snd (SaveAssets env a s) = None ->
     trace (fst (SaveAssets env a s)) = trace s ++ map write_ok files) /\
  (forall e, snd (SaveAssets env a s) = Some e ->
     exists k p d n e0 msg, (k < 4)%nat /\ nth_error files k = Some (p, d, n) /\
       trace (fst (SaveAssets env a s))
       = trace s ++ map write_ok (firstn k files) ++ [EvWriteFile p d n (Some e0)] /\
       e = ErrWrap msg e0).
Proof.
  intros files. split; [apply SaveAssets_ok_trace | apply SaveAssets_err_trace].
Qed.

Lemma LoadAndSerializeAssets_trace {World : Type} (env : Env World) (s : @St World) :
  trace (fst (LoadAndSerializeAssets env s)) = trace s /\
  ticks (fst (LoadAndSerializeAssets env s)) = ticks s /\
  (snd (snd (LoadAndSerializeAssets env s)) <> None ->
   fst (snd (LoadAndSerializeAssets env s)) = EmptyString).
Proof.
  unfold LoadAndSerializeAssets. unfold_M. cbv [LoadKey LoadPublicKey LoadCertAndKey].
  destruct (TryLoadKeyFromDisk env _ _ (world s)) as [w1 [k|e]]; cbn [world trace ticks fst snd];
    [|repeat split; try reflexivity; intros _; reflexivity].
  destruct (TryLoadPublicKeyFromDisk env _ _ w1) as [w2 [p|e]]; cbn [world trace ticks fst snd];
    [|repeat split; try reflexivity; intros _; reflexivity].
  destruct (TryLoadCertAndKeyFromDisk env _ _ w2) as [w3 [[c k'] [e|]]];
    cbn [world trace ticks fst snd];
    [repeat split; try reflexivity; intros _; reflexivity|].
  destruct c as [c|], k' as [k'|]; cbn [world trace ticks fst snd];
    try (repeat split; try reflexivity; intros _; reflexivity).
  destruct (negb (IsCA c)); cbn [fst snd]; repeat split; try reflexivity.
  intros H; contradiction.
Qed.

(** X8: [LoadAndSerializeAssets] only reads: it emits no event and spends
    no loop iteration, and whenever it reports an error the payload it
    returns is empty. *)
Theorem X8_LoadAndSerializeAssets_reads_only {World : Type} (env : Env World) (s : @St World) :
  trace (fst (LoadAndSerializeAssets env s)) = trace s /\
  ticks (fst (LoadAndSerializeAssets env s)) = ticks s /\
  (snd (snd (LoadAndSerializeAssets env s)) <> None ->
   fst (snd (LoadAndSerializeAssets env s)) = EmptyString).
Proof. exact (LoadAndSerializeAssets_trace env s). Qed.

Ltac split_calls env :=
  repeat match goal with
  | |- context [collab env ?c ?w] =>
    let Hc := fresh "Hc" in
    destruct (collab env c w) as [? [?|]] eqn:Hc; cbn [world trace ticks fst snd]
  | |- context [LoadAndSerializeAssets env ?st] =>
    let HL := fresh "HL" in
    pose proof (proj1 (LoadAndSerializeAssets_trace env st)) as HL;
    destruct (LoadAndSerializeAssets env st) as [? [? ?]];
    cbn [fst snd world trace ticks] in HL |- *
  end.

Ltac rewrite_traces :=
  repeat match goal with
  | H : trace ?x = _ |- context [trace ?x] => rewrite H
  end.

(** X9: [BootstrapOnce] runs CreatePKI, CreateKubeConfig, the master
    kubelet, Addons, InstallNetwork and TokensDeploy in this order.  On
    success every one of them ran and succeeded; on an error the run
    stops at the failing call, which is the last event, every call before
    it succeeded, and the payload returned is empty. *)
Theorem X9_BootstrapOnce_step_order {World : Type} (env : Env World) (s : @St World) :
  (forall s' a, BootstrapOnce env s = (s', (a, None)) ->
     trace s' = trace s ++ EvLog "Bootstrapping master..." :: map step_ok bootstrap_steps
                ++ [EvLog "Master bootstrapped!"]) /\
  (forall s' a e, BootstrapOnce env s = (s', (a, Some e)) ->
     a = EmptyString /\
     exists k c, nth_error bootstrap_steps k = Some c /\
       trace s' = trace s ++ EvLog "Bootstrapping master..."
                  :: map step_ok (firstn k bootstrap_steps) ++ [EvStep c (Some e)]).
Proof.
  unfold BootstrapOnce. unfold_M. cbv [log Step emit]. cbn [world trace ticks].
  split_calls env; split;
    try (intros ?s' ?a [= <- <-]; cbn [trace]; rewrite_traces; flatten_trace; reflexivity);
    intros ?s' ?a ?e [= <- <- <-]; (split; [reflexivity|]); cbn [trace]; rewrite_traces;
    solve [ exists 0%nat; eexists; split; [reflexivity|]; flatten_trace; reflexivity
          | exists 1%nat; eexists; split; [reflexivity|]; flatten_trace; reflexivity
          | exists 2%nat; eexists; split; [reflexivity|]; flatten_trace; reflexivity
          | exists 3%nat; eexists; split; [reflexivity|]; flatten_trace; reflexivity
          | exists 4%nat; eexists; split; [reflexivity|]; flatten_trace; reflexivity
          | exists 5%nat; eexists; split; [reflexivity|]; flatten_trace; reflexivity ].
Qed.

Lemma map_write_ok_writes (fs : list (string * string * Z)) :
  Forall (fun ev => exists p d n e, ev = EvWriteFile p d n e) (map write_ok fs).
Proof.
  induction fs as [|[[p d] n] fs IH]; cbn [map]; constructor; [|exact IH].
  exists p, d, n, None. reflexivity.
Qed.

(** X10: [BootstrapSecondaryMaster] first saves the assets to disk and only
    then runs CreatePKI, CreateKubeConfig, the master kubelet and
    UpdateMasterRoleLabelsAndTaints, in this order.  On success all four
    files were written and all four calls succeeded; on an error either
    saving failed and no collaborator call was made at all, or the run
    stopped at the failing call, which is the last event. *)
Theorem X10_BootstrapSecondaryMaster_order {World : Type} (env : Env World) (a : string)
    (s : @St World) :
  let files := shared_asset_files (fst (Unmarshal a SharedAssets_zero)) in
  let start := [EvLog "Not primary master (in this run)..."; EvLog "Saving assets to disk..."] in
  (forall s', BootstrapSecondaryMaster env a s = (s', None) ->
     trace s' = trace s ++ start ++ map write_ok files ++ map step_ok secondary_steps) /\
  (forall s' e, BootstrapSecondaryMaster env a s = (s', Some e) ->
     (exists l, trace s' = trace s ++ start ++ l /\
                Forall (fun ev => exists p d n e, ev = EvWriteFile p d n e) l) \/
     (exists k c, nth_error secondary_steps k = Some c /\
        trace s' = trace s ++ start ++ map write_ok files
                   ++ map step_ok (firstn k secondary_steps) ++ [EvStep c (Some e)])).
Proof.
  intros files start. subst files start.
  unfold BootstrapSecondaryMaster. unfold_M. cbv [log Step emit]. cbn [world trace ticks].
  match goal with |- context [SaveAssets env a ?st] =>
    pose proof (SaveAssets_ok_trace env a st) as Hok;
    pose proof (SaveAssets_err_trace env a st) as Herr;
    destruct (SaveAssets env a st) as [s2 [e2|]]; cbn [fst snd] in Hok, Herr
  end.
  - destruct (Herr e2 eq_refl) as (k & p & d & n & e0 & msg & _ & _ & Ht & _).
    split; [intros ? [=]|]. intros ?s' ?e [= <- <-]. left.
    eexists. split.
    + rewrite Ht. cbn [trace]. flatten_trace. reflexivity.
    + apply Forall_app. split; [apply map_write_ok_writes|].
      constructor; [|constructor]. exists p, d, n, (Some e0). reflexivity.
  - specialize (Hok eq_refl). cbn [trace] in Hok. split_calls env; split;
      try (intros ?s' [= <-]; cbn [trace]; rewrite_traces; flatten_trace; reflexivity);
      try (intros ?s' [=]);
      intros ?s' ?e [= <- <-]; right; cbn [trace]; rewrite_traces;
      solve [ exists 0%nat; eexists; split; [reflexivity|]; flatten_trace; reflexivity
            | exists 1%nat; eexists; split; [reflexivity|]; flatten_trace; reflexivity
            | exists 2%nat; eexists; split; [reflexivity|]; flatten_trace; reflexivity
            | exists 3%nat; eexists; split; [reflexivity|]; flatten_trace; reflexivity ].
Qed.


(* ------------------------------------------------------------------ *)
(** ** The driver: further properties *)

Lemma has_char_false_IndexByte (c : ascii) (s : string) :
  has_char c s = false -> IndexByte s c = None.
Proof.
  induction s as [|x s IH]; [reflexivity|]. cbn [has_char IndexByte].
  intros H. apply orb_false_iff in H as [H1 H2]. rewrite H1, IH by exact H2. reflexivity.
Qed.

Lemma has_char_false_LastIndexByte (c : ascii) (s : string) :
  has_char c s = false -> LastIndexByte s c = None.
Proof.
  induction s as [|x s IH]; [reflexivity|]. cbn [has_char LastIndexByte].
  intros H. apply orb_false_iff in H as [H1 H2]. rewrite IH by exact H2. rewrite H1. reflexivity.
Qed.

Lemma IndexByte_app_l (c : ascii) (a b : string) :
  has_char c a = false -> IndexByte (a ++ b) c = option_map (Nat.add (String.length a)) (IndexByte b c).
Proof.
  induction a as [|x a IH]; intros H.
  - change (EmptyString ++ b)%string with b. cbn [String.length].
    destruct (IndexByte b c); reflexivity.
  - cbn [has_char] in H. apply orb_false_iff in H as [H1 H2].
    rewrite sapp_cons. cbn [IndexByte String.length]. rewrite H1, IH by exact H2.
    destruct (IndexByte b c); reflexivity.
Qed.

Lemma LastIndexByte_last (c : ascii) (a b : string) :
  has_char c b = false -> LastIndexByte (a ++ String c b) c = Some (String.length a).
Proof.
  intros Hb. induction a as [|x a IH].
  - rewrite sapp_nil_l. cbn [LastIndexByte]. rewrite has_char_false_LastIndexByte by exact Hb.
    rewrite Ascii.eqb_refl. reflexivity.
  - rewrite sapp_cons. cbn [LastIndexByte String.length]. rewrite IH. reflexivity.
Qed.

Lemma has_char_false_Index (c : ascii) (p rest : string) :
  has_char c rest = false -> Index rest (String c p) = None.
Proof.
  induction rest as [|x rest IH]; [reflexivity|]. cbn [has_char].
  intros H. apply orb_false_iff in H as [H1 H2]. cbn [Index String.prefix].
  destruct (ascii_dec c x) as [->|_]; [rewrite Ascii.eqb_refl in H1; discriminate|].
  rewrite IH by exact H2. reflexivity.
Qed.

Lemma Index_app_l (c : ascii) (p a b : string) :
  has_char c a = false ->
  Index (a ++ b) (String c p) = option_map (Nat.add (String.length a)) (Index b (String c p)).
Proof.
  induction a as [|x a IH]; intros H.
  - change (EmptyString ++ b)%string with b. cbn [String.length].
    destruct (Index b (String c p)); reflexivity.
  - cbn [has_char] in H. apply orb_false_iff in H as [H1 H2].
    rewrite sapp_cons. cbn [Index String.prefix String.length].
    destruct (ascii_dec c x) as [->|_]; [rewrite Ascii.eqb_refl in H1; discriminate|].
    rewrite IH by exact H2. destruct (Index b (String c p)); reflexivity.
Qed.

Lemma substring_0_length (s : string) : substring 0 (String.length s) s = s.
Proof. induction s as [|c s IH]; [reflexivity|]. cbn. rewrite IH. reflexivity. Qed.

Lemma substring_app_l (a b : string) : substring 0 (String.length a) (a ++ b) = a.
Proof. induction a as [|c a IH]; [destruct b; reflexivity|]. rewrite sapp_cons. cbn. rewrite IH. reflexivity. Qed.

Lemma substring_shift (a b : string) (m : nat) :
  substring (String.length a) m (a ++ b) = substring 0 m b.
Proof. induction a as [|c a IH]; [reflexivity|]. rewrite sapp_cons. cbn. exact IH. Qed.

Lemma drop_app (a b : string) : drop (String.length a) (a ++ b) = b.
Proof.
  unfold drop. rewrite slength_app, substring_shift.
  replace (String.length a + String.length b - String.length a)%nat with (String.length b) by lia.
  apply substring_0_length.
Qed.

Lemma has_char_false_neq (c x : ascii) (s : string) :
  has_char c (String x s) = false -> x <> c /\ has_char c s = false.
Proof.
  cbn [has_char]. intros H. apply orb_false_iff in H as [H1 H2]. split; [|exact H2].
  intros ->. rewrite Ascii.eqb_refl in H1. discriminate.
Qed.


Lemma not_bracket_match {T : Type} (x : ascii) (rest : string) (A B : T) :
  x <> "["%char -> match String x rest with String "["%char _ => A | _ => B end = B.
Proof.
  intros H. destruct x as [[] [] [] [] [] [] [] []]; try reflexivity. contradiction H. reflexivity.
Qed.

Lemma drop_0 (s : string) : drop 0 s = s.
Proof. unfold drop. rewrite Nat.sub_0_r. apply substring_0_length. Qed.

Lemma nonempty_length (p : string) : p <> EmptyString -> (0 <? String.length p)%nat = true.
Proof. destruct p; [contradiction|reflexivity]. Qed.

(** [getHost] on a plain [host:port]. *)
Lemma getHost_hostport (u : url.URL) (h p : string) :
  url.Host u = (h ++ ":" ++ p)%string ->
  has_char ":" h = false -> has_char "[" h = false -> has_char "]" h = false ->
  has_char "%" h = false ->
  p <> EmptyString -> has_char ":" p = false -> has_char "[" p = false -> has_char "]" p = false ->
  url.portOnly (url.Host u) = p /\ kubeadm.getHost (Some u) = Ok (h, None).
Proof.
  intros Hu Hc Hl Hr Hpc Hp Hpc' Hpl Hpr.
  assert (HP : url.portOnly (url.Host u) = p).
  { unfold url.portOnly. rewrite Hu. change (":" ++ p)%string with (String ":" p).
    rewrite IndexByte_app_l by exact Hc. cbn [IndexByte]. rewrite Ascii.eqb_refl. cbn [option_map].
    rewrite Index_app_l by exact Hr.
    rewrite (has_char_false_Index "]" ":" (String ":" p)) by (cbn [has_char]; exact Hpr).
    cbn [option_map]. rewrite !has_char_app. cbn [has_char]. rewrite Hr, Hpr. cbn [orb].
    rewrite Nat.add_0_r.
    change (String ":" p) with (str1 ":" ++ p)%string. rewrite <- sapp_assoc.
    replace (S (String.length h)) with (String.length (h ++ str1 ":")%string)
      by (rewrite slength_app; cbn; lia).
    apply drop_app. }
  split; [exact HP|].
  unfold kubeadm.getHost. rewrite HP, (nonempty_length p Hp).
  unfold net.SplitHostPort. rewrite Hu.
  change (":" ++ p)%string with (String ":" p).
  rewrite LastIndexByte_last by exact Hpc'.
  assert (Hhp : exists x rest, (h ++ String ":" p)%string = String x rest /\ x <> "["%char).
  { destruct h as [|y h'].
    - exists ":"%char, p. split; [reflexivity|discriminate].
    - apply has_char_false_neq in Hl as [Hy _]. exists y, (h' ++ String ":" p)%string.
      split; [reflexivity|exact Hy]. }
  destruct Hhp as (x & rest & Heq & Hx).
  rewrite Heq. rewrite (not_bracket_match x rest) by exact Hx. rewrite <- Heq.
  unfold take_s. rewrite substring_app_l, Hc, Hpc. cbv beta iota zeta.
  rewrite drop_0, !has_char_app. cbn [has_char]. rewrite Hl, Hpl, Hr, Hpr. cbn [orb].
  change (String ":" p) with (str1 ":" ++ p)%string. rewrite <- sapp_assoc.
  replace (S (String.length h)) with (String.length (h ++ str1 ":")%string)
    by (rewrite slength_app; cbn; lia).
  rewrite drop_app. reflexivity.
Qed.

Lemma IndexByte_none_has_char (c : ascii) (s : string) :
  IndexByte s c = None -> has_char c s = false.
Proof.
  induction s as [|x s IH]; [reflexivity|]. cbn [IndexByte has_char].
  destruct (Ascii.eqb x c); [discriminate|]. cbn [orb].
  destruct (IndexByte s c); [discriminate|]. intros _. apply IH. reflexivity.
Qed.

(** [getHost] on a bracketed [[host]:port]. *)
Lemma getHost_bracketed (u : url.URL) (h p : string) :
  url.Host u = ("[" ++ h ++ "]:" ++ p)%string ->
  has_char "[" h = false -> has_char "]" h = false ->
  p <> EmptyString -> has_char ":" p = false -> has_char "[" p = false -> has_char "]" p = false ->
  url.portOnly (url.Host u) = p /\ kubeadm.getHost (Some u) = Ok (h, None).
Proof.
  intros Hu Hl Hr Hp Hpc Hpl Hpr.
  set (a := String "[" (h ++ str1 "]")).
  assert (Ehp : ("[" ++ h ++ "]:" ++ p)%string = (a ++ String ":" p)%string).
  { subst a. rewrite (sapp_cons "[" (h ++ str1 "]")), sapp_assoc. reflexivity. }
  assert (Ha : String.length a = S (S (String.length h))).
  { subst a. cbn [String.length]. rewrite slength_app. cbn. lia. }
  assert (HP : url.portOnly (url.Host u) = p).
  { unfold url.portOnly. rewrite Hu.
    destruct (IndexByte _ ":") as [colon|] eqn:Ec.
    2:{ apply IndexByte_none_has_char in Ec. rewrite Ehp, has_char_app in Ec. cbn [has_char] in Ec.
        rewrite Ascii.eqb_refl, orb_true_r in Ec. discriminate. }
    assert (EI : Index ("[" ++ h ++ "]:" ++ p)%string "]:" = Some (S (String.length h))).
    { change ("[" ++ h ++ "]:" ++ p)%string with (String "[" (h ++ String "]" (String ":" p))).
      cbn [Index String.prefix].
      change (if ascii_dec "]" "[" then _ else false) with false. cbv iota.
      rewrite Index_app_l by exact Hr.
      cbn [Index String.prefix]. destruct (ascii_dec "]" "]"); [|contradiction].
      destruct (ascii_dec ":" ":"); [|contradiction].
      replace (String.prefix EmptyString p) with true by (destruct p; reflexivity).
      cbn. f_equal. lia. }
    rewrite EI, Ehp. replace (S (String.length h) + 2)%nat with (String.length (a ++ str1 ":")%string)
      by (rewrite slength_app, Ha; cbn; lia).
    change (String ":" p) with (str1 ":" ++ p)%string. rewrite <- sapp_assoc. apply drop_app. }
  split; [exact HP|].
  unfold kubeadm.getHost. rewrite HP, (nonempty_length p Hp).
  unfold net.SplitHostPort. rewrite Hu, Ehp.
  rewrite LastIndexByte_last by exact Hpc.
  assert (Eb : (a ++ String ":" p)%string = String "[" (h ++ String "]" (String ":" p))).
  { subst a. rewrite (sapp_cons "[" (h ++ str1 "]")), sapp_assoc. reflexivity. }
  rewrite Eb. cbv beta iota zeta.
  assert (EB : IndexByte (String "[" (h ++ String "]" (String ":" p))) "]" = Some (S (String.length h))).
  { cbn [IndexByte]. change (Ascii.eqb "[" "]") with false. cbv iota.
    rewrite IndexByte_app_l by exact Hr. cbn [IndexByte]. rewrite Ascii.eqb_refl.
    cbn. rewrite Nat.add_0_r. reflexivity. }
  rewrite EB, Ha.
  replace (S (S (String.length h)) =? String.length (String "[" (h ++ String "]" (String ":" p))))%nat
    with false.
  2:{ symmetry. apply Nat.eqb_neq. cbn [String.length]. rewrite slength_app. cbn [String.length].
      destruct p; [contradiction|]. cbn [String.length]. lia. }
  rewrite Nat.eqb_refl. cbv beta iota zeta.
  replace (S (String.length h) - 1)%nat with (String.length h) by lia.
  cbn [substring]. rewrite substring_app_l.
  unfold drop at 1. cbn [substring]. 
  replace (String.length (String "[" (h ++ String "]" (String ":" p))) - 1)%nat
    with (String.length (h ++ String "]" (String ":" p))) by (cbn [String.length]; lia).
  rewrite substring_0_length, has_char_app. cbn [has_char]. rewrite Hl, Hpl. cbn [orb].
  rewrite <- Eb. rewrite <- Ha.
  change (String ":" p) with (str1 ":" ++ p)%string.
  rewrite drop_app.
  change (("]" =? "[")%char || ((":" =? "[")%char || false)) with false. cbv iota.
  rewrite has_char_app, Hpr. cbn. reflexivity.
Qed.

Lemma portOnly_no_colon (s : string) : has_char ":" s = false -> url.portOnly s = EmptyString.
Proof. intros H. unfold url.portOnly. rewrite has_char_false_IndexByte by exact H. reflexivity. Qed.

Lemma portOnly_trailing_colon (h : string) :
  has_char ":" h = false -> has_char "]" h = false -> url.portOnly (h ++ ":") = EmptyString.
Proof.
  intros Hc Hr. unfold url.portOnly.
  rewrite IndexByte_app_l by exact Hc. cbn [IndexByte]. rewrite Ascii.eqb_refl. cbn [option_map].
  rewrite has_char_false_Index by (rewrite has_char_app, Hr; reflexivity).
  rewrite has_char_app, Hr. cbn [has_char orb]. change (Ascii.eqb ":" "]") with false. cbn [orb].
  rewrite Nat.add_0_r.
  replace (S (String.length h)) with (String.length (h ++ ":")%string)
    by (rewrite slength_app; cbn; lia).
  rewrite <- (sapp_nil_r (h ++ ":")) at 2. apply drop_app.
Qed.

Lemma getHost_no_port (u : url.URL) :
  url.portOnly (url.Host u) = EmptyString -> kubeadm.getHost (Some u) = Ok (url.Host u, None).
Proof. intros H. unfold kubeadm.getHost. rewrite H. reflexivity. Qed.

(** X11: [getHost] on the API server URL: without a colon the host is
    taken verbatim; with a trailing colon and no port, the host keeps the
    colon; for [host:port] it is [host]; for [[addr]:port] it is [addr]
    without the brackets.  In the last two cases the port [URL.Port]
    reports is [port]. *)
Theorem X11_getHost_forms (u : url.URL) :
  (has_char ":" (url.Host u) = false -> kubeadm.getHost (Some u) = Ok (url.Host u, None)) /\
  (forall h, url.Host u = (h ++ ":")%string ->
     has_char ":" h = false -> has_char "]" h = false ->
     kubeadm.getHost (Some u) = Ok ((h ++ ":")%string, None)) /\
  (forall h p, url.Host u = (h ++ ":" ++ p)%string ->
     has_char ":" h = false -> has_char "[" h = false -> has_char "]" h = false ->
     has_char "%" h = false ->
     p <> EmptyString -> has_char ":" p = false -> has_char "[" p = false -> has_char "]" p = false ->
     url.portOnly (url.Host u) = p /\ kubeadm.getHost (Some u) = Ok (h, None)) /\
  (forall h p, url.Host u = ("[" ++ h ++ "]:" ++ p)%string ->
     has_char "[" h = false -> has_char "]" h = false ->
     p <> EmptyString -> has_char ":" p = false -> has_char "[" p = false -> has_char "]" p = false ->
     url.portOnly (url.Host u) = p /\ kubeadm.getHost (Some u) = Ok (h, None)).
Proof.
  split; [|split; [|split]].
  - intros H. apply getHost_no_port, portOnly_no_colon, H.
  - intros h Hu Hc Hr. rewrite <- Hu. apply getHost_no_port. rewrite Hu.
    apply portOnly_trailing_colon; assumption.
  - intros h p Hu. apply getHost_hostport, Hu.
  - intros h p Hu. apply getHost_bracketed, Hu.
Qed.

Lemma X11_getHost_forms_witness :
  kubeadm.getHost (Some (url.mkURL "https" "api.example.com" EmptyString))
    = Ok ("api.example.com", None) /\
  kubeadm.getHost (Some (url.mkURL "https" "api.example.com:" EmptyString))
    = Ok ("api.example.com:", None) /\
  (url.portOnly "10.0.0.1:6443" = "6443" /\
   kubeadm.getHost (Some (url.mkURL "https" "10.0.0.1:6443" EmptyString)) = Ok ("10.0.0.1", None)) /\
  (url.portOnly "[fd00::1]:443" = "443" /\
   kubeadm.getHost (Some (url.mkURL "https" "[fd00::1]:443" EmptyString)) = Ok ("fd00::1", None)).
Proof.
  split; [|split; [|split]].
  - exact (proj1 (X11_getHost_forms (url.mkURL "https" "api.example.com" EmptyString)) eq_refl).
  - exact (proj1 (proj2 (X11_getHost_forms (url.mkURL "https" "api.example.com:" EmptyString)))
             "api.example.com" eq_refl eq_refl eq_refl).
  - exact (proj1 (proj2 (proj2 (X11_getHost_forms (url.mkURL "https" "10.0.0.1:6443" EmptyString))))
             "10.0.0.1" "6443" eq_refl eq_refl eq_refl eq_refl eq_refl ltac:(discriminate)
             eq_refl eq_refl eq_refl).
  - exact (proj2 (proj2 (proj2 (X11_getHost_forms (url.mkURL "https" "[fd00::1]:443" EmptyString))))
             "fd00::1" "443" eq_refl eq_refl eq_refl ltac:(discriminate) eq_refl eq_refl eq_refl).
Defined.

Lemma parse_uint_loop_nonneg (base cutoff maxVal n : Z) (s : string) :
  0 <= n -> 0 <= maxVal ->
  match strconv.parse_uint_loop base cutoff maxVal n s with inl m => 0 <= m | inr (m, _) => 0 <= m end.
Proof.
  revert n. induction s as [|d s IH]; intros n Hn Hm; cbn [strconv.parse_uint_loop]; [exact Hn|].
  destruct (strconv.digit_val d) as [v|]; [|lia].
  destruct (base <=? v); [lia|]. destruct (cutoff <=? n); [exact Hm|].
  destruct (_ || _); [exact Hm|]. apply IH; [|exact Hm].
  apply Z.mod_pos_bound. lia.
Qed.

Lemma ParseUint_nonneg (s : string) (base bitSize : Z) :
  0 <= bitSize -> 0 <= fst (strconv.ParseUint s base bitSize).
Proof.
  intros Hb. unfold strconv.ParseUint. destruct (String.length s =? 0)%nat; [cbn; lia|].
  pose proof (parse_uint_loop_nonneg base (strconv.maxUint64 / base + 1) (2 ^ bitSize - 1) 0 s
                ltac:(lia)) as H.
  assert (Hp : 0 <= 2 ^ bitSize - 1) by (assert (0 < 2 ^ bitSize) by (apply Z.pow_pos_nonneg; lia); lia).
  specialize (H Hp).
  destruct (strconv.parse_uint_loop _ _ _ _ _) as [m|[m why]]; exact H.
Qed.

Lemma int_range_bounds (s : string) (bitSize : Z) (neg : bool) (un n : Z) :
  1 <= bitSize -> 0 <= un -> strconv.int_range s bitSize neg un = (n, None) ->
  - 2 ^ (bitSize - 1) <= n < 2 ^ (bitSize - 1).
Proof.
  intros Hb Hu. unfold strconv.int_range.
  destruct neg; cbn [negb andb].
  - destruct (2 ^ (bitSize - 1) <? un) eqn:E; [discriminate|]. intros [= <-].
    apply Z.ltb_ge in E. assert (0 < 2 ^ (bitSize - 1)) by (apply Z.pow_pos_nonneg; lia). lia.
  - destruct (2 ^ (bitSize - 1) <=? un) eqn:E; [discriminate|]. intros [= <-].
    apply Z.leb_gt in E. lia.
Qed.

(** A value [ParseInt] accepts fits in [bitSize] bits. *)
Lemma ParseInt_range (s : string) (base bitSize n : Z) :
  1 <= bitSize -> strconv.ParseInt s base bitSize = (n, None) ->
  - 2 ^ (bitSize - 1) <= n < 2 ^ (bitSize - 1).
Proof.
  intros Hb. unfold strconv.ParseInt. destruct s as [|c r]; [discriminate|].
  match goal with |- (let '(_, _) := ?x in _) = _ -> _ => destruct x as [neg u] end.
  pose proof (ParseUint_nonneg u base bitSize ltac:(lia)) as Hn.
  destruct (strconv.ParseUint u base bitSize) as [un [[fn why]|]]; cbn [fst] in Hn.
  - destruct (String.eqb why strconv.ErrRange); [|discriminate]. apply int_range_bounds; assumption.
  - apply int_range_bounds; assumption.
Qed.

Lemma int32_of_small (z : Z) : - 2 ^ 31 <= z < 2 ^ 31 -> kubeadm.int32_of z = z.
Proof.
  intros H. unfold kubeadm.int32_of. rewrite Z.mod_small by lia. lia.
Qed.

(** X12: [GetKubeadmCfg] on a configuration whose API server URL is [u]:
    a port [ParseInt] rejects makes it return the zero configuration with
    that error; on success, the bind port is 443 when the URL has no port
    and otherwise exactly the value [ParseInt] read (the [int32]
    conversion never wraps), the etcd endpoints joined back with commas are
    the configured endpoint string (none when it is empty), the Kubernetes
    version is the configured one, and the advertise address is what
    [getHost] returns for the URL. *)
Theorem X12_GetKubeadmCfg_fields (dns svc : string) (k : kubeadm.Config) (u : url.URL) :
  kubeadm.APIServer k = Some u ->
  (url.portOnly (url.Host u) <> EmptyString ->
   forall n e, strconv.ParseInt (url.portOnly (url.Host u)) 10 32 = (n, Some e) ->
   kubeadm.GetKubeadmCfg dns svc k = Ok (kubeadmapi.MasterConfiguration_zero, Some e)) /\
  (forall cfg, kubeadm.GetKubeadmCfg dns svc k = Ok (cfg, None) ->
   (if String.eqb (url.portOnly (url.Host u)) EmptyString then kubeadmapi.BindPort cfg = 443
    else strconv.ParseInt (url.portOnly (url.Host u)) 10 32 = (kubeadmapi.BindPort cfg, None)) /\
   (etcd.Endpoints (kubeadm.EtcdClientConfig k) <> EmptyString ->
    String.concat "," (kubeadmapi.Endpoints cfg) = etcd.Endpoints (kubeadm.EtcdClientConfig k)) /\
   (etcd.Endpoints (kubeadm.EtcdClientConfig k) = EmptyString -> kubeadmapi.Endpoints cfg = []) /\
   kubeadmapi.KubernetesVersion cfg = kubeadm.KubeVersion k /\
   kubeadm.getHost (Some u) = Ok (kubeadmapi.AdvertiseAddress cfg, None)).
Proof.
  intros Hk. unfold kubeadm.GetKubeadmCfg. rewrite Hk. cbv zeta. split.
  - intros Hp n e He. apply String.eqb_neq in Hp. rewrite Hp, He. reflexivity.
  - intros cfg.
    destruct (String.eqb (url.portOnly (url.Host u)) EmptyString) eqn:Ep.
    2: destruct (strconv.ParseInt (url.portOnly (url.Host u)) 10 32) as [i64 [e|]] eqn:Hp;
       [discriminate|].
    all: destruct (kubeadm.getHost (Some u)) as [[adv [e|]]|m] eqn:Hg;
      try discriminate; intros [= <-]; cbn -[split_comma String.concat].
    all: split; [|split; [|split; [|split]]];
      [ | intros He; destruct (etcd.Endpoints _) as [|c r];
          [contradiction He; reflexivity | apply split_comma_concat]
        | intros He; rewrite He; reflexivity
        | destruct (String.eqb (kubeadm.KubeVersion k) EmptyString) eqn:Ev; cbn [negb];
          [symmetry; apply String.eqb_eq; exact Ev | reflexivity]
        | reflexivity ].
    + reflexivity.
    + cbn. f_equal. symmetry. apply int32_of_small.
      apply (ParseInt_range (url.portOnly (url.Host u)) 10 32); [lia|exact Hp].
Qed.

Lemma X12_GetKubeadmCfg_fields_witness :
  kubeadm.GetKubeadmCfg "cluster.local" "10.96.0.0/12" (cfg_with_api "api.example.com:64x")
    = Ok (kubeadmapi.MasterConfiguration_zero,
          Some (strconv.numError "ParseInt" "64x" strconv.ErrSyntax)) /\
  ((if String.eqb "6443" EmptyString then kubeadmapi.BindPort api_6443_cfg = 443
    else strconv.ParseInt "6443" 10 32 = (kubeadmapi.BindPort api_6443_cfg, None)) /\
   (EmptyString <> EmptyString -> String.concat "," (kubeadmapi.Endpoints api_6443_cfg) = EmptyString) /\
   (EmptyString = EmptyString -> kubeadmapi.Endpoints api_6443_cfg = []) /\
   kubeadmapi.KubernetesVersion api_6443_cfg = EmptyString /\
   kubeadm.getHost (Some (url.mkURL "https" "api.example.com:6443" EmptyString))
     = Ok (kubeadmapi.AdvertiseAddress api_6443_cfg, None)).
Proof.
  split.
  - exact (proj1 (X12_GetKubeadmCfg_fields "cluster.local" "10.96.0.0/12"
                    (cfg_with_api "api.example.com:64x") _ eq_refl)
             ltac:(discriminate) 0 _ ltac:(vm_compute; reflexivity)).
  - exact (proj2 (X12_GetKubeadmCfg_fields "cluster.local" "10.96.0.0/12"
                    (cfg_with_api "api.example.com:6443") _ eq_refl)
             api_6443_cfg ltac:(vm_compute; reflexivity)).
Defined.

(** X13: [WriteManifests] writes no static pod manifest when the API
    server URL has a port [ParseInt] rejects; it returns that error and
    leaves the state untouched.  With no API server URL it panics before
    doing anything. *)
Theorem X13_WriteManifests_bad_port {World Node : Type} (denv : DEnv World Node)
    (dns svc : string) (k : kubeadm.Config) (s : DSt World) :
  (kubeadm.APIServer k = None -> kubeadm.WriteManifests denv dns svc k s = (s, Panic nil_deref)) /\
  (forall u n e, kubeadm.APIServer k = Some u -> url.portOnly (url.Host u) <> EmptyString ->
     strconv.ParseInt (url.portOnly (url.Host u)) 10 32 = (n, Some e) ->
     kubeadm.WriteManifests denv dns svc k s = (s, Ok (Some e))).
Proof.
  unfold kubeadm.WriteManifests, kubeadm.GetKubeadmCfg. split.
  - intros H. rewrite H. reflexivity.
  - intros u n e Hk Hp He. rewrite Hk. cbv zeta.
    apply String.eqb_neq in Hp. rewrite Hp, He. reflexivity.
Qed.

Lemma X13_WriteManifests_bad_port_witness :
  kubeadm.WriteManifests (drv_env false false []) "cluster.local" "10.96.0.0/12"
    (cfg_with_api "api.example.com:99999999999") drv_start
  = (drv_start, Ok (Some (strconv.numError "ParseInt" "99999999999" strconv.ErrRange))).
Proof.
  exact (proj2 (X13_WriteManifests_bad_port (drv_env false false []) "cluster.local"
                  "10.96.0.0/12" (cfg_with_api "api.example.com:99999999999") drv_start)
           _ 2147483647 _ eq_refl ltac:(discriminate) ltac:(vm_compute; reflexivity)).
Defined.

(** X14: [CreatePKI] panics on a nil API server URL; when [getHost]
    fails it returns that error without running any command; otherwise it
    runs exactly one command, [kubeadm alpha phase certs selfsign
    --apiserver-advertise-address 0.0.0.0 --cert-altnames <host>] with no
    input, and returns that command's error. *)
Theorem X14_CreatePKI_command {World Node : Type} (denv : DEnv World Node)
    (k : kubeadm.Config) (s : DSt World) :
  (kubeadm.APIServer k = None -> kubeadm.CreatePKI denv k s = (s, Panic nil_deref)) /\
  (forall u h e, kubeadm.APIServer k = Some u -> kubeadm.getHost (Some u) = Ok (h, Some e) ->
     kubeadm.CreatePKI denv k s = (s, Ok (Some e))) /\
  (forall u h w out e, kubeadm.APIServer k = Some u -> kubeadm.getHost (Some u) = Ok (h, None) ->
     d_exec denv kubeadm.cmdKubeadm (kubeadm.cmdOptsCerts ++ [h]) EmptyString (dworld s) = (w, (out, e)) ->
     kubeadm.CreatePKI denv k s =
     (mkDSt w (dtrace s ++ [DExec kubeadm.cmdKubeadm (kubeadm.cmdOptsCerts ++ [h]) EmptyString out e]),
      Ok e)).
Proof.
  unfold kubeadm.CreatePKI. split; [|split].
  - intros H. rewrite H. reflexivity.
  - intros u h e Hk Hg. rewrite Hk, Hg. reflexivity.
  - intros u h w out e Hk Hg Hx. rewrite Hk, Hg.
    unfold kubeadm.runKubeadm. cbv [mbind DM_bind mret DM_ret Exec demit]. rewrite Hx.
    destruct e; reflexivity.
Qed.

Lemma X14_CreatePKI_command_witness :
  kubeadm.CreatePKI (drv_env false false []) (cfg_with_api "a:b:c") drv_start
    = (drv_start, Ok (Some (ErrMsg "address a:b:c: too many colons in address"))) /\
  kubeadm.CreatePKI (drv_env false false []) (cfg_with_api "10.0.0.1:6443") drv_start
    = (mkDSt tt [DExec kubeadm.cmdKubeadm (kubeadm.cmdOptsCerts ++ ["10.0.0.1"]) EmptyString
                   "kubeconfig-contents" None], Ok None).
Proof.
  split.
  - exact (proj1 (proj2 (X14_CreatePKI_command (drv_env false false []) (cfg_with_api "a:b:c")
                           drv_start)) _ EmptyString _ eq_refl ltac:(vm_compute; reflexivity)).
  - exact (proj2 (proj2 (X14_CreatePKI_command (drv_env false false [])
                           (cfg_with_api "10.0.0.1:6443") drv_start))
             _ "10.0.0.1" tt "kubeconfig-contents" None eq_refl ltac:(vm_compute; reflexivity)
             eq_refl).
Defined.

Lemma createAKubeCfg_args {World Node : Type} (denv : DEnv World Node) (u : url.URL)
    (cn org : string) :
  (if (0 <? String.length org)%nat
   then (kubeadm.cmdOptsKubeconfig ++ ["--client-name"; cn; "--server"; d_url_String denv u])
        ++ ["--organization"; org]
   else kubeadm.cmdOptsKubeconfig ++ ["--client-name"; cn; "--server"; d_url_String denv u])
  = kubecfg_args denv u cn org.
Proof.
  unfold kubecfg_args. destruct (0 <? String.length org)%nat.
  - rewrite <- app_assoc. reflexivity.
  - rewrite app_nil_r. reflexivity.
Qed.

(** X15: [createAKubeCfg] panics on a nil API server URL.  Otherwise it
    runs [kubeadm alpha phase kubeconfig client-certs --client-name <cn>
    --server <url>], with [--organization <org>] appended only for a
    non-empty [org]; if the command fails it returns an error made of the
    command's output alone (its error is dropped) and writes nothing;
    otherwise it writes the output to [/etc/kubernetes/<file>] with mode
    0600 and returns the write's error. *)
Theorem X15_createAKubeCfg_steps {World Node : Type} (denv : DEnv World Node)
    (cfg : kubeadm.Config) (file cn org : string) (s : DSt World) :
  (kubeadm.APIServer cfg = None ->
   kubeadm.createAKubeCfg denv cfg file cn org s = (s, Panic nil_deref)) /\
  (forall u w out e, kubeadm.APIServer cfg = Some u ->
     d_exec denv kubeadm.cmdKubeadm (kubecfg_args denv u cn org) EmptyString (dworld s)
       = (w, (out, Some e)) ->
     kubeadm.createAKubeCfg denv cfg file cn org s =
     (mkDSt w (dtrace s ++ [DExec kubeadm.cmdKubeadm (kubecfg_args denv u cn org) EmptyString
                              out (Some e)]),
      Ok (Some (ErrMsg ("Error running kubeadm:" ++ out))))) /\
  (forall u w out w' e', kubeadm.APIServer cfg = Some u ->
     d_exec denv kubeadm.cmdKubeadm (kubecfg_args denv u cn org) EmptyString (dworld s)
       = (w, (out, None)) ->
     d_WriteFile denv (KubernetesDir ++ "/" ++ file)%string out 384 w = (w', e') ->
     kubeadm.createAKubeCfg denv cfg file cn org s =
     (mkDSt w' (dtrace s ++ [DExec kubeadm.cmdKubeadm (kubecfg_args denv u cn org) EmptyString
                               out None;
                             DWriteFile (KubernetesDir ++ "/" ++ file)%string out 384 e']),
      Ok e')).
Proof.
  unfold kubeadm.createAKubeCfg. split; [|split].
  - intros H. rewrite H. reflexivity.
  - intros u w out e Hk Hx. rewrite Hk. cbv zeta. rewrite createAKubeCfg_args.
    unfold kubeadm.runKubeadm. cbv [mbind DM_bind mret DM_ret Exec demit]. rewrite Hx.
    reflexivity.
  - intros u w out w' e' Hk Hx Hw. rewrite Hk. cbv zeta. rewrite createAKubeCfg_args.
    unfold kubeadm.runKubeadm. cbv [mbind DM_bind mret DM_ret Exec demit WriteFileD]. rewrite Hx.
    cbn [dworld dtrace]. rewrite Hw. cbn [dtrace]. rewrite <- app_assoc. reflexivity.
Qed.

Lemma X15_createAKubeCfg_steps_witness :
  kubeadm.createAKubeCfg (drv_env true false []) (cfg_with_api "10.0.0.1:6443")
    kubeadm.AdminKubeConfigFileName "kubernetes-admin" kubeadm.MastersGroup drv_start
  = (mkDSt tt [DExec kubeadm.cmdKubeadm
                 (kubecfg_args (drv_env true false []) (url.mkURL "https" "10.0.0.1:6443" EmptyString)
                    "kubernetes-admin" kubeadm.MastersGroup) EmptyString "permission denied"
                 (Some (ErrMsg "exit status 1"))],
     Ok (Some (ErrMsg ("Error running kubeadm:" ++ "permission denied")))) /\
  kubeadm.createAKubeCfg (drv_env false false []) (cfg_with_api "10.0.0.1:6443")
    kubeadm.SchedulerKubeConfigFileName kubeadm.SchedulerUser EmptyString drv_start
  = (mkDSt tt [DExec kubeadm.cmdKubeadm
                 (kubecfg_args (drv_env false false []) (url.mkURL "https" "10.0.0.1:6443" EmptyString)
                    kubeadm.SchedulerUser EmptyString) EmptyString "kubeconfig-contents" None;
               DWriteFile (KubernetesDir ++ "/" ++ kubeadm.SchedulerKubeConfigFileName)%string
                 "kubeconfig-contents" 384 None],
     Ok None).
Proof.
  split.
  - exact (proj1 (proj2 (X15_createAKubeCfg_steps (drv_env true false [])
                           (cfg_with_api "10.0.0.1:6443") kubeadm.AdminKubeConfigFileName
                           "kubernetes-admin" kubeadm.MastersGroup drv_start))
             _ tt "permission denied" (ErrMsg "exit status 1") eq_refl eq_refl).
  - exact (proj2 (proj2 (X15_createAKubeCfg_steps (drv_env false false [])
                           (cfg_with_api "10.0.0.1:6443") kubeadm.SchedulerKubeConfigFileName
                           kubeadm.SchedulerUser EmptyString drv_start))
             _ tt "kubeconfig-contents" tt None eq_refl eq_refl eq_refl).
Defined.

Lemma createAKubeCfg_ok {World Node : Type} (denv : DEnv World Node)
    (cfg : kubeadm.Config) (file cn org : string) (s s' : DSt World) :
  kubeadm.createAKubeCfg denv cfg file cn org s = (s', Ok None) ->
  exists u out, kubeadm.APIServer cfg = Some u /\
    dtrace s' = dtrace s ++ kubecfg_events denv u file cn org out.
Proof.
  unfold kubeadm.createAKubeCfg. destruct (kubeadm.APIServer cfg) as [u|]; [|discriminate].
  cbv zeta. rewrite createAKubeCfg_args.
  unfold kubeadm.runKubeadm. cbv [mbind DM_bind mret DM_ret Exec demit WriteFileD].
  destruct (d_exec denv _ _ _ _) as [w [out [e|]]]; [discriminate|].
  cbn [dworld dtrace].
  destruct (d_WriteFile denv _ _ _ _) as [w' [e'|]]; [discriminate|].
  intros [= <-]. exists u, out. split; [reflexivity|]. cbn [dtrace].
  rewrite <- app_assoc. reflexivity.
Qed.

Lemma no_hostname_ext_refl {World : Type} (s : DSt World) : no_hostname_ext s s.
Proof. exists []. split; [symmetry; apply app_nil_r | intros ? ? []]. Qed.

Lemma no_hostname_ext_trans {World : Type} (s1 s2 s3 : DSt World) :
  no_hostname_ext s1 s2 -> no_hostname_ext s2 s3 -> no_hostname_ext s1 s3.
Proof.
  intros [l1 [H1 N1]] [l2 [H2 N2]]. exists (l1 ++ l2). split.
  - rewrite H2, H1. symmetry. apply app_assoc.
  - intros h e Hin. apply in_app_or in Hin as [Hin|Hin]; [exact (N1 h e Hin) | exact (N2 h e Hin)].
Qed.

Lemma createAKubeCfg_no_hostname {World Node : Type} (denv : DEnv World Node)
    (cfg : kubeadm.Config) (file cn org : string) (s s' : DSt World) r :
  kubeadm.createAKubeCfg denv cfg file cn org s = (s', r) -> no_hostname_ext s s'.
Proof.
  unfold kubeadm.createAKubeCfg. destruct (kubeadm.APIServer cfg) as [u|].
  2:{ intros [= <- _]. apply no_hostname_ext_refl. }
  cbv zeta. unfold kubeadm.runKubeadm. cbv [mbind DM_bind mret DM_ret Exec demit WriteFileD].
  destruct (d_exec denv _ _ _ _) as [w [out [e|]]].
  - intros [= <- _]. exists [DExec kubeadm.cmdKubeadm
      (if (0 <? String.length org)%nat
       then (kubeadm.cmdOptsKubeconfig ++ ["--client-name"; cn; "--server"; d_url_String denv u])
            ++ ["--organization"; org]
       else kubeadm.cmdOptsKubeconfig ++ ["--client-name"; cn; "--server"; d_url_String denv u])
      EmptyString out (Some e)].
    split; [reflexivity|]. intros h e' [H|[]]; discriminate.
  - cbn [dworld dtrace].
    destruct (d_WriteFile denv _ _ _ _) as [w' e'].
    intros [= <- _]. cbn [dtrace]. rewrite <- app_assoc. eexists. split; [reflexivity|].
    intros h e0 [H|[H|[]]]; discriminate.
Qed.

Ltac chain_no_hostname denv :=
  repeat match goal with
  | |- context [kubeadm.createAKubeCfg denv ?a ?b ?c ?d ?st] =>
    let HN := fresh "HN" in
    pose proof (createAKubeCfg_no_hostname denv a b c d st) as HN;
    destruct (kubeadm.createAKubeCfg denv a b c d st) as [?s1 [[?e1|]|?m1]];
    specialize (HN _ _ eq_refl); cbv beta iota
  end.

Ltac close_no_hostname :=
  repeat match goal with
  | H1 : no_hostname_ext ?a ?b, H2 : no_hostname_ext ?b ?c |- _ =>
    pose proof (no_hostname_ext_trans _ _ _ H1 H2); clear H1 H2
  end;
  first [assumption | apply no_hostname_ext_refl].

(** X16: [CreateKubeConfig] looks up the host name only when [KubeletID]
    is empty, and keeps it as [KubeletID] even when the lookup fails, in
    which case it returns that error before creating anything.  A
    successful run creates, in order, admin.conf (client
    [kubernetes-admin] in [system:masters]), kubelet.conf (client
    [system:node:<KubeletID>] in [system:nodes]), controller-manager.conf
    and scheduler.conf (no organisation), each by one kubeadm command whose
    output is written to the file.  In every run, including failed and
    panicking ones: with a non-empty [KubeletID] no host name lookup is
    made and the configuration is returned unchanged; with an empty one
    the lookup is the first event, and its answer becomes [KubeletID]. *)
Theorem X16_CreateKubeConfig_files {World Node : Type} (denv : DEnv World Node)
    (k : kubeadm.Config) (s : DSt World) :
  (forall w h e, kubeadm.KubeletID k = EmptyString -> d_Hostname denv (dworld s) = (w, (h, Some e)) ->
     kubeadm.CreateKubeConfig denv k s =
     (mkDSt w (dtrace s ++ [DHostname h (Some e)]), Ok (kubeadm.with_KubeletID h k, Some e))) /\
  (forall s' k', kubeadm.CreateKubeConfig denv k s = (s', Ok (k', None)) ->
     exists u pre o1 o2 o3 o4, kubeadm.APIServer k = Some u /\
     ((kubeadm.KubeletID k <> EmptyString /\ k' = k /\ pre = []) \/
      (kubeadm.KubeletID k = EmptyString /\
       exists h, k' = kubeadm.with_KubeletID h k /\ pre = [DHostname h None])) /\
     dtrace s' = dtrace s ++ pre
       ++ kubecfg_events denv u kubeadm.AdminKubeConfigFileName "kubernetes-admin"
            kubeadm.MastersGroup o1
       ++ kubecfg_events denv u kubeadm.KubeletKubeConfigFileName
            ("system:node:" ++ kubeadm.KubeletID k')%string kubeadm.NodesGroup o2
       ++ kubecfg_events denv u kubeadm.ControllerManagerKubeConfigFileName
            kubeadm.ControllerManagerUser EmptyString o3
       ++ kubecfg_events denv u kubeadm.SchedulerKubeConfigFileName
            kubeadm.SchedulerUser EmptyString o4) /\
  (forall s' r, kubeadm.CreateKubeConfig denv k s = (s', r) ->
     (kubeadm.KubeletID k <> EmptyString ->
        no_hostname_ext s s' /\ forall k' e, r = Ok (k', e) -> k' = k) /\
     (kubeadm.KubeletID k = EmptyString ->
        exists w h e, no_hostname_ext (mkDSt w (dtrace s ++ [DHostname h e])) s' /\
          forall k' e', r = Ok (k', e') -> k' = kubeadm.with_KubeletID h k)).
Proof.
  unfold kubeadm.CreateKubeConfig. cbv beta delta [mbind DM_bind mret DM_ret Hostname demit].
  split; [|split].
  - intros w h e Hid Hh.
    assert (E : String.eqb (kubeadm.KubeletID k) EmptyString = true) by (rewrite Hid; reflexivity).
    rewrite E. cbv beta iota. rewrite Hh. reflexivity.
  - destruct (String.eqb (kubeadm.KubeletID k) EmptyString) eqn:Eid.
    + cbv beta iota.
      destruct (d_Hostname denv (dworld s)) as [w [h [e|]]] eqn:Hh; [intros ? ? [=]|].
      cbv beta iota. cbn [dtrace dworld].
      repeat match goal with
      | |- context [kubeadm.createAKubeCfg denv ?a ?b ?c ?d ?st] =>
        let HO := fresh "HO" in
        pose proof (createAKubeCfg_ok denv a b c d st) as HO;
        destruct (kubeadm.createAKubeCfg denv a b c d st) as [? [[?|]|?]];
        [intros ? ? [=] | | intros ? ? [=]];
        specialize (HO _ eq_refl)
      end.
      intros s' k' [= <- <-].
      destruct HO as (u & o1 & Hu & H1). destruct HO0 as (u2 & o2 & Hu2 & H2).
      destruct HO1 as (u3 & o3 & Hu3 & H3). destruct HO2 as (u4 & o4 & Hu4 & H4).
      cbn [kubeadm.with_KubeletID kubeadm.APIServer kubeadm.KubeletID] in *.
      rewrite Hu in Hu2, Hu3, Hu4. injection Hu2 as <-. injection Hu3 as <-. injection Hu4 as <-.
      exists u, [DHostname h None], o1, o2, o3, o4. split; [exact Hu|]. split.
      * right. split; [apply String.eqb_eq, Eid|]. exists h. split; reflexivity.
      * rewrite H4, H3, H2, H1. cbn [dtrace]. rewrite <- !app_assoc. reflexivity.
    + cbv beta iota.
      repeat match goal with
      | |- context [kubeadm.createAKubeCfg denv ?a ?b ?c ?d ?st] =>
        let HO := fresh "HO" in
        pose proof (createAKubeCfg_ok denv a b c d st) as HO;
        destruct (kubeadm.createAKubeCfg denv a b c d st) as [? [[?|]|?]];
        [intros ? ? [=] | | intros ? ? [=]];
        specialize (HO _ eq_refl)
      end.
      intros s' k' [= <- <-].
      destruct HO as (u & o1 & Hu & H1). destruct HO0 as (u2 & o2 & Hu2 & H2).
      destruct HO1 as (u3 & o3 & Hu3 & H3). destruct HO2 as (u4 & o4 & Hu4 & H4).
      rewrite Hu in Hu2, Hu3, Hu4. injection Hu2 as <-. injection Hu3 as <-. injection Hu4 as <-.
      exists u, [], o1, o2, o3, o4. split; [exact Hu|]. split.
      * left. split; [apply String.eqb_neq, Eid|]. split; reflexivity.
      * rewrite H4, H3, H2, H1. rewrite <- !app_assoc. reflexivity.
  - intros s' r Hrun. destruct (String.eqb (kubeadm.KubeletID k) EmptyString) eqn:Eid.
    + split; [intros Hne; apply String.eqb_eq in Eid; contradiction|intros _].
      destruct (d_Hostname denv (dworld s)) as [w [h e]]. exists w, h, e.
      revert Hrun. cbv beta iota. cbn [dtrace dworld].
      destruct e as [e|]; cbv beta iota.
      * intros [= <- <-]. split; [apply no_hostname_ext_refl|]. intros ? ? [= <- _]. reflexivity.
      * chain_no_hostname denv;
          intros Heq; injection Heq; clear Heq; intros; subst;
          (split; [close_no_hostname | intros ? ? Hr; first [discriminate Hr | injection Hr; intros; subst; reflexivity]]).
    + split; [intros _|intros Hid; apply String.eqb_neq in Eid; contradiction].
      revert Hrun. cbv beta iota.
      chain_no_hostname denv;
        intros Heq; injection Heq; clear Heq; intros; subst;
          (split; [close_no_hostname | intros ? ? Hr; first [discriminate Hr | injection Hr; intros; subst; reflexivity]]).
Qed.

Lemma X16_CreateKubeConfig_files_witness :
  kubeadm.CreateKubeConfig (drv_env false true []) (cfg_with_api "10.0.0.1:6443") drv_start
  = (mkDSt tt [DHostname EmptyString (Some (ErrMsg "no host name"))],
     Ok (kubeadm.with_KubeletID EmptyString (cfg_with_api "10.0.0.1:6443"),
         Some (ErrMsg "no host name"))).
Proof.
  exact (proj1 (X16_CreateKubeConfig_files (drv_env false true []) (cfg_with_api "10.0.0.1:6443")
                  drv_start) tt EmptyString _ eq_refl eq_refl).
Defined.

(** X17: [CopyKubeCa] checks the persistent CA certificate, then the key:
    if either does not exist it returns an error naming that path and
    copies nothing.  Any other outcome of these checks is ignored.  A
    successful run creates the PKI directory (mode 0777) only when it does
    not exist, ignoring the result of that, and ends by copying the
    certificate to [/etc/kubernetes/pki/ca.crt] and symlinking the key to
    [/etc/kubernetes/pki/ca.key]. *)
Theorem X17_CopyKubeCa_steps {World Node : Type} (denv : DEnv World Node) (k : kmm.Kmm)
    (s : DSt World) :
  (forall w r, d_Stat denv (kmm.KubePersistentCaCert k) (dworld s) = (w, r) -> IsNotExist r = true ->
     kmm.CopyKubeCa denv k s =
     (mkDSt w (dtrace s ++ [DStat (kmm.KubePersistentCaCert k) r]),
      Ok (Some (ErrMsg ("kube CA cert not found at: " ++ kmm.KubePersistentCaCert k))))) /\
  (forall w1 r1 w r, d_Stat denv (kmm.KubePersistentCaCert k) (dworld s) = (w1, r1) ->
     IsNotExist r1 = false ->
     d_Stat denv (kmm.KubePersistentCaKey k) w1 = (w, r) -> IsNotExist r = true ->
     kmm.CopyKubeCa denv k s =
     (mkDSt w (dtrace s ++ [DStat (kmm.KubePersistentCaCert k) r1; DStat (kmm.KubePersistentCaKey k) r]),
      Ok (Some (ErrMsg ("kube CA key not found at: " ++ kmm.KubePersistentCaKey k))))) /\
  (forall s', kmm.CopyKubeCa denv k s = (s', Ok None) ->
     exists r1 r2 r3 mk, IsNotExist r1 = false /\ IsNotExist r2 = false /\
       (IsNotExist r3 = true -> exists e, mk = [DMkdir PkiDir kmm.ModePerm e]) /\
       (IsNotExist r3 = false -> mk = []) /\
       dtrace s' = dtrace s ++ [DStat (kmm.KubePersistentCaCert k) r1;
                                DStat (kmm.KubePersistentCaKey k) r2; DStat PkiDir r3] ++ mk
                   ++ [DCopyFile (kmm.KubePersistentCaCert k) kubeadm.CaCertFile None;
                       DSymlinkFile (kmm.KubePersistentCaKey k) kubeadm.CaKeyFile None]).
Proof.
  unfold kmm.CopyKubeCa.
  cbv beta delta [mbind DM_bind mret DM_ret Stat Mkdir CopyFile SymlinkFile demit].
  split; [|split].
  - intros w r H1 Hr. rewrite H1. cbv beta iota. rewrite Hr. reflexivity.
  - intros w1 r1 w r H1 Hr1 H2 Hr. rewrite H1. cbv beta iota. rewrite Hr1. cbn [dworld].
    rewrite H2. cbv beta iota. rewrite Hr. cbv beta iota. cbn [dtrace].
    rewrite <- app_assoc. reflexivity.
  - destruct (d_Stat denv (kmm.KubePersistentCaCert k) (dworld s)) as [w1 r1]. cbv beta iota.
    destruct (IsNotExist r1) eqn:E1; [intros ? [=]|]. cbn [dworld dtrace].
    destruct (d_Stat denv (kmm.KubePersistentCaKey k) w1) as [w2 r2]. cbv beta iota.
    destruct (IsNotExist r2) eqn:E2; [intros ? [=]|]. cbn [dworld dtrace].
    destruct (d_Stat denv PkiDir w2) as [w3 r3]. cbv beta iota.
    destruct (IsNotExist r3) eqn:E3; cbn [dworld dtrace].
    + destruct (d_Mkdir denv PkiDir kmm.ModePerm w3) as [w4 em]. cbv beta iota. cbn [dworld dtrace].
      destruct (d_CopyFile denv _ _ w4) as [w5 [ec|]]; cbv beta iota; [intros ? [=]|].
      cbn [dworld dtrace].
      destruct (d_SymlinkFile denv _ _ w5) as [w6 [es|]]; cbv beta iota; [intros ? [=]|].
      intros s' [= <-]. exists r1, r2, r3, [DMkdir PkiDir kmm.ModePerm em].
      split; [exact E1|]. split; [exact E2|]. split; [intros _; exists em; reflexivity|].
      split; [intros H; congruence|]. cbn [dtrace]. rewrite <- !app_assoc. reflexivity.
    + destruct (d_CopyFile denv _ _ w3) as [w5 [ec|]]; cbv beta iota; [intros ? [=]|].
      cbn [dworld dtrace].
      destruct (d_SymlinkFile denv _ _ w5) as [w6 [es|]]; cbv beta iota; [intros ? [=]|].
      intros s' [= <-]. exists r1, r2, r3, [].
      split; [exact E1|]. split; [exact E2|]. split; [intros H; congruence|].
      split; [reflexivity|]. cbn [dtrace]. rewrite <- !app_assoc. reflexivity.
Qed.

Lemma X17_CopyKubeCa_steps_witness :
  kmm.CopyKubeCa (drv_env false false ["/srv/kube/ca.crt"]) ca_kmm drv_start
  = (mkDSt tt [DStat "/srv/kube/ca.crt" (StatErr true (ErrMsg "no such file or directory"))],
     Ok (Some (ErrMsg ("kube CA cert not found at: " ++ "/srv/kube/ca.crt")))).
Proof.
  exact (proj1 (X17_CopyKubeCa_steps (drv_env false false ["/srv/kube/ca.crt"]) ca_kmm drv_start)
           tt _ eq_refl eq_refl).
Defined.

(** X18: [UpdateCloudCfg] does nothing without a cloud provider.  With
    one, a successful run asks the provider for its node interface and
    node data, and leaves a configuration whose API server is the parsed,
    non-empty URL of the node data, whose Kubernetes version is the
    provider's non-empty version, whose cluster name, labels, taints and
    kubelet arguments are the provider's, and whose extra arguments are
    the provider's argument strings read by [stringToMap]; the provider
    and the CA paths are kept.  An empty URL is an error, returned after
    the cluster name has already been replaced, with the kubeadm
    configuration left as it was. *)
Theorem X18_UpdateCloudCfg_result {World Node : Type} (denv : DEnv World Node)
    (k : kmm.Kmm) (s : DSt World) :
  let provider := kubeadm.CloudProvider (kmm.KubeadmCfg k) in
  (provider = EmptyString -> kmm.UpdateCloudCfg denv k s = (s, Ok (k, None))) /\
  (forall s' k', kmm.UpdateCloudCfg denv k s = (s', Ok (k', None)) -> provider <> EmptyString ->
     exists u nd,
       dtrace s' = dtrace s ++ [DNodeInterface provider None; DGetNodeData None] /\
       cloudprovider.KubeAPIURL nd <> EmptyString /\
       d_url_Parse denv (cloudprovider.KubeAPIURL nd) = inl u /\
       kubeadm.APIServer (kmm.KubeadmCfg k') = Some u /\
       kubeadm.KubeVersion (kmm.KubeadmCfg k') = cloudprovider.KubeVersion nd /\
       cloudprovider.KubeVersion nd <> EmptyString /\
       kmm.ClusterName k' = cloudprovider.ClusterName nd /\
       kmm.NodeLabels k' = cloudprovider.Labels nd /\
       kmm.NodeTaints k' = cloudprovider.Taints nd /\
       kmm.KubeletExtraArgs k' = cloudprovider.KubeletExtraArgs (cloudprovider.KubeArgs_ nd) /\
       kubeadm.APIServerExtraArgs (kmm.KubeadmCfg k')
         = stringToMap (cloudprovider.APIServerExtraArgs (cloudprovider.KubeArgs_ nd)) /\
       kubeadm.ControllerManagerExtraArgs (kmm.KubeadmCfg k')
         = stringToMap (cloudprovider.ControllerManagerExtraArgs (cloudprovider.KubeArgs_ nd)) /\
       kubeadm.SchedulerExtraArgs (kmm.KubeadmCfg k')
         = stringToMap (cloudprovider.SchedulerExtraArgs (cloudprovider.KubeArgs_ nd)) /\
       kubeadm.CloudProvider (kmm.KubeadmCfg k') = provider /\
       kmm.KubePersistentCaCert k' = kmm.KubePersistentCaCert k /\
       kmm.KubePersistentCaKey k' = kmm.KubePersistentCaKey k) /\
  (forall w1 node w2 nd u, provider <> EmptyString ->
     d_getNodeInterface denv provider (dworld s) = (w1, inl node) ->
     d_GetNodeData denv node w1 = (w2, inl nd) ->
     cloudprovider.KubeAPIURL nd = EmptyString -> d_url_Parse denv EmptyString = inl u ->
     kmm.UpdateCloudCfg denv k s =
     (mkDSt w2 (dtrace s ++ [DNodeInterface provider None; DGetNodeData None]),
      Ok (kmm.with_ClusterName (cloudprovider.ClusterName nd) k,
          Some (ErrMsg ("empty API server [" ++ EmptyString ++ "] obtained from cloud provider"))))).
Proof.
  intros provider. unfold kmm.UpdateCloudCfg. fold provider.
  cbv beta delta [mbind DM_bind mret DM_ret getNodeInterface GetNodeData demit].
  split; [|split].
  - intros H. rewrite H. reflexivity.
  - intros s' k' Hrun Hp. revert Hrun.
    apply String.eqb_neq in Hp. rewrite Hp. cbv beta iota zeta delta [negb].
    destruct (d_getNodeInterface denv provider (dworld s)) as [w1 [node|e]]; cbv beta iota;
      [|intros [=]].
    cbn [dworld dtrace].
    destruct (d_GetNodeData denv node w1) as [w2 [nd|e]]; cbv beta iota; [|intros [=]].
    destruct (d_url_Parse denv (cloudprovider.KubeAPIURL nd)) as [u|e] eqn:Hu; [|intros [=]].
    destruct (0 <? String.length (cloudprovider.KubeAPIURL nd))%nat eqn:Hl; [|intros [=]].
    cbn [kubeadm.KubeVersion kubeadm.with_KubeVersion].
    destruct (String.length (cloudprovider.KubeVersion nd) =? 0)%nat eqn:Hv; [intros [=]|].
    intros [= <- <-]. exists u, nd. cbn [dtrace]. rewrite <- app_assoc.
    split; [reflexivity|]. split.
    { intros He. rewrite He in Hl. discriminate. }
    split; [exact Hu|]. split; [reflexivity|]. split; [reflexivity|]. split.
    { intros He. rewrite He in Hv. discriminate. }
    repeat split.
  - intros w1 node w2 nd u Hp Hn Hd He Hu.
    apply String.eqb_neq in Hp. rewrite Hp. cbv beta iota zeta delta [negb].
    rewrite Hn. cbv beta iota. cbn [dworld]. rewrite Hd. cbv beta iota.
    cbn [kmm.with_ClusterName]. rewrite He, Hu. cbn [dtrace]. rewrite <- app_assoc. reflexivity.
Qed.

Lemma UpdateCloudCfg_ok_APIServer {World Node : Type} (denv : DEnv World Node)
    (k : kmm.Kmm) (s s' : DSt World) (k' : kmm.Kmm) :
  kmm.UpdateCloudCfg denv k s = (s', Ok (k', None)) ->
  kubeadm.CloudProvider (kmm.KubeadmCfg k) <> EmptyString ->
  exists u, kubeadm.APIServer (kmm.KubeadmCfg k') = Some u.
Proof.
  unfold kmm.UpdateCloudCfg.
  cbv beta delta [mbind DM_bind mret DM_ret getNodeInterface GetNodeData demit].
  intros Hrun Hp. revert Hrun.
  apply String.eqb_neq in Hp. rewrite Hp. cbv beta iota zeta delta [negb].
  destruct (d_getNodeInterface _ _ _) as [w1 [node|e]]; cbv beta iota; [|intros [=]].
  cbn [dworld dtrace].
  destruct (d_GetNodeData denv node w1) as [w2 [nd|e]]; cbv beta iota; [|intros [=]].
  destruct (d_url_Parse denv (cloudprovider.KubeAPIURL nd)) as [u|e]; [|intros [=]].
  destruct (0 <? String.length (cloudprovider.KubeAPIURL nd))%nat; [|intros [=]].
  cbn [kubeadm.KubeVersion kubeadm.with_KubeVersion].
  destruct (String.length (cloudprovider.KubeVersion nd) =? 0)%nat; [intros [=]|].
  intros [= <- <-]. exists u. reflexivity.
Qed.

Lemma compute_Kmm_provider (cloud : string) :
  kubeadm.CloudProvider (kmm.KubeadmCfg (kmm.compute_Kmm cloud)) = cloud.
Proof. reflexivity. Qed.

(** X19: [SetupCompute] with no cloud provider panics on the nil API
    server URL, leaving the state as it was.  Otherwise an error of
    [UpdateCloudCfg] is returned as is; after a successful update the API
    server is set, a failure to write the token environment file is
    returned wrapped and no kubelet is started, and after a written token
    file the kubelet is started as a non-master, its error is discarded,
    and the outcome is [Returned None] with [exitOnCompletion] and the
    endless loop ([Running]) without it. *)
Theorem X19_SetupCompute_steps {World Node : Type} (denv : DEnv World Node)
    (cloud : string) (b : bool) (s : DSt World) :
  (cloud = EmptyString -> kmm.SetupCompute denv cloud b s = (s, Panic nil_deref)) /\
  (forall s1 k1 e, kmm.UpdateCloudCfg denv (kmm.compute_Kmm cloud) s = (s1, Ok (k1, Some e)) ->
     kmm.SetupCompute denv cloud b s = (s1, Ok (Returned (Some e)))) /\
  (forall s1 k1, kmm.UpdateCloudCfg denv (kmm.compute_Kmm cloud) s = (s1, Ok (k1, None)) ->
     cloud <> EmptyString ->
     exists u, kubeadm.APIServer (kmm.KubeadmCfg k1) = Some u /\
       (forall w2 e, d_WriteKetoTokenEnv denv cloud (d_url_String denv u) (dworld s1) = (w2, Some e) ->
          kmm.SetupCompute denv cloud b s =
          (mkDSt w2 (dtrace s1 ++ [DTokenEnv cloud (d_url_String denv u) (Some e)]),
           Ok (Returned (Some (ErrWrap "error saving KetoTokenEnv" e))))) /\
       (forall w2 w3 ek, d_WriteKetoTokenEnv denv cloud (d_url_String denv u) (dworld s1) = (w2, None) ->
          d_CreateAndStartKubelet denv false w2 = (w3, ek) ->
          kmm.SetupCompute denv cloud b s =
          (mkDSt w3 (dtrace s1 ++ [DTokenEnv cloud (d_url_String denv u) None; DKubelet false ek]),
           Ok (if b then Returned None else Running)))).
Proof.
  split; [|split].
  - intros ->. reflexivity.
  - intros s1 k1 e Hu. unfold kmm.SetupCompute.
    cbv beta delta [mbind DM_bind mret DM_ret]. rewrite Hu. reflexivity.
  - intros s1 k1 Hu Hc.
    destruct (UpdateCloudCfg_ok_APIServer denv _ _ _ _ Hu) as [u Hapi];
      [rewrite compute_Kmm_provider; exact Hc|].
    exists u. split; [exact Hapi|]. split.
    + intros w2 e Ht. unfold kmm.SetupCompute.
      cbv beta delta [mbind DM_bind mret DM_ret WriteKetoTokenEnv demit].
      rewrite Hu. cbv beta iota. rewrite Hapi. cbv beta iota. rewrite Ht. reflexivity.
    + intros w2 w3 ek Ht Hk. unfold kmm.SetupCompute.
      cbv beta delta [mbind DM_bind mret DM_ret WriteKetoTokenEnv CreateAndStartKubeletD demit].
      rewrite Hu. cbv beta iota. rewrite Hapi. cbv beta iota. rewrite Ht. cbv beta iota.
      cbn [dworld dtrace]. rewrite Hk. rewrite <- app_assoc.
      destruct b; reflexivity.
Qed.
